(** * Order lifecycle and payment dispatch of the 3D figurine platform backend

    A shallow embedding of
    - [src/services/database.ts]   ([OrderService]),
    - [src/controllers/orderController.ts],
    - [src/services/payment.ts]    (the four gateways and [PaymentManager]),
    - [src/routes/paymentController.ts],
    together with the properties the specification states about them.

    Layout: the JavaScript [number] type first (IEEE 754 binary64, written
    out over [Q]), then the order store, the gateways, the dispatcher and the
    HTTP handlers, and finally the theorems. *)

From Stdlib Require Import ZArith QArith Qround Qpower Qabs Lqa Lia.
From Stdlib Require Import String List.
From Stdlib Require PrimFloat FloatOps SpecFloat Uint63.
From stdpp Require Import gmap strings sorting.
Import ListNotations.

(* ===================================================================== *)
(** ** JavaScript numbers *)
(* ===================================================================== *)

(** Every arithmetic operator of the source works on the JavaScript
    [number] type: the exact result of the operation is computed and then
    rounded to the nearest binary64 value, ties to even.  The model keeps a
    finite number as the rational it denotes; the sign of zero is not
    tracked (no function below observes it). *)
Module JsNumber.

Local Open Scope Q_scope.

Inductive number : Type :=
  | NaN : number
  | Inf (negative : bool) : number
  | Num (q : Q) : number.

Definition pow2 (e : Z) : Q := 2 ^ e.

(** [ilog2 x] is the binary exponent of [x > 0]: [2^(ilog2 x) <= x < 2^(ilog2 x + 1)]. *)
Definition ilog2 (x : Q) : Z :=
  let g := (Z.log2 (Qnum x) - Z.log2 (Zpos (Qden x)))%Z in
  if Qle_bool (pow2 g) x then g else (g - 1)%Z.

(** Round to the nearest integer, ties to the even one. *)
Definition rne (y : Q) : Z :=
  let f := Qfloor y in
  match Qcompare (y - inject_Z f) (1 # 2) with
  | Lt => f
  | Gt => (f + 1)%Z
  | Eq => if Z.even f then f else (f + 1)%Z
  end.

(** Exponent of the last place of the binary64 value nearest to [x > 0]:
    53 significant bits, and never below the subnormal spacing [2^-1074]. *)
Definition quantum (x : Q) : Z := Z.max (ilog2 x - 52) (-1074).

Definition round_pos (x : Q) : Q :=
  let e := quantum x in inject_Z (rne (x / pow2 e)) * pow2 e.

(** [fl x]: the binary64 value of the real number [x]. *)
Definition fl (x : Q) : number :=
  match Qnum x with
  | Z0 => Num 0
  | Zpos _ =>
      let r := round_pos x in
      if Qle_bool (pow2 1024) r then Inf false else Num (Qred r)
  | Zneg _ =>
      let r := round_pos (- x) in
      if Qle_bool (pow2 1024) r then Inf true else Num (Qred (- r))
  end.

Definition is_zero (q : Q) : bool := Qeq_bool q 0.
Definition is_neg (q : Q) : bool := match Qnum q with Zneg _ => true | _ => false end.

(** [a * b] *)
Definition num_mul (a b : number) : number :=
  match a, b with
  | NaN, _ | _, NaN => NaN
  | Inf s, Inf t => Inf (xorb s t)
  | Inf s, Num q | Num q, Inf s => if is_zero q then NaN else Inf (xorb s (is_neg q))
  | Num p, Num q => fl (p * q)
  end.

(** [a / b] *)
Definition num_div (a b : number) : number :=
  match a, b with
  | NaN, _ | _, NaN => NaN
  | Inf _, Inf _ => NaN
  | Inf s, Num q => Inf (xorb s (is_neg q))
  | Num _, Inf _ => Num 0
  | Num p, Num q =>
      if is_zero q then (if is_zero p then NaN else Inf (is_neg p))
      else fl (p / q)
  end.

(** [a + b] *)
Definition num_add (a b : number) : number :=
  match a, b with
  | NaN, _ | _, NaN => NaN
  | Inf s, Inf t => if Bool.eqb s t then Inf s else NaN
  | Inf s, Num _ | Num _, Inf s => Inf s
  | Num p, Num q => fl (p + q)
  end.

(** [Math.round(x)]: the integer nearest to [x], ties towards +Infinity. *)
Definition Math_round (x : number) : number :=
  match x with
  | Num q => Num (inject_Z (Qfloor (q + (1 # 2))))
  | other => other
  end.

(** Truthiness of a number, as [||] and [if] test it. *)
Definition truthy (x : number) : bool :=
  match x with
  | NaN => false
  | Inf _ => true
  | Num q => negb (is_zero q)
  end.

(** A decimal literal of the source text, e.g. [0.029]. *)
Definition lit (q : Q) : number := fl q.

(** An integer that is a binary64 value as it stands. *)
Definition of_Z (z : Z) : number := Num (inject_Z z).

(** The relative error of one rounding is at most [2^-53]. *)
Definition u53 : Q := 1 # 9007199254740992.

End JsNumber.

(** The same numbers as the kernel's primitive binary64 floats compute
    them, to compare the model above with at given inputs. *)
Module Binary64.

Import JsNumber.
Local Open Scope Q_scope.

Definition number_of_float (f : PrimFloat.float) : number :=
  match FloatOps.Prim2SF f with
  | SpecFloat.S754_zero _ => Num 0
  | SpecFloat.S754_infinity s => Inf s
  | SpecFloat.S754_nan => NaN
  | SpecFloat.S754_finite s m e =>
      Num (Qred ((if s then -1 else 1) * inject_Z (Z.pos m) * pow2 e))
  end.

(** The float of an integer below [2^53]. *)
Definition float_of_Z (z : Z) : PrimFloat.float :=
  PrimFloat.of_uint63 (Uint63.of_Z z).

End Binary64.

(* ===================================================================== *)
(** ** Object literals used as lookup tables *)
(* ===================================================================== *)

(** [titles[status]] and [feeRates[method]] index a plain object literal.
    A key that is not an own property of the literal is looked up in
    [Object.prototype], whose members are functions (and, for [__proto__],
    the prototype object itself): all of them truthy, none a string or a
    number. *)
Module JsObject.

Local Open Scope string_scope.

Definition Object_prototype_names : list string :=
  [ "constructor"; "__defineGetter__"; "__defineSetter__"; "hasOwnProperty";
    "__lookupGetter__"; "__lookupSetter__"; "isPrototypeOf";
    "propertyIsEnumerable"; "toString"; "valueOf"; "__proto__";
    "toLocaleString" ].

Definition inherited (key : string) : bool :=
  bool_decide (key ∈ Object_prototype_names).

(** The value of [table[key] || fallback] when every own value of the
    table is truthy. *)
Inductive looked_up (A : Type) : Type :=
  | Val (a : A)                    (* an own value, or the fallback *)
  | ProtoMember (name : string).   (* a member of [Object.prototype] *)
Arguments Val {A} a.
Arguments ProtoMember {A} name.

Definition get_or {A : Type} (table : gmap string A) (key : string) (fallback : A)
  : looked_up A :=
  match table !! key with
  | Some a => Val a
  | None => if inherited key then ProtoMember key else Val fallback
  end.

End JsObject.

(* ===================================================================== *)
(** ** Exceptions *)
(* ===================================================================== *)

(** A call either returns or throws an [Error] carrying a message. *)
Inductive Throws (A : Type) : Type :=
  | Return (a : A)
  | Throw (message : string).
Arguments Return {A} a.
Arguments Throw {A} message.

(** [ApiResponse<T>] of [src/types/index.ts]: [{success: true, data}] or
    [{success: false, error: {code, message}}]. *)
Inductive ApiResponse (T : Type) : Type :=
  | Success (data : T)
  | Failure (code message : string).
Arguments Success {T} data.
Arguments Failure {T} code message.

Definition success {T : Type} (r : ApiResponse T) : bool :=
  match r with Success _ => true | Failure _ _ => false end.

(** [s || fallback] on an optional string: [undefined] and [""] are falsy. *)
Definition or_default (s : option string) (fallback : string) : string :=
  match s with
  | Some EmptyString | None => fallback
  | Some s' => s'
  end.

(* ===================================================================== *)
(** ** The order store: [src/services/database.ts], [OrderService] *)
(* ===================================================================== *)

Module OrderService.

Import JsNumber JsObject.
Local Open Scope string_scope.

(** Dates are milliseconds since the epoch. *)
Definition Date : Type := Z.

Record OrderTimeline : Type := mkOrderTimeline {
  tl_status : string;
  title : string;
  description : option string;
  completed : bool;
  completedAt : Date;
  createdAt : Date
}.

Record OrderItem : Type := mkOrderItem {
  product_name : string;
  product_images : list string;
  selectedSize_name : string;
  quantity : number;
  totalPrice : number
}.

(** An order row together with its timeline rows, the latter in the order
    in which they were inserted. *)
Record Order : Type := mkOrder {
  order_id : string;
  userId : string;
  status : string;
  totalAmount : number;
  estimatedCompletionDate : Date;
  notes : option string;
  items : list OrderItem;
  timeline : list OrderTimeline
}.

(** What the database fills in when a row is inserted: the primary key of a
    new order and the [createdAt] column of a new timeline row.  The schema
    is not part of the sources, so both are inputs of the operations. *)
Record RowDefaults : Type := mkRowDefaults {
  new_id : string;
  new_createdAt : Date
}.

(** [orderBy: { createdAt: 'asc' }]: a stable insertion sort. *)
Fixpoint insert_by_createdAt (row : OrderTimeline) (rows : list OrderTimeline)
  : list OrderTimeline :=
  match rows with
  | [] => [row]
  | r :: rest =>
      if (createdAt row <? createdAt r)%Z
      then row :: r :: rest
      else r :: insert_by_createdAt row rest
  end.

Definition orderBy_createdAt_asc (rows : list OrderTimeline) : list OrderTimeline :=
  fold_left (fun sorted row => insert_by_createdAt row sorted) rows [].

(** [include: { timeline: { orderBy: { createdAt: 'asc' } } }] *)
Definition include_timeline (o : Order) : Order :=
  mkOrder (order_id o) (userId o) (status o) (totalAmount o)
          (estimatedCompletionDate o) (notes o) (items o)
          (orderBy_createdAt_asc (timeline o)).

Record CreateOrderData : Type := mkCreateOrderData {
  data_userId : string;
  data_totalAmount : number;
  data_estimatedCompletionDate : Date;
  data_notes : option string
}.

(** [OrderService.createOrder].  The [items] of the argument are not
    written by the call; the created order has none. *)
Definition createOrder (db : gmap string Order) (defaults : RowDefaults) (now : Date)
    (data : CreateOrderData) : Throws (gmap string Order * Order) :=
  match db !! new_id defaults with
  | Some _ => Throw "Unique constraint failed on the fields: (`id`)"
  | None =>
      let order :=
        mkOrder (new_id defaults) (data_userId data) "pending"
          (data_totalAmount data) (data_estimatedCompletionDate data)
          (data_notes data) []
          [ mkOrderTimeline "pending" "订单创建" (Some "订单已创建，等待支付")
              true now (new_createdAt defaults) ] in
      Return (<[new_id defaults := order]> db, order)
  end.

(** [OrderService.getOrderById] *)
Definition getOrderById (db : gmap string Order) (id : string) : option Order :=
  include_timeline <$> db !! id.

Definition titles : gmap string string :=
  list_to_map
    [ ("pending", "待支付"); ("confirmed", "已确认");
      ("design_approved", "设计已批准"); ("in_production", "生产中");
      ("quality_check", "质量检查"); ("packaging", "包装中");
      ("shipped", "已发货"); ("delivered", "已送达");
      ("cancelled", "已取消") ].

(** [OrderService.getStatusTitle] *)
Definition getStatusTitle (status : string) : looked_up string :=
  get_or titles status "状态更新".

(** [OrderService.updateOrderStatus].  The write is refused when the title
    is not a string, and when no order has the given id. *)
Definition updateOrderStatus (db : gmap string Order) (defaults : RowDefaults)
    (now : Date) (id status : string) (note : option string)
  : Throws (gmap string Order * Order) :=
  match getStatusTitle status with
  | ProtoMember _ => Throw "Argument `title`: Invalid value provided. Expected String."
  | Val status_title =>
      match db !! id with
      | None => Throw "Record to update not found."
      | Some o =>
          let row := mkOrderTimeline status status_title note true now
                       (new_createdAt defaults) in
          let o' := mkOrder (order_id o) (userId o) status (totalAmount o)
                      (estimatedCompletionDate o) (notes o) (items o)
                      (timeline o ++ [row]) in
          Return (<[id := o']> db, include_timeline o')
      end
  end.

End OrderService.

(* ===================================================================== *)
(** ** HTTP handlers: common shapes *)
(* ===================================================================== *)

(** The authenticated requester, [req.user]. *)
Record AuthUser : Type := mkAuthUser {
  user_id : string;
  role : option string;
  level : string
}.

(** What a handler does with the response object: [res.status(c).json(b)]
    ([res.json(b)] is status 200), or an exception that escapes to
    [asyncHandler], which hands it to the error middleware. *)
Inductive Outcome (T : Type) : Type :=
  | Responded (http_status : nat) (body : ApiResponse T)
  | Escaped (message : string).
Arguments Responded {T} http_status body.
Arguments Escaped {T} message.

(* ===================================================================== *)
(** ** [src/controllers/orderController.ts] *)
(* ===================================================================== *)

Module OrderController.

Import JsNumber OrderService.
Local Open Scope string_scope.

Record Customization : Type := mkCustomization {
  cust_type : string;
  cust_value : string;
  price : number
}.

(** An item of [CreateOrderRequest]; [customizations] may be absent. *)
Record RequestItem : Type := mkRequestItem {
  productId : string;
  req_quantity : number;
  customizations : option (list Customization)
}.

(** [x || 0] on a number. *)
Definition or_zero (x : number) : number := if truthy x then x else Num 0.

(** [item.customizations?.reduce((csum, c) => csum + c.price, 0) || 0] *)
Definition customizations_price (item : RequestItem) : number :=
  match customizations item with
  | None => Num 0
  | Some cs => or_zero (fold_left (fun csum c => num_add csum (price c)) cs (Num 0))
  end.

(** The summand of one item in the total of [createOrder]. *)
Definition item_total (item : RequestItem) : number :=
  num_mul (req_quantity item) (customizations_price item).

(** [orderItems.reduce((sum, item) => sum + item.quantity * (...), 0)] *)
Definition order_total (orderItems : list RequestItem) : number :=
  fold_left (fun sum item => num_add sum (item_total item)) orderItems (Num 0).

(** First item whose product is not in the cart, if any. *)
Definition missing_from_cart (cart : list string) (orderItems : list RequestItem)
  : option RequestItem :=
  List.find (fun item => negb (bool_decide (productId item ∈ cart))) orderItems.

(** [createOrder].  [cart] lists the product ids of the requester's cart
    items, [estimated] is [addDays(new Date(), estimatedCompletionDays)].
    The notifications that follow the write, and the clearing of the cart,
    do not touch the order store. *)
Definition createOrder (db : gmap string Order) (defaults : RowDefaults) (now : Date)
    (user : AuthUser) (cart : list string) (estimated : Date)
    (orderItems : list RequestItem) (req_notes : option string)
  : Outcome Order * gmap string Order :=
  match cart with
  | [] => (Responded 400 (Failure "EMPTY_CART" "购物车为空"), db)
  | _ :: _ =>
      match missing_from_cart cart orderItems with
      | Some item =>
          (Responded 400 (Failure "INVALID_CART_ITEM"
                            ("商品 " ++ productId item ++ " 不在购物车中")), db)
      | None =>
          let totalAmount := order_total orderItems in
          match OrderService.createOrder db defaults now
                  (mkCreateOrderData (user_id user) totalAmount estimated req_notes) with
          | Throw message => (Escaped message, db)
          | Return (db', order) => (Responded 201 (Success order), db')
          end
      end
  end.

(** [requireRole(['admin', 'superadmin'])], on
    [req.user.role || req.user.level] *)
Definition requireRole_admin (user : AuthUser) : bool :=
  bool_decide (or_default (role user) (level user) ∈ ["admin"; "superadmin"]).

(** [updateOrderStatus] (administrators).  [validateRequest('order',
    'updateStatus')] passes its second argument on as the request property
    to validate, so the schema is run on [req.updateStatus], which no
    request has; it accepts, and the body reaches the handler as sent. *)
Definition updateOrderStatus (db : gmap string Order) (defaults : RowDefaults)
    (now : Date) (user : AuthUser) (id status : string) (note : option string)
  : Outcome Order * gmap string Order :=
  if negb (requireRole_admin user)
  then (Responded 403 (Failure "INSUFFICIENT_PERMISSIONS" "权限不足"), db)
  else
    match getOrderById db id with
    | None => (Responded 404 (Failure "ORDER_NOT_FOUND" "订单不存在"), db)
    | Some order =>
        match OrderService.updateOrderStatus db defaults now id status note with
        | Throw message => (Escaped message, db)
        | Return (db', updatedOrder) => (Responded 200 (Success updatedOrder), db')
        end
    end.

(** [cancelOrder] (the buyer) *)
Definition cancelOrder (db : gmap string Order) (defaults : RowDefaults)
    (now : Date) (user : AuthUser) (id : string) (reason : option string)
  : Outcome Order * gmap string Order :=
  match getOrderById db id with
  | None => (Responded 404 (Failure "ORDER_NOT_FOUND" "订单不存在"), db)
  | Some order =>
      if negb (bool_decide (userId order = user_id user))
      then (Responded 403 (Failure "ACCESS_DENIED" "无权操作此订单"), db)
      else if negb (bool_decide (status order ∈ ["pending"; "confirmed"]))
      then (Responded 400 (Failure "CANNOT_CANCEL_ORDER" "当前订单状态不允许取消"), db)
      else
        match OrderService.updateOrderStatus db defaults now id "cancelled"
                (Some (or_default reason "用户主动取消")) with
        | Throw message => (Escaped message, db)
        | Return (db', updatedOrder) => (Responded 200 (Success updatedOrder), db')
        end
  end.

End OrderController.

(* ===================================================================== *)
(** ** [src/services/payment.ts]: the gateway contract *)
(* ===================================================================== *)

Module Payment.

Import JsNumber JsObject OrderService.
Local Open Scope string_scope.

(** The fields of [config] read by the payment code. *)
Record Config : Type := mkConfig {
  frontendUrl : string;
  stripe_secretKey : option string;
  stripe_webhookSecret : option string;
  paypal_clientId : option string;
  paypal_clientSecret : option string
}.

(** Truthiness of an optional string. *)
Definition is_set (s : option string) : bool :=
  match s with
  | Some (String _ _) => true
  | _ => false
  end.

(** [PaymentResult] of [src/types/index.ts] *)
Record PaymentResult : Type := mkPaymentResult {
  pr_success : bool;
  transactionId : string;
  amount : number;
  currency : string;
  method : string;
  pr_status : string;
  pr_createdAt : Date
}.

(** The [data] of a successful [createPayment]. *)
Inductive PaymentHandle : Type :=
  | CheckoutSession (sessionId : string) (url : option string) (paymentId : string)
  | Approval (paymentId : string) (url : option string) (state : string)
  | QrCode (transactionId qrCode method status : string).

(** [payload.resource] of a PayPal event, as far as it is read. *)
Record PayPalResource : Type := mkPayPalResource {
  custom : option string
}.

(** A webhook request body, as far as the handlers read it. *)
Record Payload : Type := mkPayload {
  raw_body : string;
  event_type : option string;
  resource : option PayPalResource;
  out_trade_no : option string;
  transaction_id : option string;
  trade_no : option string
}.

(** [event.data.object] of a Stripe event, as far as it is read:
    [metadata?.orderId]. *)
Record EventObject : Type := mkEventObject {
  metadata_orderId : option string
}.

Record StripeEvent : Type := mkStripeEvent {
  ev_type : string;
  ev_object : EventObject;
  ev_id : string
}.

(** The [data] of a successful [handleWebhook]. *)
Inductive WebhookData : Type :=
  | StripeData (type : string) (data : EventObject) (id : string)
  | PayPalData (event_type : option string) (resource : option PayPalResource)
  | RawData (payload : Payload).

(** The [data] of a successful [refundPayment]. *)
Inductive RefundData : Type :=
  | ProviderRefund (refund_id : string)
  | SimulatedRefund (refundId : string) (amount : option number) (status : string).

(** [interface PaymentGateway] *)
Record PaymentGateway : Type := mkPaymentGateway {
  createPayment : Order -> string -> string -> ApiResponse PaymentHandle;
  verifyPayment : string -> ApiResponse PaymentResult;
  handleWebhook : Payload -> string -> ApiResponse WebhookData;
  refundPayment : string -> option number -> ApiResponse RefundData
}.

(** *** Stripe *)

Record LineItem : Type := mkLineItem {
  li_currency : string;
  li_name : string;
  li_images : list string;
  li_description : string;
  unit_amount : number;
  li_quantity : number
}.

Record SessionCreateParams : Type := mkSessionCreateParams {
  line_items : list LineItem;
  success_url : string;
  cancel_url : string;
  meta_orderId : string;
  meta_userId : string;
  customer_email : string
}.

(** A Checkout session as returned by the provider.  [amount_total] is in
    minor units (cents) and may be [null]. *)
Record Session : Type := mkSession {
  session_id : string;
  session_url : option string;
  payment_status : string;
  amount_total : option number;
  session_currency : option string;
  created : Z
}.

Record RefundParams : Type := mkRefundParams {
  payment_intent : string;
  refund_amount : option number
}.

(** The calls of the Stripe SDK.  Each may throw. *)
Record StripeSdk : Type := mkStripeSdk {
  sessions_create : SessionCreateParams -> Throws Session;
  sessions_retrieve : string -> Throws Session;
  constructEvent : Payload -> string -> string -> Throws StripeEvent;
  refunds_create : RefundParams -> Throws string
}.

(** Major units to minor units, [Math.round(x * 100)], as [createPayment]
    does for [unit_amount] and [refundPayment] for [amount]. *)
Definition to_minor_units (x : number) : number :=
  Math_round (num_mul x (of_Z 100)).

(** Minor units to major units, [(amount_total || 0) / 100], as
    [verifyPayment] does. *)
Definition to_major_units (amount_total : option number) : number :=
  num_div (match amount_total with
           | Some a => if truthy a then a else of_Z 0
           | None => of_Z 0
           end) (of_Z 100).

Section Stripe.

Variable config : Config.
Variable sdk : StripeSdk.

(** [this.stripe] is set by the constructor when a secret key is configured. *)
Definition stripe_ready : bool := is_set (stripe_secretKey config).

Definition session_params (order : Order) (returnUrl cancelUrl : string)
  : SessionCreateParams :=
  mkSessionCreateParams
    (map (fun item =>
            mkLineItem "usd" (product_name item) (product_images item)
              ("3D Figurine - Size: " ++ selectedSize_name item)
              (to_minor_units (totalPrice item)) (quantity item))
         (items order))
    (returnUrl ++ "?session_id={CHECKOUT_SESSION_ID}")
    cancelUrl (order_id order) (userId order) (userId order).

Definition Stripe_createPayment (order : Order) (returnUrl cancelUrl : string)
  : ApiResponse PaymentHandle :=
  if negb stripe_ready then Failure "STRIPE_PAYMENT_ERROR" "Stripe not configured"
  else match sessions_create sdk (session_params order returnUrl cancelUrl) with
       | Throw message => Failure "STRIPE_PAYMENT_ERROR" message
       | Return session =>
           Success (CheckoutSession (session_id session) (session_url session)
                      (session_id session))
       end.

Definition Stripe_verifyPayment (paymentId : string) : ApiResponse PaymentResult :=
  if negb stripe_ready then Failure "STRIPE_VERIFICATION_ERROR" "Stripe not configured"
  else match sessions_retrieve sdk paymentId with
       | Throw message => Failure "STRIPE_VERIFICATION_ERROR" message
       | Return session =>
           if String.eqb (payment_status session) "paid"
           then Success (mkPaymentResult true (session_id session)
                           (to_major_units (amount_total session))
                           (or_default (session_currency session) "usd")
                           "stripe" "completed" (created session * 1000)%Z)
           else Failure "STRIPE_PAYMENT_NOT_COMPLETED" "支付未完成"
       end.

Definition Stripe_handleWebhook (payload : Payload) (signature : string)
  : ApiResponse WebhookData :=
  if negb stripe_ready then Failure "STRIPE_WEBHOOK_ERROR" "Stripe webhook not configured"
  else match stripe_webhookSecret config with
       | Some (String c s) =>
           match constructEvent sdk payload signature (String c s) with
           | Throw message => Failure "STRIPE_WEBHOOK_ERROR" message
           | Return event =>
               Success (StripeData (ev_type event) (ev_object event) (ev_id event))
           end
       | _ => Failure "STRIPE_WEBHOOK_ERROR" "Stripe webhook not configured"
       end.

(** [if (amount) refundData.amount = Math.round(amount * 100)] *)
Definition refund_params (paymentId : string) (amount : option number) : RefundParams :=
  mkRefundParams paymentId
    (match amount with
     | Some a => if truthy a then Some (to_minor_units a) else None
     | None => None
     end).

Definition Stripe_refundPayment (paymentId : string) (amount : option number)
  : ApiResponse RefundData :=
  if negb stripe_ready then Failure "STRIPE_REFUND_ERROR" "Stripe not configured"
  else match refunds_create sdk (refund_params paymentId amount) with
       | Throw message => Failure "STRIPE_REFUND_ERROR" message
       | Return refund_id => Success (ProviderRefund refund_id)
       end.

Definition StripePaymentGateway : PaymentGateway :=
  mkPaymentGateway Stripe_createPayment Stripe_verifyPayment
                   Stripe_handleWebhook Stripe_refundPayment.

End Stripe.

(** *** PayPal *)

Record PayPalCreated : Type := mkPayPalCreated {
  pp_id : string;
  approval_url : option string;   (* [links.find(rel === 'approval_url')?.href] *)
  pp_state : string
}.

Record PayPalSale : Type := mkPayPalSale {
  sale_state : string;
  sale_id : string;
  sale_created : Date             (* [new Date(sale.create_time || Date.now())] *)
}.

(** A payment as [paypal.payment.get] reports it: the sale of its first
    transaction, if any, and the amount of that transaction. *)
Record PayPalPayment : Type := mkPayPalPayment {
  sale : option PayPalSale;       (* [transactions?.[0]?.related_resources?.[0]?.sale] *)
  pp_total : number;              (* [parseFloat(transaction?.amount?.total || '0')] *)
  pp_currency : string            (* [transaction?.amount?.currency || 'USD'] *)
}.

(** The callbacks of the PayPal SDK: an error message or a result.  The
    request sent by [createPayment] is a function of its three arguments. *)
Record PayPalSdk : Type := mkPayPalSdk {
  payment_create : Order -> string -> string -> Throws PayPalCreated;
  payment_get : string -> Throws PayPalPayment;
  sale_refund : string -> option number -> Throws string
}.

Section PayPal.

Variable config : Config.
Variable sdk : PayPalSdk.

Definition paypalConfigured : bool :=
  is_set (paypal_clientId config) && is_set (paypal_clientSecret config).

Definition PayPal_createPayment (order : Order) (returnUrl cancelUrl : string)
  : ApiResponse PaymentHandle :=
  if negb paypalConfigured then Failure "PAYPAL_PAYMENT_ERROR" "PayPal not configured"
  else match payment_create sdk order returnUrl cancelUrl with
       | Throw message => Failure "PAYPAL_PAYMENT_ERROR" message
       | Return payment =>
           Success (Approval (pp_id payment) (approval_url payment) (pp_state payment))
       end.

Definition PayPal_verifyPayment (paymentId : string) : ApiResponse PaymentResult :=
  if negb paypalConfigured then Failure "PAYPAL_VERIFICATION_ERROR" "PayPal not configured"
  else match payment_get sdk paymentId with
       | Throw message => Failure "PAYPAL_VERIFICATION_ERROR" message
       | Return payment =>
           match sale payment with
           | Some s =>
               if String.eqb (sale_state s) "completed"
               then Success (mkPaymentResult true (sale_id s) (pp_total payment)
                               (pp_currency payment) "paypal" (sale_state s)
                               (sale_created s))
               else Failure "PAYPAL_PAYMENT_NOT_COMPLETED" "支付未完成"
           | None => Failure "PAYPAL_PAYMENT_NOT_COMPLETED" "支付未完成"
           end
       end.

(** No signature check: the body is taken as it comes. *)
Definition PayPal_handleWebhook (payload : Payload) (signature : string)
  : ApiResponse WebhookData :=
  Success (PayPalData (event_type payload) (resource payload)).

Definition PayPal_refundPayment (paymentId : string) (amount : option number)
  : ApiResponse RefundData :=
  if negb paypalConfigured then Failure "PAYPAL_REFUND_ERROR" "PayPal not configured"
  else match sale_refund sdk paymentId amount with
       | Throw message => Failure "PAYPAL_REFUND_ERROR" message
       | Return refund_id => Success (ProviderRefund refund_id)
       end.

Definition PayPalPaymentGateway : PaymentGateway :=
  mkPaymentGateway PayPal_createPayment PayPal_verifyPayment
                   PayPal_handleWebhook PayPal_refundPayment.

End PayPal.

(** *** WeChat Pay and Alipay (simulated implementations) *)

Section Simulated.

(** [generateTransactionId()] of [src/utils], one value per call, and the
    clock read by [new Date()]. *)
Variable generateTransactionId : string.
Variable now : Date.

Definition WeChat_createPayment (order : Order) (returnUrl cancelUrl : string)
  : ApiResponse PaymentHandle :=
  let transactionId := generateTransactionId in
  Success (QrCode transactionId ("weixin://wxpay/bizpayurl?pr=" ++ transactionId)
             "QR_CODE" "PENDING").

(** The provider is not asked: every id is reported as paid. *)
Definition WeChat_verifyPayment (paymentId : string) : ApiResponse PaymentResult :=
  Success (mkPaymentResult true paymentId (of_Z 0) "CNY" "wechat" "completed" now).

Definition WeChat_handleWebhook (payload : Payload) (signature : string)
  : ApiResponse WebhookData :=
  Success (RawData payload).

Definition WeChat_refundPayment (paymentId : string) (amount : option number)
  : ApiResponse RefundData :=
  Success (SimulatedRefund generateTransactionId amount "PROCESSING").

Definition WeChatPaymentGateway : PaymentGateway :=
  mkPaymentGateway WeChat_createPayment WeChat_verifyPayment
                   WeChat_handleWebhook WeChat_refundPayment.

Definition Alipay_createPayment (order : Order) (returnUrl cancelUrl : string)
  : ApiResponse PaymentHandle :=
  let transactionId := generateTransactionId in
  Success (QrCode transactionId ("alipay://alipayclient/?" ++ transactionId)
             "QR_CODE" "PENDING").

Definition Alipay_verifyPayment (paymentId : string) : ApiResponse PaymentResult :=
  Success (mkPaymentResult true paymentId (of_Z 0) "CNY" "alipay" "completed" now).

Definition Alipay_handleWebhook (payload : Payload) (signature : string)
  : ApiResponse WebhookData :=
  Success (RawData payload).

Definition Alipay_refundPayment (paymentId : string) (amount : option number)
  : ApiResponse RefundData :=
  Success (SimulatedRefund generateTransactionId amount "PROCESSING").

Definition AlipayPaymentGateway : PaymentGateway :=
  mkPaymentGateway Alipay_createPayment Alipay_verifyPayment
                   Alipay_handleWebhook Alipay_refundPayment.

End Simulated.

(** *** [PaymentManager] *)

(** Everything outside the process that the gateways talk to. *)
Record World : Type := mkWorld {
  config : Config;
  stripe : StripeSdk;
  paypal : PayPalSdk;
  next_transaction_id : string;
  clock : Date
}.

(** The [Map] filled by the constructor, in insertion order. *)
Definition gateways (w : World) : list (string * PaymentGateway) :=
  [ ("stripe", StripePaymentGateway (config w) (stripe w));
    ("paypal", PayPalPaymentGateway (config w) (paypal w));
    ("wechat", WeChatPaymentGateway (next_transaction_id w) (clock w));
    ("alipay", AlipayPaymentGateway (next_transaction_id w) (clock w)) ].

(** [this.gateways.get(method)] *)
Definition gateways_get (w : World) (method : string) : option PaymentGateway :=
  snd <$> List.find (fun entry => String.eqb (fst entry) method) (gateways w).

Definition unsupported {T : Type} (method : string) : ApiResponse T :=
  Failure "UNSUPPORTED_PAYMENT_METHOD" ("不支持的支付方式: " ++ method).

Definition PaymentManager_createPayment (w : World) (method : string) (order : Order)
    (returnUrl cancelUrl : string) : ApiResponse PaymentHandle :=
  match gateways_get w method with
  | None => unsupported method
  | Some gateway => createPayment gateway order returnUrl cancelUrl
  end.

Definition PaymentManager_verifyPayment (w : World) (method paymentId : string)
  : ApiResponse PaymentResult :=
  match gateways_get w method with
  | None => unsupported method
  | Some gateway => verifyPayment gateway paymentId
  end.

Definition PaymentManager_handleWebhook (w : World) (method : string)
    (payload : Payload) (signature : string) : ApiResponse WebhookData :=
  match gateways_get w method with
  | None => unsupported method
  | Some gateway => handleWebhook gateway payload signature
  end.

Definition PaymentManager_refundPayment (w : World) (method paymentId : string)
    (amount : option number) : ApiResponse RefundData :=
  match gateways_get w method with
  | None => unsupported method
  | Some gateway => refundPayment gateway paymentId amount
  end.

(** [Array.from(this.gateways.keys())] *)
Definition getSupportedMethods (w : World) : list string := map fst (gateways w).

Definition feeRates : gmap string number :=
  list_to_map
    [ ("stripe", lit (29 # 1000)); ("paypal", lit (34 # 1000));
      ("wechat", lit (6 # 1000)); ("alipay", lit (6 # 1000)) ].

(** [calculateFees]: [feeRates[method] || 0.03], then [amount * rate].
    Multiplying by a function or an object converts it to [NaN] first. *)
Definition calculateFees (amount : number) (method : string) : number :=
  match get_or feeRates method (lit (3 # 100)) with
  | Val rate => num_mul amount rate
  | ProtoMember _ => num_mul amount NaN
  end.

End Payment.

(* ===================================================================== *)
(** ** [src/routes/paymentController.ts] *)
(* ===================================================================== *)

Module PaymentController.

Import JsNumber OrderService Payment.
Local Open Scope string_scope.

Definition owner_or_admin (order : Order) (user : AuthUser) : bool :=
  bool_decide (userId order = user_id user)
  || bool_decide (level user ∈ ["admin"; "superadmin"]).

(** [createPayment].  A method that is not registered is replaced by
    ['stripe'] before the manager is called. *)
Definition createPayment (w : World) (db : gmap string Order) (user : AuthUser)
    (orderId : string) (method : option string) (returnUrl cancelUrl : option string)
  : Outcome PaymentHandle :=
  match getOrderById db orderId with
  | None => Responded 404 (Failure "ORDER_NOT_FOUND" "订单不存在")
  | Some order =>
      if negb (owner_or_admin order user)
      then Responded 403 (Failure "ACCESS_DENIED" "无权为此订单创建支付")
      else if negb (String.eqb (status order) "pending")
      then Responded 400 (Failure "INVALID_ORDER_STATUS" "订单状态不允许创建支付")
      else
        let gateway :=
          match method with
          | Some m => if bool_decide (m ∈ getSupportedMethods w) then m else "stripe"
          | None => "stripe"
          end in
        let paymentResult :=
          PaymentManager_createPayment w gateway order
            (or_default returnUrl
               (frontendUrl (config w) ++ "/orders/" ++ orderId ++ "/payment/success"))
            (or_default cancelUrl
               (frontendUrl (config w) ++ "/orders/" ++ orderId ++ "/payment/cancel")) in
        if success paymentResult then Responded 200 paymentResult
        else Responded 500 paymentResult
  end.

(** [verifyPayment]: a verified payment confirms the order. *)
Definition verifyPayment (w : World) (db : gmap string Order) (defaults : RowDefaults)
    (now : Date) (user : AuthUser) (id : string) (method : option string)
    (orderId : string) : Outcome PaymentResult * gmap string Order :=
  match method with
  | None | Some EmptyString =>
      (Responded 400 (Failure "NO_PAYMENT_METHOD" "支付方式参数缺失"), db)
  | Some m =>
      match getOrderById db orderId with
      | None => (Responded 404 (Failure "ORDER_NOT_FOUND" "订单不存在"), db)
      | Some order =>
          if negb (owner_or_admin order user)
          then (Responded 403 (Failure "ACCESS_DENIED" "无权验证此订单的支付"), db)
          else
            let result := PaymentManager_verifyPayment w m id in
            match result with
            | Success data =>
                if pr_success data && String.eqb (pr_status data) "completed"
                then match OrderService.updateOrderStatus db defaults now orderId
                             "confirmed" (Some "支付验证成功") with
                     | Throw message => (Escaped message, db)
                     | Return (db', _) => (Responded 200 result, db')
                     end
                else (Responded 200 result, db)
            | Failure _ _ => (Responded 200 result, db)
            end
      end
  end.

(** The common tail of the four webhook handlers: confirm the order named
    by the event; an exception anywhere in the [try] block answers 400. *)
Definition confirm_from_webhook (db : gmap string Order) (defaults : RowDefaults)
    (now : Date) (result : ApiResponse WebhookData) (orderId note error_message : string)
  : Outcome WebhookData * gmap string Order :=
  match OrderService.updateOrderStatus db defaults now orderId "confirmed" (Some note) with
  | Throw _ => (Responded 400 (Failure "WEBHOOK_ERROR" error_message), db)
  | Return (db', _) => (Responded 200 result, db')
  end.

(** [handleStripeWebhook] *)
Definition handleStripeWebhook (w : World) (db : gmap string Order)
    (defaults : RowDefaults) (now : Date) (body : Payload) (signature : string)
  : Outcome WebhookData * gmap string Order :=
  let result := PaymentManager_handleWebhook w "stripe" body signature in
  match result with
  | Success (StripeData type data _) =>
      if String.eqb type "checkout.session.completed" && is_set (metadata_orderId data)
      then confirm_from_webhook db defaults now result
             (default "" (metadata_orderId data)) "Stripe支付完成" "Webhook处理失败"
      else (Responded 200 result, db)
  | _ => (Responded 200 result, db)
  end.

(** [handlePayPalWebhook] *)
Definition handlePayPalWebhook (w : World) (db : gmap string Order)
    (defaults : RowDefaults) (now : Date) (body : Payload) (signature : string)
  : Outcome WebhookData * gmap string Order :=
  let result := PaymentManager_handleWebhook w "paypal" body signature in
  match result with
  | Success (PayPalData (Some event_type) resource) =>
      if String.eqb event_type "PAYMENT.SALE.COMPLETED"
      then match resource with
           | None =>   (* [resource.custom] throws *)
               (Responded 400 (Failure "WEBHOOK_ERROR" "PayPal webhook处理失败"), db)
           | Some r =>
               if is_set (custom r)
               then confirm_from_webhook db defaults now result
                      (default "" (custom r)) "PayPal支付完成" "PayPal webhook处理失败"
               else (Responded 200 result, db)
           end
      else (Responded 200 result, db)
  | _ => (Responded 200 result, db)
  end.

(** [handleWeChatWebhook] *)
Definition handleWeChatWebhook (w : World) (db : gmap string Order)
    (defaults : RowDefaults) (now : Date) (body : Payload)
  : Outcome WebhookData * gmap string Order :=
  let result := PaymentManager_handleWebhook w "wechat" body "" in
  match result with
  | Success (RawData payload) =>
      if is_set (out_trade_no payload)
      then confirm_from_webhook db defaults now result
             (default "" (out_trade_no payload)) "微信支付完成" "微信支付webhook处理失败"
      else (Responded 200 result, db)
  | _ => (Responded 200 result, db)
  end.

(** [handleAlipayWebhook] *)
Definition handleAlipayWebhook (w : World) (db : gmap string Order)
    (defaults : RowDefaults) (now : Date) (body : Payload)
  : Outcome WebhookData * gmap string Order :=
  let result := PaymentManager_handleWebhook w "alipay" body "" in
  match result with
  | Success (RawData payload) =>
      if is_set (out_trade_no payload)
      then confirm_from_webhook db defaults now result
             (default "" (out_trade_no payload)) "支付宝支付完成" "支付宝webhook处理失败"
      else (Responded 200 result, db)
  | _ => (Responded 200 result, db)
  end.

End PaymentController.

(* ===================================================================== *)
(** ** Vocabulary of the specification *)
(* ===================================================================== *)

Module Lifecycle.

Import JsNumber JsObject OrderService.
Local Open Scope string_scope.
Local Open Scope Z_scope.
Local Open Scope list_scope.

(** The nine statuses of [enum OrderStatus] ([src/types/index.ts]). *)
Definition OrderStatus : list string :=
  [ "pending"; "confirmed"; "design_approved"; "in_production"; "quality_check";
    "packaging"; "shipped"; "delivered"; "cancelled" ].

(** The two statuses the specification calls terminal. *)
Definition terminal : list string := [ "delivered"; "cancelled" ].

(** The statuses from which the buyer may cancel. *)
Definition cancellable : list string := [ "pending"; "confirmed" ].

(** The order as stored after a successful [updateOrderStatus]. *)
Definition updated (o : Order) (defaults : RowDefaults) (now : Date)
    (new_status status_title : string) (note : option string) : Order :=
  mkOrder (order_id o) (userId o) new_status (totalAmount o)
    (estimatedCompletionDate o) (notes o) (items o)
    (timeline o ++ [mkOrderTimeline new_status status_title note true now
                      (new_createdAt defaults)]).

(** The status of the entry a read of the order shows last. *)
Definition last_timeline_status (o : Order) : option string :=
  tl_status <$> last (orderBy_createdAt_asc (timeline o)).

(** Every timeline row of [o] was stamped before [d]. *)
Definition stamped_before (d : Date) (o : Order) : Prop :=
  Forall (fun r => createdAt r < d) (timeline o).

(** The stores that [createOrder] and [updateOrderStatus] produce from the
    empty one, the database stamping each new timeline row later than the
    rows the order already has. *)
Inductive reachable : gmap string Order -> Prop :=
  | reachable_empty : reachable ∅
  | reachable_createOrder db defaults now data db' o :
      reachable db ->
      createOrder db defaults now data = Return (db', o) ->
      reachable db'
  | reachable_updateOrderStatus db defaults now id new_status note db' o' :
      reachable db ->
      (forall o, db !! id = Some o -> stamped_before (new_createdAt defaults) o) ->
      updateOrderStatus db defaults now id new_status note = Return (db', o') ->
      reachable db'.

(** One call of [updateOrderStatus], with what the database and the clock
    supply for it. *)
Record StatusUpdate : Type := mkStatusUpdate {
  su_defaults : RowDefaults;
  su_now : Date;
  su_id : string;
  su_status : string;
  su_note : option string
}.

(** The store after the call; a call that throws writes nothing. *)
Definition apply_update (db : gmap string Order) (u : StatusUpdate) : gmap string Order :=
  match updateOrderStatus db (su_defaults u) (su_now u) (su_id u) (su_status u)
          (su_note u) with
  | Return (db', _) => db'
  | Throw _ => db
  end.

Definition apply_updates (us : list StatusUpdate) (db : gmap string Order)
  : gmap string Order :=
  fold_left apply_update us db.



End Lifecycle.

Module Fees.

Import JsNumber.
Local Open Scope string_scope.

(** The rate table as the specification words it: 2.9%, 3.4%, 0.6%, 0.6%,
    and 3% for any other method. *)
Definition spec_rate (method : string) : number :=
  if String.eqb method "stripe" then lit (29 # 1000)
  else if String.eqb method "paypal" then lit (34 # 1000)
  else if String.eqb method "wechat" then lit (6 # 1000)
  else if String.eqb method "alipay" then lit (6 # 1000)
  else lit (3 # 100).

End Fees.

(* ===================================================================== *)
(** ** Sample data *)
(* ===================================================================== *)

Module Samples.

Import JsNumber OrderService OrderController Payment.
Local Open Scope string_scope.
Local Open Scope Z_scope.

Definition buyer : AuthUser := mkAuthUser "user-1" None "regular".
Definition admin : AuthUser := mkAuthUser "admin-1" None "admin".

Definition tick (n : Z) : RowDefaults := mkRowDefaults "order-1" (1700000000000 + n).

(** A store holding one order of [buyer] in the given status, with the
    timeline row of its creation. *)
Definition order_in (st : string) : Order :=
  mkOrder "order-1" "user-1" st (of_Z 299) 1700600000000 None []
    [ mkOrderTimeline st "订单创建" None true 1700000000000 1700000000000 ].

Definition store_with (st : string) : gmap string Order :=
  {[ "order-1" := order_in st ]}.

(** The store after [createOrder] for [buyer], and then after one update. *)
Definition store_created : gmap string Order :=
  match OrderService.createOrder ∅ (tick 0) 1700000000000
          (mkCreateOrderData "user-1" (of_Z 299) 1700600000000 None) with
  | Return (db, _) => db
  | Throw _ => ∅
  end.

Definition order_created : Order :=
  mkOrder "order-1" "user-1" "pending" (of_Z 299) 1700600000000 None []
    [ mkOrderTimeline "pending" "订单创建" (Some "订单已创建，等待支付") true
        1700000000000 1700000000000 ].

(** A request for two figurines with two paid customizations each, and one
    without customizations. *)
Definition request_items : list RequestItem :=
  [ mkRequestItem "prod-1" (of_Z 2)
      (Some [ mkCustomization "text" "Ada" (of_Z 10);
              mkCustomization "color" "red" (lit (55 # 10)) ]);
    mkRequestItem "prod-2" (of_Z 1) None ].

Definition order_requested : Order :=
  mkOrder "order-1" "user-1" "pending" (of_Z 31) 1700600000000 None []
    [ mkOrderTimeline "pending" "订单创建" (Some "订单已创建，等待支付") true
        1700000000000 1700000000000 ].

Definition store_confirmed : gmap string Order :=
  match OrderService.updateOrderStatus store_created (tick 5) 1700000000005
          "order-1" "confirmed" (Some "Stripe支付完成") with
  | Return (db, _) => db
  | Throw _ => ∅
  end.

(** A provider whose webhook secret is ["whsec_1"] and which accepts the
    signature ["t=1,v1=good"] only; the accepted body is the completed
    checkout of [order-1]. *)
Definition sample_config : Config :=
  mkConfig "https://shop.example" (Some "sk_test_1") (Some "whsec_1") None None.

Definition sample_stripe : StripeSdk :=
  mkStripeSdk
    (fun _ => Throw "connection refused")
    (fun id => Return (mkSession id None "unpaid" (Some (of_Z 29900)) (Some "usd") 1700000000))
    (fun body signature secret =>
       if String.eqb signature "t=1,v1=good" && String.eqb secret "whsec_1"
       then Return (mkStripeEvent "checkout.session.completed"
                      (mkEventObject (Some "order-1")) "evt_1")
       else Throw "No signatures found matching the expected signature for payload")
    (fun _ => Throw "connection refused").

Definition sample_paypal : PayPalSdk :=
  mkPayPalSdk (fun _ _ _ => Throw "not configured")
              (fun _ => Throw "not configured")
              (fun _ _ => Throw "not configured").

Definition sample_world : World :=
  mkWorld sample_config sample_stripe sample_paypal "TXN-0001" 1700000000000.

Definition sample_body : Payload :=
  mkPayload "{...}" None None None None None.

End Samples.

(* ===================================================================== *)
(** ** More of [src/controllers/orderController.ts] *)
(* ===================================================================== *)

Module OrderAdmin.

Import JsNumber OrderService OrderController.
Local Open Scope string_scope.
Local Open Scope list_scope.

(** [getOrder]: the order, for its owner and for administrators. *)
Definition getOrder (db : gmap string Order) (user : AuthUser) (id : string)
  : Outcome Order :=
  match getOrderById db id with
  | None => Responded 404 (Failure "ORDER_NOT_FOUND" "订单不存在")
  | Some order =>
      if negb (bool_decide (userId order = user_id user))
         && negb (bool_decide (level user ∈ ["admin"; "superadmin"]))
      then Responded 403 (Failure "ACCESS_DENIED" "无权访问此订单")
      else Responded 200 (Success order)
  end.

(** The [results] object of [batchUpdateOrderStatus] with the counts of
    its [meta]. *)
Record BatchReport : Type := mkBatchReport {
  batch_success : list string;
  batch_failed : list (string * string);
  meta_total : nat;
  successCount : nat;
  failedCount : nat
}.

(** The [for] loop of [batchUpdateOrderStatus].  [ticks n] is what the
    database and the clock supply to the [n]-th call; the call that throws
    is recorded with the message of the error and the loop goes on. *)
Fixpoint batch_loop (db : gmap string Order) (ticks : nat -> RowDefaults * Date)
    (n : nat) (orderIds : list string) (new_status : string) (note : option string)
  : list string * list (string * string) * gmap string Order :=
  match orderIds with
  | [] => ([], [], db)
  | orderId :: rest =>
      match OrderService.updateOrderStatus db (fst (ticks n)) (snd (ticks n))
              orderId new_status note with
      | Return (db', _) =>
          let '(ok, failed, db'') := batch_loop db' ticks (S n) rest new_status note in
          (orderId :: ok, failed, db'')
      | Throw message =>
          let '(ok, failed, db'') := batch_loop db ticks (S n) rest new_status note in
          (ok, (orderId, message) :: failed, db'')
      end
  end.

(** [batchUpdateOrderStatus] (administrators) *)
Definition batchUpdateOrderStatus (db : gmap string Order)
    (ticks : nat -> RowDefaults * Date) (user : AuthUser) (orderIds : list string)
    (new_status : string) (note : option string)
  : Outcome BatchReport * gmap string Order :=
  if negb (requireRole_admin user)
  then (Responded 403 (Failure "INSUFFICIENT_PERMISSIONS" "权限不足"), db)
  else
    match orderIds with
    | [] => (Responded 400 (Failure "INVALID_ORDER_IDS" "订单ID列表无效"), db)
    | _ :: _ =>
        let '(ok, failed, db') := batch_loop db ticks 0 orderIds new_status note in
        (Responded 200
           (Success (mkBatchReport ok failed (length orderIds) (length ok)
                       (length failed))),
         db')
    end.

(** The [stats] object of [getUserOrderStats]. *)
Record UserOrderStats : Type := mkUserOrderStats {
  stats_total : number;
  byStatus : gmap string number;
  totalSpent : number;
  averageOrderValue : number
}.

(** The eight counters [byStatus] starts with. *)
Definition byStatus_initial : gmap string number :=
  list_to_map
    [ ("pending", of_Z 0); ("confirmed", of_Z 0); ("in_production", of_Z 0);
      ("quality_check", of_Z 0); ("packaging", of_Z 0); ("shipped", of_Z 0);
      ("delivered", of_Z 0); ("cancelled", of_Z 0) ].

(** The statuses that have a counter: [design_approved] is not among them. *)
Definition counted_statuses : list string :=
  [ "pending"; "confirmed"; "in_production"; "quality_check"; "packaging";
    "shipped"; "delivered"; "cancelled" ].

(** [counters[key]++]: a counter that is there is incremented; for any
    other key the old value is [undefined] or a member of
    [Object.prototype], whose successor is [NaN], stored under the key. *)
Definition increment (counters : gmap string number) (key : string)
  : gmap string number :=
  match counters !! key with
  | Some v => <[key := num_add v (of_Z 1)]> counters
  | None =>
      (* an assignment to [__proto__] of a value that is no object is dropped *)
      if String.eqb key "__proto__" then counters else <[key := NaN]> counters
  end.

(** The counters after the orders [seen]: a count for each status that
    has a counter, [NaN] for any other status met, nothing else. *)
Definition counters_agree (m : gmap string number) (seen : list Order) : Prop :=
  (forall st, st ∈ counted_statuses ->
     m !! st = Some (of_Z (Z.of_nat (length (filter (fun o => status o = st) seen))))) /\
  (forall st, st ∉ counted_statuses -> st <> "__proto__" ->
     st ∈ map status seen -> m !! st = Some NaN) /\
  (forall st, st ∉ counted_statuses -> st ∉ map status seen -> m !! st = None) /\
  m !! "__proto__" = None.

(** [a > 0] on numbers. *)
Definition is_positive (a : number) : bool :=
  match a with
  | NaN => false
  | Inf negative => negb negative
  | Num q => negb (Qle_bool q 0)
  end.

(** [getUserOrderStats], from what [OrderService.getOrders({ userId,
    limit: 1000 })] returns: the orders of the first page and the number of
    all orders of the user. *)
Definition getUserOrderStats (orders : list Order) (total : number) : UserOrderStats :=
  let counters := fold_left (fun acc order => increment acc (status order))
                    orders byStatus_initial in
  let spent := fold_left (fun acc order => num_add acc (totalAmount order))
                 orders (of_Z 0) in
  mkUserOrderStats total counters spent
    (if is_positive total then num_div spent total else of_Z 0).

(** A request item whose quantity and customization prices are whole
    numbers. *)
Definition whole_item (entry : string * Z * list Z) : RequestItem :=
  let '(product, q, prices) := entry in
  mkRequestItem product (of_Z q)
    (Some (map (fun p => mkCustomization "text" "" (of_Z p)) prices)).

(** The total of such items in exact integer arithmetic. *)
Definition whole_total (entries : list (string * Z * list Z)) : Z :=
  fold_right (fun entry acc =>
                let '(_, q, prices) := entry in
                (q * fold_right Z.add 0 prices + acc)%Z) 0%Z entries.

End OrderAdmin.

(* ===================================================================== *)
(** ** The cart: [src/services/database.ts], [CartService] *)
(* ===================================================================== *)

Module CartService.

Import JsNumber OrderService OrderController.
Local Open Scope string_scope.
Local Open Scope list_scope.

Record CartItemAccessory : Type := mkCartItemAccessory {
  accessoryId : string;
  accessory_quantity : number;
  position : option string
}.

Record CartItem : Type := mkCartItem {
  cart_item_id : string;
  cart_userId : string;
  cart_productId : string;
  cart_imageId : option string;
  cart_quantity : number;
  unitPrice : number;
  cart_totalPrice : number;
  cart_customizations : list Customization;
  selectedSizeId : string;
  selectedAccessories : list CartItemAccessory;
  cart_createdAt : Date
}.

(** The argument of [addToCart]. *)
Record AddToCartData : Type := mkAddToCartData {
  add_userId : string;
  add_productId : string;
  add_imageId : option string;
  add_quantity : number;
  add_selectedSizeId : string;
  add_selectedAccessories : list CartItemAccessory;
  add_customizations : list Customization;
  add_unitPrice : number;
  add_totalPrice : number
}.

(** [addToCart]: always a new row; the table is kept in insertion order. *)
Definition addToCart (cart : list CartItem) (defaults : RowDefaults)
    (data : AddToCartData) : Throws (list CartItem * CartItem) :=
  if bool_decide (new_id defaults ∈ map cart_item_id cart)
  then Throw "Unique constraint failed on the fields: (`id`)"
  else
    let cartItem :=
      mkCartItem (new_id defaults) (add_userId data) (add_productId data)
        (add_imageId data) (add_quantity data) (add_unitPrice data)
        (add_totalPrice data) (add_customizations data) (add_selectedSizeId data)
        (add_selectedAccessories data) (new_createdAt defaults) in
    Return (cart ++ [cartItem], cartItem).

(** [orderBy: { createdAt: 'desc' }]: a stable insertion sort. *)
Fixpoint insert_by_createdAt_desc (row : CartItem) (rows : list CartItem)
  : list CartItem :=
  match rows with
  | [] => [row]
  | r :: rest =>
      if (cart_createdAt r <? cart_createdAt row)%Z
      then row :: r :: rest
      else r :: insert_by_createdAt_desc row rest
  end.

Definition orderBy_createdAt_desc (rows : list CartItem) : list CartItem :=
  fold_left (fun sorted row => insert_by_createdAt_desc row sorted) rows [].

Record UserCart : Type := mkUserCart {
  cart_items : list CartItem;
  cart_total : number
}.

(** [getUserCart]: the rows of the user, newest first, and the sum of
    their [totalPrice]. *)
Definition getUserCart (cart : list CartItem) (user : string) : UserCart :=
  let cartItems :=
    orderBy_createdAt_desc
      (filter (fun item => cart_userId item = user) cart) in
  mkUserCart cartItems
    (fold_left (fun sum item => num_add sum (cart_totalPrice item)) cartItems (of_Z 0)).

(** The argument of [updateCartItem]. *)
Record UpdateCartItemData : Type := mkUpdateCartItemData {
  upd_quantity : option number;
  upd_selectedAccessories : option (list CartItemAccessory)
}.

Definition update_row (data : UpdateCartItemData) (item : CartItem) : CartItem :=
  mkCartItem (cart_item_id item) (cart_userId item) (cart_productId item)
    (cart_imageId item)
    (match upd_quantity data with
     | Some q => if truthy q then q else cart_quantity item
     | None => cart_quantity item
     end)
    (unitPrice item) (cart_totalPrice item) (cart_customizations item)
    (selectedSizeId item)
    (match upd_selectedAccessories data with
     | Some accessories => accessories
     | None => selectedAccessories item
     end)
    (cart_createdAt item).

(** [updateCartItem]: the quantity when one is given that is not zero, the
    accessories when a list is given; the prices are not written.  The
    call throws when no row has the id. *)
Definition updateCartItem (cart : list CartItem) (id : string)
    (data : UpdateCartItemData) : Throws (list CartItem * CartItem) :=
  match List.find (fun item => String.eqb (cart_item_id item) id) cart with
  | None => Throw "Record to update not found."
  | Some item =>
      Return (map (fun r => if String.eqb (cart_item_id r) id
                            then update_row data r else r) cart,
              update_row data item)
  end.

(** [removeFromCart] *)
Definition removeFromCart (cart : list CartItem) (id : string)
  : Throws (list CartItem * CartItem) :=
  match List.find (fun item => String.eqb (cart_item_id item) id) cart with
  | None => Throw "Record to delete does not exist."
  | Some item =>
      Return (filter (fun r => cart_item_id r <> id) cart, item)
  end.

(** [clearCart]: the rows left, and the number of rows deleted. *)
Definition clearCart (cart : list CartItem) (user : string) : list CartItem * nat :=
  (filter (fun item => cart_userId item <> user) cart,
   length (filter (fun item => cart_userId item = user) cart)).

End CartService.

(** [createOrder] of [src/controllers/orderController.ts] with the cart it
    reads and clears.  Between the write of the order and the clearing of
    the cart the handler reads the user and sends the confirmation, which
    settles its own failures ([Promise.allSettled]) and writes to neither
    table. *)
Module Checkout.

Import JsNumber OrderService OrderController CartService.
Local Open Scope string_scope.
Local Open Scope list_scope.

Definition createOrder (orders : gmap string Order) (cart : list CartItem)
    (defaults : RowDefaults) (now : Date) (user : AuthUser) (estimated : Date)
    (orderItems : list RequestItem) (req_notes : option string)
  : Outcome Order * gmap string Order * list CartItem :=
  let user_cart := getUserCart cart (user_id user) in
  let '(outcome, orders') :=
    OrderController.createOrder orders defaults now user
      (map cart_productId (cart_items user_cart)) estimated orderItems req_notes in
  match outcome with
  | Responded _ (Success _) => (outcome, orders', fst (clearCart cart (user_id user)))
  | _ => (outcome, orders', cart)
  end.

End Checkout.

(* ===================================================================== *)
(** ** More of [src/routes/paymentController.ts] *)
(* ===================================================================== *)

Module PaymentPages.

Import JsNumber JsObject OrderService Payment.
Local Open Scope string_scope.
Local Open Scope list_scope.

(** [PaymentManager.getServiceStatus]: [true] for every registered method. *)
Definition getServiceStatus (w : World) : gmap string bool :=
  list_to_map (map (fun entry => (fst entry, true)) (gateways w)).

Definition names : gmap string string :=
  list_to_map
    [ ("stripe", "信用卡/借记卡"); ("paypal", "PayPal");
      ("wechat", "微信支付"); ("alipay", "支付宝") ].

(** [getPaymentMethodName] *)
Definition getPaymentMethodName (method : string) : looked_up string :=
  get_or names method method.

Definition fees : gmap string number :=
  list_to_map
    [ ("stripe", lit (29 # 1000)); ("paypal", lit (34 # 1000));
      ("wechat", lit (6 # 1000)); ("alipay", lit (6 # 1000)) ].

(** [getPaymentMethodFees] *)
Definition getPaymentMethodFees (method : string) : looked_up number :=
  get_or fees method (lit (3 # 100)).

Definition descriptions : gmap string string :=
  list_to_map
    [ ("stripe", "支持Visa、MasterCard、American Express等主要信用卡");
      ("paypal", "使用您的PayPal账户安全支付");
      ("wechat", "使用微信扫码支付，方便快捷");
      ("alipay", "使用支付宝扫码支付，安全可靠") ].

(** [getPaymentMethodDescription]; the fallback is the empty string, which
    [get_or] returns like any other. *)
Definition getPaymentMethodDescription (method : string) : looked_up string :=
  get_or descriptions method "".

Record PaymentMethodInfo : Type := mkPaymentMethodInfo {
  pm_id : string;
  pm_name : looked_up string;
  pm_enabled : looked_up bool;
  pm_fees : looked_up number;
  pm_description : looked_up string
}.

(** [getPaymentMethods] *)
Definition getPaymentMethods (w : World) : list PaymentMethodInfo :=
  map (fun method =>
         mkPaymentMethodInfo method (getPaymentMethodName method)
           (get_or (getServiceStatus w) method false)
           (getPaymentMethodFees method) (getPaymentMethodDescription method))
      (getSupportedMethods w).

(** [refundPayment] (administrators): the order store is not part of it. *)
Definition refundPayment (w : World) (user : AuthUser) (id : string)
    (method : option string) (amount : option number) : Outcome RefundData :=
  if negb (OrderController.requireRole_admin user)
  then Responded 403 (Failure "INSUFFICIENT_PERMISSIONS" "权限不足")
  else match method with
       | None | Some EmptyString =>
           Responded 400 (Failure "NO_PAYMENT_METHOD" "支付方式参数缺失")
       | Some m => Responded 200 (PaymentManager_refundPayment w m id amount)
       end.

End PaymentPages.

(** More sample data. *)
Module MoreSamples.

Import JsNumber OrderService OrderController Payment CartService.
Local Open Scope string_scope.
Local Open Scope Z_scope.

(** No gateway has credentials. *)
Definition bare_config : Config := mkConfig "https://shop.example" None None None None.

Definition bare_world : World :=
  mkWorld bare_config Samples.sample_stripe Samples.sample_paypal "TXN-0001"
    1700000000000.

(** A provider that reports every session as paid. *)
Definition paid_stripe : StripeSdk :=
  mkStripeSdk
    (fun _ => Throw "connection refused")
    (fun id => Return (mkSession id None "paid" (Some (of_Z 29900)) (Some "usd") 1700000000))
    (fun _ _ _ => Throw "No signatures found matching the expected signature for payload")
    (fun _ => Throw "connection refused").

Definition paid_world : World :=
  mkWorld Samples.sample_config paid_stripe Samples.sample_paypal "TXN-0001"
    1700000000000.

Definition ticks (n : nat) : RowDefaults * Date :=
  (mkRowDefaults "row" (1700000000100 + Z.of_nat n), 1700000000100 + Z.of_nat n).

Definition cart_row (id user product : string) (stamp : Z) : CartItem :=
  mkCartItem id user product None (of_Z 1) (of_Z 199) (of_Z 199) [] "size-m" [] stamp.

Definition sample_cart : list CartItem :=
  [ cart_row "c1" "user-1" "prod-1" 1; cart_row "c2" "user-2" "prod-1" 2;
    cart_row "c3" "user-1" "prod-2" 3 ].

(** An order whose second timeline row carries an earlier stamp than the
    first (a clock that went back). *)
Definition skewed_order : Order :=
  mkOrder "order-1" "user-1" "confirmed" (of_Z 299) 1700600000000 None []
    [ mkOrderTimeline "pending" "订单创建" None true 1700000000005 1700000000005;
      mkOrderTimeline "confirmed" "已确认" None true 1700000000003 1700000000003 ].

Definition skewed_store : gmap string Order := {[ "order-1" := skewed_order ]}.

Definition wechat_body : Payload :=
  mkPayload "<xml/>" None None (Some "order-1") (Some "wx-1") None.

Definition paypal_body : Payload :=
  mkPayload "{}" (Some "PAYMENT.SALE.COMPLETED")
    (Some (mkPayPalResource (Some "order-1"))) None None None.

End MoreSamples.

(* ===================================================================== *)
(** * Properties of the order lifecycle *)
(* ===================================================================== *)

Module OrderFacts.

Import JsNumber JsObject OrderService Lifecycle.
Local Open Scope string_scope.
Local Open Scope Z_scope.
Local Open Scope list_scope.

(** *** Reading a timeline in [createdAt] order *)

Lemma insert_by_createdAt_last (row : OrderTimeline) (rows : list OrderTimeline) :
  Forall (fun r => createdAt r <= createdAt row) rows ->
  insert_by_createdAt row rows = rows ++ [row].
Proof.
  induction rows as [|r rest IH]; intros Hall; simpl.
  - reflexivity.
  - inversion Hall as [|? ? Hr Hrest]; subst.
    destruct (Z.ltb_spec (createdAt row) (createdAt r)) as [Hlt|Hge].
    + lia.
    + f_equal. apply IH. exact Hrest.
Qed.

Lemma insert_by_createdAt_Forall (P : OrderTimeline -> Prop) row rows :
  P row -> Forall P rows -> Forall P (insert_by_createdAt row rows).
Proof.
  intros Hrow. induction rows as [|r rest IH]; intros Hall; simpl.
  - constructor; [exact Hrow | constructor].
  - inversion Hall as [|? ? Hr Hrest]; subst.
    destruct (createdAt row <? createdAt r).
    + constructor; [exact Hrow | exact Hall].
    + constructor; [exact Hr | apply IH; exact Hrest].
Qed.

Lemma fold_insert_Forall (P : OrderTimeline -> Prop) rows : forall sorted,
  Forall P rows -> Forall P sorted ->
  Forall P (fold_left (fun acc row => insert_by_createdAt row acc) rows sorted).
Proof.
  induction rows as [|r rest IH]; intros sorted Hrows Hsorted; simpl.
  - exact Hsorted.
  - inversion Hrows as [|? ? Hr Hrest]; subst.
    apply IH; [exact Hrest |].
    apply insert_by_createdAt_Forall; assumption.
Qed.

Lemma orderBy_createdAt_asc_Forall (P : OrderTimeline -> Prop) rows :
  Forall P rows -> Forall P (orderBy_createdAt_asc rows).
Proof.
  intros H. unfold orderBy_createdAt_asc.
  apply fold_insert_Forall; [exact H | constructor].
Qed.

(** A row stamped later than all the others is read last. *)
Lemma orderBy_createdAt_asc_snoc rows row :
  Forall (fun r => createdAt r < createdAt row) rows ->
  orderBy_createdAt_asc (rows ++ [row]) = orderBy_createdAt_asc rows ++ [row].
Proof.
  intros Hall. unfold orderBy_createdAt_asc at 1.
  rewrite fold_left_app. simpl.
  apply insert_by_createdAt_last.
  apply orderBy_createdAt_asc_Forall.
  eapply Forall_impl; [exact Hall |]. simpl. intros r Hr. lia.
Qed.

(** *** What the two writes return *)

Lemma createOrder_Return db defaults now data db' o :
  createOrder db defaults now data = Return (db', o) ->
  db !! new_id defaults = None /\
  db' = <[new_id defaults := o]> db /\
  o = mkOrder (new_id defaults) (data_userId data) "pending"
        (data_totalAmount data) (data_estimatedCompletionDate data)
        (data_notes data) []
        [ mkOrderTimeline "pending" "订单创建" (Some "订单已创建，等待支付")
            true now (new_createdAt defaults) ].
Proof.
  unfold createOrder. destruct (db !! new_id defaults) eqn:Hfree; [discriminate|].
  intros H. injection H as <- <-. auto.
Qed.

Lemma updateOrderStatus_Return db defaults now id new_status note db' o' :
  updateOrderStatus db defaults now id new_status note = Return (db', o') ->
  exists o status_title,
    db !! id = Some o /\
    getStatusTitle new_status = Val status_title /\
    db' = <[id := updated o defaults now new_status status_title note]> db /\
    o' = include_timeline (updated o defaults now new_status status_title note).
Proof.
  unfold updateOrderStatus.
  destruct (getStatusTitle new_status) as [status_title|]; [|discriminate].
  destruct (db !! id) as [o|] eqn:Hfound; [|discriminate].
  intros H. injection H as <- <-.
  exists o, status_title. auto.
Qed.

Lemma updateOrderStatus_Throw db defaults now id new_status note message :
  updateOrderStatus db defaults now id new_status note = Throw message ->
  db !! id = None \/ inherited new_status = true.
Proof.
  unfold updateOrderStatus, getStatusTitle, get_or.
  destruct (titles !! new_status); simpl.
  - destruct (db !! id); [discriminate | auto].
  - destruct (inherited new_status); [auto |].
    destruct (db !! id); [discriminate | auto].
Qed.

Lemma getStatusTitle_OrderStatus new_status :
  new_status ∈ OrderStatus -> exists status_title, getStatusTitle new_status = Val status_title.
Proof.
  unfold OrderStatus. intros H.
  repeat (apply elem_of_cons in H as [->|H]; [eexists; vm_compute; reflexivity|]).
  apply elem_of_nil in H. destruct H.
Qed.

Lemma updateOrderStatus_succeeds db defaults now id new_status note o :
  db !! id = Some o -> new_status ∈ OrderStatus ->
  exists status_title,
    getStatusTitle new_status = Val status_title /\
    updateOrderStatus db defaults now id new_status note =
      Return (<[id := updated o defaults now new_status status_title note]> db,
              include_timeline (updated o defaults now new_status status_title note)).
Proof.
  intros Hfound Hstatus.
  destruct (getStatusTitle_OrderStatus _ Hstatus) as [status_title Htitle].
  exists status_title. split; [exact Htitle|].
  unfold updateOrderStatus. rewrite Htitle, Hfound. reflexivity.
Qed.

(** *** Histories of the store *)

Lemma updated_last_timeline_status o defaults now new_status status_title note :
  stamped_before (new_createdAt defaults) o ->
  last_timeline_status (updated o defaults now new_status status_title note)
  = Some new_status.
Proof.
  intros Hbefore. unfold last_timeline_status, updated. simpl.
  rewrite orderBy_createdAt_asc_snoc by exact Hbefore.
  rewrite last_snoc. reflexivity.
Qed.



(** The order each write returns agrees with itself as well. *)
Lemma createOrder_returns_consistent db defaults now data db' o :
  createOrder db defaults now data = Return (db', o) ->
  tl_status <$> last (timeline o) = Some (status o).
Proof.
  intros Hcreate. apply createOrder_Return in Hcreate as (_ & _ & ->). reflexivity.
Qed.

Lemma updateOrderStatus_returns_consistent (db : gmap string Order) defaults now id
    new_status note db' o' :
  (forall o, db !! id = Some o -> stamped_before (new_createdAt defaults) o) ->
  updateOrderStatus db defaults now id new_status note = Return (db', o') ->
  status o' = new_status /\ tl_status <$> last (timeline o') = Some new_status.
Proof.
  intros Hnewer Hupdate.
  apply updateOrderStatus_Return in Hupdate as (o & status_title & Hold & _ & _ & ->).
  split; [reflexivity|].
  exact (updated_last_timeline_status o defaults now new_status status_title note
           (Hnewer o Hold)).
Qed.

(** *** C1: status and timeline agree *)


Lemma store_created_reachable : reachable Samples.store_created.
Proof.
  apply (reachable_createOrder ∅ (Samples.tick 0) 1700000000000
           (mkCreateOrderData "user-1" (of_Z 299) 1700600000000 None)
           Samples.store_created Samples.order_created).
  - apply reachable_empty.
  - vm_compute. reflexivity.
Defined.

Lemma store_confirmed_reachable : reachable Samples.store_confirmed.
Proof.
  apply (reachable_updateOrderStatus Samples.store_created (Samples.tick 5)
           1700000000005 "order-1" "confirmed" (Some "Stripe支付完成")
           Samples.store_confirmed
           (include_timeline
              (updated Samples.order_created (Samples.tick 5) 1700000000005
                 "confirmed" "已确认" (Some "Stripe支付完成")))).
  - exact store_created_reachable.
  - intros o Hfound. vm_compute in Hfound. injection Hfound as <-.
    repeat constructor.
  - vm_compute. reflexivity.
Defined.


(** *** C3: no guard on terminal statuses in the status update *)

Lemma cancelOrder_refused (db : gmap string Order) defaults now user id reason o :
  db !! id = Some o -> status o ∉ cancellable ->
  snd (OrderController.cancelOrder db defaults now user id reason) = db /\
  (userId o = user_id user ->
   OrderController.cancelOrder db defaults now user id reason =
     (Responded 400 (Failure "CANNOT_CANCEL_ORDER" "当前订单状态不允许取消"), db)).
Proof.
  intros Hfound Hstatus.
  unfold OrderController.cancelOrder, getOrderById. rewrite Hfound. simpl.
  destruct (decide (userId o = user_id user)) as [Howner|Hother].
  - rewrite (bool_decide_eq_true_2 _ Howner). simpl.
    rewrite bool_decide_eq_false_2 by exact Hstatus. simpl. auto.
  - rewrite (bool_decide_eq_false_2 _ Hother). simpl. split; [reflexivity|].
    intros Howner. contradiction.
Qed.

Lemma terminal_not_cancellable st : st ∈ terminal -> st ∉ cancellable.
Proof.
  unfold terminal, cancellable. intros Hin Hcan.
  repeat (apply elem_of_cons in Hin as [->|Hin];
          [repeat (apply elem_of_cons in Hcan as [Hcan|Hcan]; [discriminate|]);
           apply elem_of_nil in Hcan; exact Hcan|]).
  apply elem_of_nil in Hin. exact Hin.
Qed.

(** C3, as the code has it.  The status update applies no guard on the
    current status: for an order in a terminal status and any of the nine
    target statuses, [OrderService.updateOrderStatus], and the
    administrators' handler built on it, set the status to the target and
    append the timeline entry.  Only the buyer's [cancelOrder] leaves an
    order in a terminal status untouched. *)
Theorem terminal_status_update (db : gmap string Order) defaults now id o
    new_status note :
  db !! id = Some o ->
  status o ∈ terminal ->
  new_status ∈ OrderStatus ->
  (exists status_title,
     let o' := updated o defaults now new_status status_title note in
     status o' = new_status /\
     OrderService.updateOrderStatus db defaults now id new_status note =
       Return (<[id := o']> db, include_timeline o') /\
     forall user, OrderController.requireRole_admin user = true ->
       OrderController.updateOrderStatus db defaults now user id new_status note =
         (Responded 200 (Success (include_timeline o')), <[id := o']> db)) /\
  (forall user reason,
     snd (OrderController.cancelOrder db defaults now user id reason) = db).
Proof.
  intros Hfound Hterminal Htarget. split.
  - destruct (updateOrderStatus_succeeds db defaults now id new_status note o
                Hfound Htarget) as (status_title & Htitle & Hupdate).
    exists status_title. simpl. split; [reflexivity|]. split; [exact Hupdate|].
    intros user Hadmin.
    unfold OrderController.updateOrderStatus, getOrderById.
    rewrite Hadmin, Hfound. simpl.
    change (OrderService.updateOrderStatus db defaults now id new_status note)
      with (updateOrderStatus db defaults now id new_status note).
    rewrite Hupdate. reflexivity.
  - intros user reason.
    apply (cancelOrder_refused db defaults now user id reason o Hfound).
    apply terminal_not_cancellable. exact Hterminal.
Qed.

Lemma terminal_status_update_witness :
  exists status_title,
    OrderService.updateOrderStatus (Samples.store_with "delivered") (Samples.tick 9)
      1700000000009 "order-1" "pending" None =
    Return (<["order-1" := updated (Samples.order_in "delivered") (Samples.tick 9)
                             1700000000009 "pending" status_title None]>
              (Samples.store_with "delivered"),
            include_timeline
              (updated (Samples.order_in "delivered") (Samples.tick 9)
                 1700000000009 "pending" status_title None)).
Proof.
  assert (Hfound : Samples.store_with "delivered" !! "order-1"
                   = Some (Samples.order_in "delivered"))
    by (vm_compute; reflexivity).
  assert (Hterminal : status (Samples.order_in "delivered") ∈ terminal)
    by (apply (bool_decide_unpack _); vm_compute; exact I).
  assert (Htarget : "pending" ∈ OrderStatus)
    by (apply (bool_decide_unpack _); vm_compute; exact I).
  destruct (terminal_status_update (Samples.store_with "delivered") (Samples.tick 9)
              1700000000009 "order-1" (Samples.order_in "delivered") "pending" None
              Hfound Hterminal Htarget) as [(status_title & _ & Hupdate & _) _].
  exists status_title. exact Hupdate.
Defined.

(** C3, as the specification states it, fails: an administrator moves a
    delivered order back to [pending]. *)
Lemma terminal_status_left :
  let db := Samples.store_with "delivered" in
  let db' := snd (OrderController.updateOrderStatus db (Samples.tick 9)
                    1700000000009 Samples.admin "order-1" "pending" None) in
  status <$> db !! "order-1" = Some "delivered" /\
  status <$> db' !! "order-1" = Some "pending" /\
  (length ∘ timeline) <$> db !! "order-1" = Some 1%nat /\
  (length ∘ timeline) <$> db' !! "order-1" = Some 2%nat.
Proof. vm_compute. repeat split; reflexivity. Qed.

(** *** C4: the guard of the buyer's cancellation *)

Lemma cancelOrder_accepted (db : gmap string Order) defaults now user id reason o :
  db !! id = Some o -> userId o = user_id user -> status o ∈ cancellable ->
  let o' := updated o defaults now "cancelled" "已取消"
              (Some (or_default reason "用户主动取消")) in
  OrderController.cancelOrder db defaults now user id reason =
    (Responded 200 (Success (include_timeline o')), <[id := o']> db).
Proof.
  intros Hfound Howner Hstatus. simpl.
  unfold OrderController.cancelOrder, getOrderById. rewrite Hfound. simpl.
  rewrite (bool_decide_eq_true_2 _ Howner). simpl.
  rewrite (bool_decide_eq_true_2 _ Hstatus). simpl.
  unfold OrderService.updateOrderStatus. rewrite Hfound. reflexivity.
Qed.



(** *** C8: the total amount *)







End OrderFacts.

(* ===================================================================== *)
(** * Properties of the payment dispatcher and of the webhook handlers *)
(* ===================================================================== *)

Module PaymentFacts.

Import JsNumber JsObject OrderService Payment PaymentController Lifecycle.
Local Open Scope string_scope.
Local Open Scope Z_scope.
Local Open Scope list_scope.

Ltac by_computation := apply (bool_decide_unpack _); vm_compute; exact I.

(** *** C7: methods the registry does not know *)

Lemma getSupportedMethods_eq w :
  getSupportedMethods w = [ "stripe"; "paypal"; "wechat"; "alipay" ].
Proof. reflexivity. Qed.

Lemma gateways_get_None w method :
  method ∉ getSupportedMethods w -> gateways_get w method = None.
Proof.
  rewrite getSupportedMethods_eq. intros Hnot.
  assert (Hne : forall name, name ∈ [ "stripe"; "paypal"; "wechat"; "alipay" ] ->
                  String.eqb name method = false).
  { intros name Hin. apply String.eqb_neq. intros <-. exact (Hnot Hin). }
  unfold gateways_get, gateways. cbn [List.find fst].
  rewrite !Hne by by_computation. reflexivity.
Qed.

(** C7.  For a method that is none of ["stripe"], ["paypal"], ["wechat"],
    ["alipay"], the registry has no gateway, and
    [PaymentManager.createPayment] returns the error
    [UNSUPPORTED_PAYMENT_METHOD] whatever the gateways would do. *)
Theorem createPayment_unsupported_method w method order returnUrl cancelUrl :
  method ∉ [ "stripe"; "paypal"; "wechat"; "alipay" ] ->
  gateways_get w method = None /\
  PaymentManager_createPayment w method order returnUrl cancelUrl =
    Failure "UNSUPPORTED_PAYMENT_METHOD" ("不支持的支付方式: " ++ method)%string.
Proof.
  intros Hnot.
  assert (Hnone : gateways_get w method = None)
    by (apply gateways_get_None; rewrite getSupportedMethods_eq; exact Hnot).
  split; [exact Hnone|].
  unfold PaymentManager_createPayment. rewrite Hnone. reflexivity.
Qed.

Lemma createPayment_unsupported_method_witness :
  PaymentManager_createPayment Samples.sample_world "bitcoin"
    (Samples.order_in "pending") "https://shop.example/ok" "https://shop.example/no"
  = Failure "UNSUPPORTED_PAYMENT_METHOD" "不支持的支付方式: bitcoin".
Proof.
  apply (createPayment_unsupported_method Samples.sample_world "bitcoin").
  apply (bool_decide_eq_false_1 _). vm_compute. reflexivity.
Defined.

(** The HTTP handler never passes such a method on: it asks for Stripe
    instead. *)
Lemma controller_falls_back_to_stripe w db user orderId method returnUrl cancelUrl :
  method ∉ getSupportedMethods w ->
  PaymentController.createPayment w db user orderId (Some method) returnUrl cancelUrl =
  PaymentController.createPayment w db user orderId (Some "stripe") returnUrl cancelUrl.
Proof.
  intros Hnot. unfold PaymentController.createPayment.
  rewrite (bool_decide_eq_false_2 _ Hnot).
  rewrite bool_decide_eq_true_2 by (rewrite getSupportedMethods_eq; by_computation).
  reflexivity.
Qed.

(** *** C5: a webhook whose signature does not verify *)

(** C5.  When the Stripe SDK refuses the signature of a webhook body for
    the configured secret, [handleWebhook] returns the error result
    [STRIPE_WEBHOOK_ERROR], and [handleStripeWebhook] answers with that
    result and writes nothing: every order keeps its status and its
    timeline. *)
Theorem stripe_webhook_bad_signature w (db : gmap string Order) defaults now body
    signature :
  (forall secret, stripe_webhookSecret (config w) = Some secret ->
     exists message, constructEvent (stripe w) body signature secret = Throw message) ->
  exists message,
    PaymentManager_handleWebhook w "stripe" body signature =
      Failure "STRIPE_WEBHOOK_ERROR" message /\
    handleStripeWebhook w db defaults now body signature =
      (Responded 200 (Failure "STRIPE_WEBHOOK_ERROR" message), db).
Proof.
  intros Hrefused.
  assert (Hresult : exists message,
            PaymentManager_handleWebhook w "stripe" body signature =
              Failure "STRIPE_WEBHOOK_ERROR" message).
  { unfold PaymentManager_handleWebhook, gateways_get, gateways. simpl.
    unfold Stripe_handleWebhook.
    destruct (stripe_ready (config w)); simpl; [|eexists; reflexivity].
    destruct (stripe_webhookSecret (config w)) as [[|c s]|] eqn:Hsecret;
      try (eexists; reflexivity).
    destruct (Hrefused _ eq_refl) as (message & ->).
    eexists; reflexivity. }
  destruct Hresult as (message & Hresult). exists message.
  split; [exact Hresult|].
  unfold handleStripeWebhook. rewrite Hresult. reflexivity.
Qed.

Lemma stripe_webhook_bad_signature_witness :
  exists message,
    PaymentManager_handleWebhook Samples.sample_world "stripe" Samples.sample_body
      "t=1,v1=forged" = Failure "STRIPE_WEBHOOK_ERROR" message /\
    handleStripeWebhook Samples.sample_world (Samples.store_with "pending")
      (Samples.tick 5) 1700000000005 Samples.sample_body "t=1,v1=forged" =
      (Responded 200 (Failure "STRIPE_WEBHOOK_ERROR" message),
       Samples.store_with "pending").
Proof.
  apply (stripe_webhook_bad_signature Samples.sample_world).
  intros secret Hsecret. eexists. vm_compute. reflexivity.
Defined.

(** *** C2: the same completed-payment event delivered twice *)

Lemma is_set_Some s : s <> "" -> is_set (Some s) = true.
Proof. destruct s; [contradiction | reflexivity]. Qed.

Lemma updateOrderStatus_confirmed (db : gmap string Order) defaults now id note o :
  db !! id = Some o ->
  OrderService.updateOrderStatus db defaults now id "confirmed" note =
    Return (<[id := updated o defaults now "confirmed" "已确认" note]> db,
            include_timeline (updated o defaults now "confirmed" "已确认" note)).
Proof.
  intros Hfound. unfold OrderService.updateOrderStatus. rewrite Hfound. reflexivity.
Qed.

(** One delivery: whatever the status of the order, it becomes [confirmed]
    and one timeline entry is appended. *)
Lemma handleStripeWebhook_completed w (db : gmap string Order) defaults now body
    signature data event_id orderId o :
  PaymentManager_handleWebhook w "stripe" body signature =
    Success (StripeData "checkout.session.completed" data event_id) ->
  metadata_orderId data = Some orderId -> orderId <> "" ->
  db !! orderId = Some o ->
  handleStripeWebhook w db defaults now body signature =
    (Responded 200 (Success (StripeData "checkout.session.completed" data event_id)),
     <[orderId := updated o defaults now "confirmed" "已确认" (Some "Stripe支付完成")]> db).
Proof.
  intros Hevent Hid Hnonempty Hfound.
  unfold handleStripeWebhook. rewrite Hevent, Hid.
  rewrite (is_set_Some _ Hnonempty). simpl.
  unfold confirm_from_webhook.
  rewrite (updateOrderStatus_confirmed db defaults now orderId _ o Hfound).
  reflexivity.
Qed.




(** A late delivery even takes a shipped order back to [confirmed]. *)
Lemma late_delivery_resets_status :
  status <$>
    snd (handleStripeWebhook Samples.sample_world (Samples.store_with "shipped")
           (Samples.tick 5) 1700000000005 Samples.sample_body "t=1,v1=good")
      !! "order-1"
  = Some "confirmed".
Proof. vm_compute. reflexivity. Qed.

(** *** C6: verification of a payment that is not paid *)

(** The Stripe and PayPal gateways ask the provider, and report a session
    or sale that is not paid as [*_PAYMENT_NOT_COMPLETED]. *)
Lemma Stripe_verifyPayment_not_paid w paymentId session :
  stripe_ready (config w) = true ->
  sessions_retrieve (stripe w) paymentId = Return session ->
  payment_status session <> "paid" ->
  PaymentManager_verifyPayment w "stripe" paymentId =
    Failure "STRIPE_PAYMENT_NOT_COMPLETED" "支付未完成".
Proof.
  intros Hready Hsession Hstatus.
  unfold PaymentManager_verifyPayment, gateways_get, gateways. simpl.
  unfold Stripe_verifyPayment. rewrite Hready, Hsession. simpl.
  apply String.eqb_neq in Hstatus. rewrite Hstatus. reflexivity.
Qed.

Lemma PayPal_verifyPayment_not_completed w paymentId payment :
  paypalConfigured (config w) = true ->
  payment_get (paypal w) paymentId = Return payment ->
  (forall s, sale payment = Some s -> sale_state s <> "completed") ->
  PaymentManager_verifyPayment w "paypal" paymentId =
    Failure "PAYPAL_PAYMENT_NOT_COMPLETED" "支付未完成".
Proof.
  intros Hready Hpayment Hstate.
  unfold PaymentManager_verifyPayment, gateways_get, gateways. simpl.
  unfold PayPal_verifyPayment. rewrite Hready, Hpayment. simpl.
  destruct (sale payment) as [s|] eqn:Hsale; [|reflexivity].
  specialize (Hstate s eq_refl). apply String.eqb_neq in Hstate.
  rewrite Hstate. reflexivity.
Qed.

(** A verification that does not succeed writes nothing. *)
Lemma verifyPayment_failure_keeps_store w (db : gmap string Order) defaults now user id
    method orderId code message :
  PaymentManager_verifyPayment w method id = Failure code message ->
  snd (PaymentController.verifyPayment w db defaults now user id (Some method) orderId)
  = db.
Proof.
  intros Hfailed. unfold PaymentController.verifyPayment.
  destruct method as [|c m]; [reflexivity|].
  destruct (getOrderById db orderId) as [order|]; [|reflexivity].
  destruct (owner_or_admin order user); simpl; [|reflexivity].
  rewrite Hfailed. reflexivity.
Qed.

(** C6, at the WeChat and Alipay gateways.  Their [verifyPayment] does not
    ask the provider: whatever the provider would report, every payment id
    is returned as a completed payment, and the handler then confirms the
    order it was asked about. *)
Theorem simulated_verifyPayment_reports_paid w paymentId :
  PaymentManager_verifyPayment w "wechat" paymentId =
    Success (mkPaymentResult true paymentId (of_Z 0) "CNY" "wechat" "completed"
               (clock w)) /\
  PaymentManager_verifyPayment w "alipay" paymentId =
    Success (mkPaymentResult true paymentId (of_Z 0) "CNY" "alipay" "completed"
               (clock w)) /\
  status <$>
    snd (PaymentController.verifyPayment w (Samples.store_with "pending")
           (Samples.tick 5) 1700000000005 Samples.buyer paymentId (Some "wechat")
           "order-1") !! "order-1"
  = Some "confirmed".
Proof.
  split; [reflexivity|]. split; [reflexivity|].
  unfold PaymentController.verifyPayment.
  change (getOrderById (Samples.store_with "pending") "order-1")
    with (Some (include_timeline (Samples.order_in "pending"))).
  change (PaymentManager_verifyPayment w "wechat" paymentId)
    with (Success (mkPaymentResult true paymentId (of_Z 0) "CNY" "wechat" "completed"
                     (clock w))).
  cbn -[OrderService.updateOrderStatus Samples.store_with].
  rewrite (updateOrderStatus_confirmed (Samples.store_with "pending") (Samples.tick 5)
             1700000000005 "order-1" (Some "支付验证成功")
             (Samples.order_in "pending")) by reflexivity.
  change (owner_or_admin (include_timeline (Samples.order_in "pending")) Samples.buyer)
    with true.
  cbn [negb snd]. rewrite lookup_insert_eq. reflexivity.
Qed.

End PaymentFacts.

(* ===================================================================== *)
(** * Properties of the arithmetic: amounts and fees *)
(* ===================================================================== *)

Module NumberFacts.

Import JsNumber JsObject Payment Fees Binary64.
Local Open Scope string_scope.
Local Open Scope Q_scope.

(** *** Rounding to binary64 *)

Lemma rne_bounds (y : Q) :
  y - (1 # 2) <= inject_Z (rne y) /\ inject_Z (rne y) <= y + (1 # 2).
Proof.
  unfold rne.
  pose proof (Qfloor_le y) as Hlo.
  pose proof (Qlt_floor y) as Hhi.
  rewrite inject_Z_plus in Hhi. change (inject_Z 1) with 1 in Hhi.
  destruct (Qcompare_spec (y - inject_Z (Qfloor y)) (1 # 2)) as [Heq|Hlt|Hgt].
  - destruct (Z.even (Qfloor y)).
    + split; lra.
    + rewrite inject_Z_plus. change (inject_Z 1) with 1. split; lra.
  - split; lra.
  - rewrite inject_Z_plus. change (inject_Z 1) with 1. split; lra.
Qed.

Lemma pow2_pos (e : Z) : 0 < pow2 e.
Proof. unfold pow2. apply Qpower_0_lt. reflexivity. Qed.

Lemma pow2_add (a b : Z) : pow2 (a + b) == pow2 a * pow2 b.
Proof. unfold pow2. apply Qpower_plus. discriminate. Qed.

Lemma pow2_of_nonneg (a : Z) : (0 <= a)%Z -> pow2 a == inject_Z (2 ^ a).
Proof. intros Ha. unfold pow2. rewrite Zpower_Qpower by exact Ha. reflexivity. Qed.

(** Bounds on a quotient [X = N / D] from bounds on [N] and [D]. *)
Lemma quotient_bounds (P X D N A B : Q) :
  0 < D -> 0 < P -> X * D == N -> P * B == A ->
  (A <= N -> D <= B -> P <= X) /\ (N < A -> B <= D -> X < P).
Proof.
  intros HD HP HX HPB. split; intros H1 H2.
  - apply (Qmult_le_r _ _ D HD). nra.
  - apply (Qmult_lt_r _ _ D HD). nra.
Qed.

Lemma ilog2_spec (x : Q) :
  0 < x -> pow2 (ilog2 x) <= x /\ x < pow2 (ilog2 x + 1).
Proof.
  destruct x as [n d]. intros Hpos.
  assert (Hn : (0 < n)%Z) by (unfold Qlt in Hpos; simpl in Hpos; lia).
  unfold ilog2. cbn [Qnum Qden].
  set (a := Z.log2 n). set (b := Z.log2 (Z.pos d)).
  pose proof (Z.log2_spec n Hn) as [Ha0 Ha1]. fold a in Ha0, Ha1.
  pose proof (Z.log2_spec (Z.pos d) eq_refl) as [Hb0 Hb1]. fold b in Hb0, Hb1.
  pose proof (Z.log2_nonneg n) as Ha. fold a in Ha.
  pose proof (Z.log2_nonneg (Z.pos d)) as Hb. fold b in Hb.
  rewrite Zle_Qle in Ha0, Hb0. rewrite Zlt_Qlt in Ha1, Hb1.
  rewrite <- pow2_of_nonneg in Ha0, Hb0, Ha1, Hb1 by lia.
  assert (HD : 0 < inject_Z (Z.pos d)) by reflexivity.
  assert (HX : (n # d) * inject_Z (Z.pos d) == inject_Z n).
  { rewrite Qmake_Qdiv. field. intros H. rewrite H in HD. discriminate HD. }
  destruct (Qle_bool (pow2 (a - b)) (n # d)) eqn:Htest.
  - split; [apply Qle_bool_iff; exact Htest|].
    refine (proj2 (quotient_bounds (pow2 (a - b + 1)) (n # d) _ _
                     (pow2 (Z.succ a)) (pow2 b) HD (pow2_pos _) HX _) Ha1 Hb0).
    rewrite <- pow2_add. replace (a - b + 1 + b)%Z with (Z.succ a) by lia. reflexivity.
  - split.
    + refine (proj1 (quotient_bounds (pow2 (a - b - 1)) (n # d) _ _
                       (pow2 a) (pow2 (Z.succ b)) HD (pow2_pos _) HX _)
                Ha0 (Qlt_le_weak _ _ Hb1)).
      rewrite <- pow2_add. replace (a - b - 1 + Z.succ b)%Z with a by lia. reflexivity.
    + replace (a - b - 1 + 1)%Z with (a - b)%Z by lia.
      apply Qnot_le_lt. intros Hle. apply Qle_bool_iff in Hle. congruence.
Qed.

(** In the normal range the last place follows the binary exponent. *)
Lemma quantum_normal (x : Q) : pow2 (-1022) <= x -> quantum x = (ilog2 x - 52)%Z.
Proof.
  intros Hx.
  assert (Hpos : 0 < x) by (eapply Qlt_le_trans; [apply (pow2_pos (-1022)) | exact Hx]).
  destruct (ilog2_spec x Hpos) as [_ Hup].
  assert (Hlt : pow2 (-1022) < pow2 (ilog2 x + 1)) by (eapply Qle_lt_trans; eassumption).
  apply Qpower_lt_compat_l_inv in Hlt; [|reflexivity].
  unfold quantum. lia.
Qed.

Lemma round_pos_error (x : Q) :
  pow2 (-1022) <= x ->
  x * (1 - u53) <= round_pos x /\ round_pos x <= x * (1 + u53).
Proof.
  intros Hx.
  assert (Hpos : 0 < x) by (eapply Qlt_le_trans; [apply (pow2_pos (-1022)) | exact Hx]).
  unfold round_pos. rewrite (quantum_normal x Hx).
  set (e := (ilog2 x - 52)%Z).
  pose proof (pow2_pos e) as Hs.
  destruct (ilog2_spec x Hpos) as [Hlow _].
  replace (ilog2 x) with (e + 52)%Z in Hlow by (unfold e; lia).
  rewrite pow2_add in Hlow.
  assert (H52 : pow2 52 == 4503599627370496) by reflexivity.
  rewrite H52 in Hlow.
  destruct (rne_bounds (x / pow2 e)) as [Hr0 Hr1].
  assert (Hy : x / pow2 e * pow2 e == x).
  { field. intros H. rewrite H in Hs. discriminate Hs. }
  set (s := pow2 e) in *. set (y := x / s) in *. set (R := inject_Z (rne y)) in *.
  unfold u53.
  assert (H0 : (y - (1 # 2)) * s <= R * s) by (apply Qmult_le_compat_r; lra).
  assert (H1 : R * s <= (y + (1 # 2)) * s) by (apply Qmult_le_compat_r; lra).
  split; nra.
Qed.

(** A positive real in the normal range, rounded: a finite number within
    the relative error [2^-53]. *)
Lemma fl_normal (x : Q) :
  pow2 (-1022) <= x -> x <= pow2 1023 ->
  exists q, fl x = Num q /\ x * (1 - u53) <= q /\ q <= x * (1 + u53).
Proof.
  intros Hlo Hhi.
  assert (Hpos : 0 < x) by (eapply Qlt_le_trans; [apply (pow2_pos (-1022)) | exact Hlo]).
  destruct (round_pos_error x Hlo) as [Hr0 Hr1].
  unfold fl.
  destruct x as [[|p|p] d]; try (exfalso; revert Hpos; unfold Qlt; simpl; lia).
  cbn [Qnum].
  assert (Hmax : pow2 1023 * (1 + u53) < pow2 1024)
    by (unfold Qlt; vm_compute; reflexivity).
  destruct (Qle_bool (pow2 1024) (round_pos (Z.pos p # d))) eqn:Hover.
  - exfalso. apply Qle_bool_iff in Hover.
    set (P := pow2 1023) in *. set (T := pow2 1024) in *. unfold u53 in *. nra.
  - exists (Qred (round_pos (Z.pos p # d))).
    split; [reflexivity|]. rewrite Qred_correct. split; assumption.
Qed.

Lemma Qfloor_unique (x : Q) (z : Z) :
  inject_Z z <= x -> x < inject_Z (z + 1) -> Qfloor x = z.
Proof.
  intros Hlo Hhi.
  pose proof (Qfloor_le x) as Hf0. pose proof (Qlt_floor x) as Hf1.
  assert (H0 : inject_Z z < inject_Z (Qfloor x + 1)) by (eapply Qle_lt_trans; eassumption).
  assert (H1 : inject_Z (Qfloor x) < inject_Z (z + 1)) by (eapply Qle_lt_trans; eassumption).
  rewrite <- Zlt_Qlt in H0, H1. lia.
Qed.

Lemma is_zero_inject_Z (z : Z) : z <> 0%Z -> is_zero (inject_Z z) = false.
Proof.
  intros Hz. unfold is_zero, Qeq_bool. simpl.
  apply Z.eqb_neq. lia.
Qed.

(** *** C9: cents to dollars and back *)

(** C9, within the range where it holds.  For every whole amount [m] of
    minor units with [0 <= m < 2^51], dividing by 100 as [verifyPayment]
    does and converting back with [Math.round(x * 100)] as [createPayment]
    and [refundPayment] do yields [m] again.  The boundary values 1, 99,
    100 and 100000 (and 4990) are in that range. *)
Theorem minor_major_round_trip (m : Z) :
  (0 <= m < 2 ^ 51)%Z ->
  to_minor_units (to_major_units (Some (of_Z m))) = of_Z m.
Proof.
  intros [Hm0 Hm1].
  destruct (Z.eq_dec m 0%Z) as [->|Hnz]; [vm_compute; reflexivity|].
  assert (HM0 : 1 <= inject_Z m) by (change 1 with (inject_Z 1); rewrite <- Zle_Qle; lia).
  assert (HM1 : inject_Z m <= 2251799813685247)
    by (change 2251799813685247 with (inject_Z 2251799813685247);
        rewrite <- Zle_Qle; lia).
  unfold to_major_units, of_Z, truthy.
  rewrite (is_zero_inject_Z m Hnz). cbn [negb].
  unfold num_div. rewrite (is_zero_inject_Z 100) by discriminate.
  set (x1 := inject_Z m / inject_Z 100).
  assert (Hx1 : x1 * 100 == inject_Z m) by (unfold x1; field).
  assert (Htiny : pow2 (-1022) <= 1 # 100)
    by (apply Qle_bool_iff; vm_compute; reflexivity).
  assert (Hhuge : 2251799813685248 <= pow2 1023)
    by (apply Qle_bool_iff; vm_compute; reflexivity).
  clearbody x1.
  destruct (fl_normal x1) as (q1 & -> & Hq1lo & Hq1hi); [lra | lra |].
  unfold to_minor_units, num_mul, of_Z. cbv beta iota.
  change (inject_Z 100) with 100.
  unfold u53 in *.
  destruct (fl_normal (q1 * 100)) as (q2 & -> & Hq2lo & Hq2hi); [lra | lra |].
  unfold u53 in *. unfold Math_round. do 2 f_equal.
  apply Qfloor_unique.
  - lra.
  - rewrite inject_Z_plus. change (inject_Z 1) with 1. lra.
Qed.

Lemma minor_major_round_trip_witness :
  to_major_units (Some (of_Z 4990)) = lit (499 # 10) /\
  to_minor_units (to_major_units (Some (of_Z 4990))) = of_Z 4990.
Proof.
  split; [vm_compute; reflexivity|].
  apply (minor_major_round_trip 4990). lia.
Defined.

Lemma round_trip_boundary_values :
  Forall (fun m => to_minor_units (to_major_units (Some (of_Z m))) = of_Z m)
         [ 1; 99; 100; 100000 ]%Z.
Proof. repeat constructor; vm_compute; reflexivity. Qed.

(** C9, for every amount, fails: 3587235626723295 minor units come back
    as 3587235626723296. *)
Lemma round_trip_drifts :
  to_minor_units (to_major_units (Some (of_Z 3587235626723295)))
    = of_Z 3587235626723296 /\
  to_minor_units (to_major_units (Some (of_Z 3587235626723295)))
    <> of_Z 3587235626723295.
Proof.
  assert (H : to_minor_units (to_major_units (Some (of_Z 3587235626723295)))
              = of_Z 3587235626723296) by (vm_compute; reflexivity).
  split; [exact H|]. rewrite H. discriminate.
Qed.

(** The kernel's binary64 arithmetic computes the same product before the
    final [Math.round]. *)
Lemma round_trip_drifts_binary64 :
  number_of_float
    (PrimFloat.mul
       (PrimFloat.div (float_of_Z 3587235626723295) (float_of_Z 100))
       (float_of_Z 100))
  = num_mul (to_major_units (Some (of_Z 3587235626723295))) (of_Z 100).
Proof. vm_compute. reflexivity. Qed.

(** *** C10: fees *)

Lemma inherited_false_not_own (method : string) :
  inherited method = false ->
  get_or feeRates method (lit (3 # 100)) = Val (spec_rate method).
Proof.
  intros Hproto. unfold get_or, spec_rate.
  destruct (String.eqb_spec method "stripe") as [->|H1]; [reflexivity|].
  destruct (String.eqb_spec method "paypal") as [->|H2]; [reflexivity|].
  destruct (String.eqb_spec method "wechat") as [->|H3]; [reflexivity|].
  destruct (String.eqb_spec method "alipay") as [->|H4]; [reflexivity|].
  assert (Hnone : feeRates !! method = None).
  { unfold feeRates. cbn [list_to_map foldr uncurry fst snd].
    rewrite !lookup_insert_ne by congruence. apply lookup_empty. }
  rewrite Hnone, Hproto. reflexivity.
Qed.

(** C10, as the code computes it.  For every method that is not the name
    of a member of [Object.prototype], [calculateFees(amount, method)] is
    the binary64 product of [amount] and the rate of the table (2.9%, 3.4%,
    0.6%, 0.6%; 3% for a method outside the table).  For an amount of 100
    that is 2.9000000000000004 for ["stripe"], the number 0.6 for
    ["wechat"], and 3 for a method outside the table. *)
Theorem calculateFees_rates (amount : number) (method : string) :
  inherited method = false ->
  calculateFees amount method = num_mul amount (spec_rate method) /\
  calculateFees (of_Z 100) "stripe" = Num (1632554864921805 # 562949953421312) /\
  calculateFees (of_Z 100) "wechat" = lit (6 # 10) /\
  (feeRates !! method = None -> calculateFees (of_Z 100) method = of_Z 3).
Proof.
  intros Hproto.
  assert (Hrate : forall a, calculateFees a method = num_mul a (spec_rate method)).
  { intros a. unfold calculateFees.
    rewrite (inherited_false_not_own method Hproto). reflexivity. }
  split; [apply Hrate|].
  split; [vm_compute; reflexivity|].
  split; [vm_compute; reflexivity|].
  intros Hnone. unfold calculateFees, get_or. rewrite Hnone, Hproto.
  vm_compute. reflexivity.
Qed.

Lemma calculateFees_rates_witness :
  calculateFees (of_Z 100) "bitcoin" = num_mul (of_Z 100) (lit (3 # 100)) /\
  calculateFees (of_Z 100) "bitcoin" = of_Z 3.
Proof.
  assert (Hproto : inherited "bitcoin" = false) by (vm_compute; reflexivity).
  assert (Hnone : feeRates !! "bitcoin" = None) by (vm_compute; reflexivity).
  destruct (calculateFees_rates (of_Z 100) "bitcoin" Hproto) as (Hrate & _ & _ & Hthree).
  split; [exact Hrate | exact (Hthree Hnone)].
Defined.

(** C10, as the specification states it, fails at its first example: the
    fee of 100.00 by Stripe is not the number 2.90 but the next one above. *)
Lemma stripe_fee_is_not_2_90 :
  calculateFees (of_Z 100) "stripe" = Num (1632554864921805 # 562949953421312) /\
  lit (29 # 10) = Num (6530219459687219 # 2251799813685248) /\
  calculateFees (of_Z 100) "stripe" <> lit (29 # 10).
Proof.
  assert (Hfee : calculateFees (of_Z 100) "stripe"
                 = Num (1632554864921805 # 562949953421312)) by (vm_compute; reflexivity).
  assert (Hlit : lit (29 # 10) = Num (6530219459687219 # 2251799813685248))
    by (vm_compute; reflexivity).
  split; [exact Hfee|]. split; [exact Hlit|].
  rewrite Hfee, Hlit. discriminate.
Qed.

(** The kernel's binary64 arithmetic gives the same fee and the same 2.9. *)
Lemma stripe_fee_binary64 :
  number_of_float
    (PrimFloat.mul (float_of_Z 100)
       (PrimFloat.div (float_of_Z 29) (float_of_Z 1000)))
    = calculateFees (of_Z 100) "stripe" /\
  number_of_float (PrimFloat.div (float_of_Z 29) (float_of_Z 10)) = lit (29 # 10).
Proof. split; vm_compute; reflexivity. Qed.

(** A method named like a member of [Object.prototype] finds that member
    in place of a rate, and the fee is [NaN]. *)
Lemma calculateFees_prototype_member (amount : number) :
  calculateFees amount "toString" = NaN.
Proof. destruct amount; reflexivity. Qed.

End NumberFacts.

(* ===================================================================== *)
(** * Further properties: whole numbers *)
(* ===================================================================== *)

Module NumberExtras.

Import JsNumber JsObject OrderService OrderController OrderAdmin NumberFacts.
Local Open Scope string_scope.
Local Open Scope Q_scope.
Local Open Scope list_scope.

Lemma rne_integer (y : Q) (k : Z) : y == inject_Z k -> rne y = k.
Proof.
  intros Hy. unfold rne.
  rewrite (Qfloor_comp _ _ Hy), Qfloor_Z.
  destruct (Qcompare_spec (y - inject_Z k) (1 # 2)) as [H|H|H];
    [exfalso; lra | reflexivity | exfalso; lra].
Qed.

Lemma Qred_inject_Z (n : Z) : Qred (inject_Z n) = inject_Z n.
Proof.
  unfold Qred, inject_Z.
  pose proof (Z.ggcd_gcd n (Z.pos 1)) as Hg.
  pose proof (Z.ggcd_correct_divisors n (Z.pos 1)) as Hd.
  destruct (Z.ggcd n (Z.pos 1)) as [g [aa bb]]. simpl in Hg.
  rewrite Z.gcd_1_r in Hg. subst g. destruct Hd as [Ha Hb].
  replace aa with n by lia. replace bb with 1%Z by lia. reflexivity.
Qed.

(** A whole number below [2^53] is a binary64 value: rounding keeps it. *)
Lemma fl_integer (n : Z) : (0 <= n < 2 ^ 53)%Z -> fl (inject_Z n) = of_Z n.
Proof.
  intros [Hn0 Hn1].
  destruct (Z.eq_dec n 0%Z) as [->|Hnz]; [reflexivity|].
  assert (Hx1 : 1 <= inject_Z n) by (change 1 with (inject_Z 1); rewrite <- Zle_Qle; lia).
  assert (Hx2 : inject_Z n < pow2 53).
  { rewrite pow2_of_nonneg by lia. rewrite <- Zlt_Qlt. exact Hn1. }
  assert (Htiny : pow2 (-1022) <= 1) by (apply Qle_bool_iff; vm_compute; reflexivity).
  assert (Hlo : pow2 (-1022) <= inject_Z n) by lra.
  assert (Hpos : 0 < inject_Z n) by lra.
  destruct (ilog2_spec _ Hpos) as [Hl0 Hl1].
  assert (Hexp : (0 <= ilog2 (inject_Z n) < 53)%Z).
  { split.
    - assert (H : pow2 0 < pow2 (ilog2 (inject_Z n) + 1)).
      { eapply Qle_lt_trans; [|exact Hl1]. exact Hx1. }
      apply (Qpower_lt_compat_l_inv 2 0 (ilog2 (inject_Z n) + 1)) in H;
        [lia | reflexivity].
    - assert (H : pow2 (ilog2 (inject_Z n)) < pow2 53) by (eapply Qle_lt_trans; eassumption).
      apply (Qpower_lt_compat_l_inv 2 (ilog2 (inject_Z n)) 53) in H;
        [lia | reflexivity]. }
  assert (Hround : round_pos (inject_Z n) == inject_Z n).
  { unfold round_pos. rewrite (quantum_normal _ Hlo).
    set (e := (ilog2 (inject_Z n) - 52)%Z).
    assert (He : (e <= 0)%Z) by (unfold e; lia).
    pose proof (pow2_pos e) as Hs.
    assert (Hinv : pow2 e * inject_Z (2 ^ (- e)) == 1).
    { rewrite <- pow2_of_nonneg by lia. rewrite <- pow2_add.
      replace (e + - e)%Z with 0%Z by lia. reflexivity. }
    assert (Hy : inject_Z n / pow2 e == inject_Z (n * 2 ^ (- e))).
    { rewrite inject_Z_mult.
      apply (Qmult_inj_r _ _ (pow2 e)); [intros H; rewrite H in Hs; discriminate Hs|].
      transitivity (inject_Z n).
      - field. intros H; rewrite H in Hs; discriminate Hs.
      - rewrite <- Qmult_assoc, (Qmult_comm (inject_Z (2 ^ (- e)))), Hinv. ring. }
    rewrite (rne_integer _ _ Hy), inject_Z_mult.
    rewrite <- Qmult_assoc, (Qmult_comm (inject_Z (2 ^ (- e)))), Hinv. ring. }
  unfold fl, of_Z.
  destruct n as [|p|p]; try lia. cbn [inject_Z Qnum].
  assert (Hbig : pow2 53 <= pow2 1024) by (apply Qle_bool_iff; vm_compute; reflexivity).
  destruct (Qle_bool (pow2 1024) (round_pos (inject_Z (Z.pos p)))) eqn:Hover.
  - exfalso. apply Qle_bool_iff in Hover. rewrite Hround in Hover. lra.
  - f_equal. rewrite (Qred_complete _ _ Hround). apply Qred_inject_Z.
Qed.

(** Sums and products of whole numbers are exact below [2^53]. *)
Lemma num_add_whole (a b : Z) :
  (0 <= a)%Z -> (0 <= b)%Z -> (a + b < 2 ^ 53)%Z ->
  num_add (of_Z a) (of_Z b) = of_Z (a + b).
Proof.
  intros Ha Hb Hsum. unfold num_add, of_Z.
  replace (inject_Z a + inject_Z b) with (inject_Z (a + b)).
  - apply fl_integer. lia.
  - unfold Qplus, inject_Z. simpl. rewrite !Z.mul_1_r. reflexivity.
Qed.

Lemma num_mul_whole (a b : Z) :
  (0 <= a)%Z -> (0 <= b)%Z -> (a * b < 2 ^ 53)%Z ->
  num_mul (of_Z a) (of_Z b) = of_Z (a * b).
Proof.
  intros Ha Hb Hprod. unfold num_mul, of_Z.
  replace (inject_Z a * inject_Z b) with (inject_Z (a * b)).
  - apply fl_integer. lia.
  - unfold Qmult, inject_Z. simpl. reflexivity.
Qed.

Lemma or_zero_of_Z (n : Z) : or_zero (of_Z n) = of_Z n.
Proof.
  unfold or_zero, of_Z, truthy.
  destruct (Z.eq_dec n 0%Z) as [->|Hnz]; [reflexivity|].
  rewrite (is_zero_inject_Z n Hnz). reflexivity.
Qed.

Lemma sum_nonneg (prices : list Z) :
  Forall (Z.le 0%Z) prices -> (0 <= fold_right Z.add 0%Z prices)%Z.
Proof. induction 1; simpl; lia. Qed.

Lemma customization_prices_whole (prices : list Z) : forall acc : Z,
  (0 <= acc)%Z -> Forall (Z.le 0%Z) prices ->
  (acc + fold_right Z.add 0%Z prices < 2 ^ 53)%Z ->
  fold_left (fun csum c => num_add csum (price c))
    (map (fun p => mkCustomization "text" "" (of_Z p)) prices) (of_Z acc)
  = of_Z (acc + fold_right Z.add 0%Z prices).
Proof.
  induction prices as [|p rest IH]; intros acc Hacc Hall Hbound;
    cbn [map fold_left fold_right price] in *.
  - rewrite Z.add_0_r. reflexivity.
  - inversion Hall as [|? ? Hp Hrest]; subst.
    pose proof (sum_nonneg rest Hrest) as Hsum.
    rewrite num_add_whole by lia.
    rewrite IH by (try assumption; lia).
    f_equal. lia.
Qed.

Lemma item_total_whole (product : string) (q : Z) (prices : list Z) :
  (0 <= q)%Z -> Forall (Z.le 0%Z) prices ->
  (fold_right Z.add 0%Z prices < 2 ^ 53)%Z ->
  (q * fold_right Z.add 0%Z prices < 2 ^ 53)%Z ->
  item_total (whole_item (product, q, prices)) = of_Z (q * fold_right Z.add 0%Z prices).
Proof.
  intros Hq Hall Hsum Hprod.
  unfold item_total, whole_item, customizations_price. cbn [req_quantity customizations].
  change (Num 0) with (of_Z 0).
  rewrite (customization_prices_whole prices 0%Z) by (try assumption; lia).
  rewrite Z.add_0_l, or_zero_of_Z.
  apply num_mul_whole; [exact Hq | exact (sum_nonneg prices Hall) | exact Hprod].
Qed.

Lemma whole_total_nonneg (entries : list (string * Z * list Z)) :
  Forall (fun entry => (1 <= entry.1.2)%Z /\ Forall (Z.le 0%Z) entry.2) entries ->
  (0 <= whole_total entries)%Z.
Proof.
  induction 1 as [|[[product q] prices] rest [Hq Hp] Hrest IH]; simpl in *; [lia|].
  pose proof (sum_nonneg prices Hp). nia.
Qed.

Lemma order_total_whole_from (entries : list (string * Z * list Z)) : forall acc : Z,
  (0 <= acc)%Z ->
  Forall (fun entry => (1 <= entry.1.2)%Z /\ Forall (Z.le 0%Z) entry.2) entries ->
  (acc + whole_total entries < 2 ^ 53)%Z ->
  fold_left (fun sum item => num_add sum (item_total item)) (map whole_item entries)
    (of_Z acc)
  = of_Z (acc + whole_total entries).
Proof.
  induction entries as [|[[product q] prices] rest IH]; intros acc Hacc Hall Hbound.
  - simpl. rewrite Z.add_0_r. reflexivity.
  - inversion Hall as [|? ? [Hq Hp] Hrest]; subst. simpl in Hq, Hp.
    pose proof (sum_nonneg prices Hp) as Hsum.
    pose proof (whole_total_nonneg rest Hrest) as Htail.
    cbn [map fold_left whole_total fold_right] in *.
    fold (whole_total rest) in *.
    rewrite item_total_whole by (try assumption; nia).
    rewrite num_add_whole by nia.
    rewrite IH by (try assumption; nia).
    f_equal. lia.
Qed.

(** X1.  Whole quantities and prices are totalled without rounding. *)
Theorem order_total_whole (entries : list (string * Z * list Z)) :
  Forall (fun entry => (1 <= entry.1.2)%Z /\ Forall (Z.le 0%Z) entry.2) entries ->
  (whole_total entries < 2 ^ 53)%Z ->
  order_total (map whole_item entries) = of_Z (whole_total entries).
Proof.
  intros Hall Hbound. unfold order_total. change (Num 0) with (of_Z 0).
  rewrite (order_total_whole_from entries 0%Z) by (try assumption; lia).
  reflexivity.
Qed.

Lemma order_total_whole_witness :
  order_total (map whole_item [ ("prod-1", 2, [10; 5]); ("prod-2", 1, []) ]%Z)
  = of_Z 30.
Proof.
  apply (order_total_whole [ ("prod-1", 2, [10; 5]); ("prod-2", 1, []) ]%Z).
  - repeat constructor; simpl; lia.
  - vm_compute. reflexivity.
Defined.

(** X2.  Items without customizations are totalled as zero. *)
Theorem order_total_without_customizations (orderItems : list RequestItem) :
  Forall (fun item =>
            (customizations item = None \/ customizations item = Some [])
            /\ exists q, req_quantity item = Num q) orderItems ->
  order_total orderItems = Num 0.
Proof.
  intros Hall. unfold order_total.
  induction Hall as [|item rest [Hcust [q Hq]] Hrest IH]; [reflexivity|].
  cbn [fold_left].
  assert (Hitem : item_total item = Num 0).
  { unfold item_total, customizations_price. rewrite Hq.
    assert (Hzero : num_mul (Num q) (Num 0) = Num 0).
    { unfold num_mul, fl. simpl Qnum. rewrite Z.mul_0_r. reflexivity. }
    destruct Hcust as [-> | ->]; exact Hzero. }
  rewrite Hitem.
  change (num_add (Num 0) (Num 0)) with (Num 0). exact IH.
Qed.

Lemma order_total_without_customizations_witness :
  order_total [ mkRequestItem "prod-1" (of_Z 3) None;
                mkRequestItem "prod-2" (of_Z 1) (Some []) ] = Num 0.
Proof.
  apply order_total_without_customizations.
  repeat constructor; simpl; auto; eexists; reflexivity.
Defined.

(** *** The counters of [getUserOrderStats] *)

Ltac by_computation := apply (bool_decide_unpack _); vm_compute; exact I.

Lemma byStatus_initial_agree : counters_agree byStatus_initial [].
Proof.
  unfold counters_agree. repeat split.
  - intros st Hin. unfold counted_statuses in Hin.
    repeat (apply elem_of_cons in Hin as [->|Hin]; [vm_compute; reflexivity|]).
    apply elem_of_nil in Hin. destruct Hin.
  - intros st _ _ Hin. apply elem_of_nil in Hin. destruct Hin.
  - intros st Hnot _. unfold byStatus_initial. cbn [list_to_map foldr uncurry fst snd].
    rewrite !lookup_insert_ne by (intros <-; apply Hnot; by_computation).
    apply lookup_empty.
Qed.

Lemma filter_status_snoc (seen : list Order) (o : Order) (st : string) :
  length (filter (fun o => status o = st) (seen ++ [o])) =
  (length (filter (fun o => status o = st) seen)
   + (if decide (status o = st) then 1 else 0))%nat.
Proof.
  rewrite filter_app, length_app. f_equal.
  rewrite filter_cons, filter_nil. destruct (decide (status o = st)); reflexivity.
Qed.

Lemma filter_length_le (seen : list Order) (st : string) :
  (length (filter (fun o => status o = st) seen) <= length seen)%nat.
Proof. apply length_filter. Qed.

Lemma increment_agree (m : gmap string number) (seen : list Order) (o : Order) :
  counters_agree m seen ->
  (Z.of_nat (length seen) + 1 < 2 ^ 53)%Z ->
  counters_agree (increment m (status o)) (seen ++ [o]).
Proof.
  intros (Hcount & Hnan & Hnone & Hproto) Hbound.
  assert (Hmem : forall st, st <> status o ->
            (st ∈ map status (seen ++ [o]) <-> st ∈ map status seen)).
  { intros st Hne. rewrite map_app, elem_of_app. simpl.
    rewrite list_elem_of_singleton. intuition congruence. }
  assert (Hhere : status o ∈ map status (seen ++ [o])).
  { rewrite map_app, elem_of_app. right. simpl. apply list_elem_of_here. }
  unfold increment.
  destruct (decide (status o ∈ counted_statuses)) as [Hin|Hout].
  - rewrite (Hcount _ Hin).
    pose proof (filter_length_le seen (status o)) as Hle.
    rewrite num_add_whole by lia.
    assert (Hpne : "__proto__" <> status o)
      by (intros Heq; rewrite <- Heq in Hin; revert Hin;
          apply (bool_decide_eq_false_1 _); vm_compute; reflexivity).
    repeat split.
    + intros st Hst. rewrite filter_status_snoc.
      destruct (decide (status o = st)) as [<-|Hne].
      * rewrite lookup_insert_eq. do 2 f_equal. lia.
      * rewrite lookup_insert_ne by exact Hne. rewrite (Hcount _ Hst).
        do 2 f_equal. lia.
    + intros st Hst Hnp Hseen.
      assert (Hne : st <> status o) by (intros ->; contradiction).
      rewrite lookup_insert_ne by congruence. apply Hnan; try assumption.
      apply Hmem; assumption.
    + intros st Hst Hseen.
      assert (Hne : st <> status o) by (intros ->; contradiction).
      rewrite lookup_insert_ne by congruence. apply Hnone; [assumption|].
      intros H. apply Hseen. apply Hmem; assumption.
    + rewrite lookup_insert_ne by congruence. exact Hproto.
  - assert (Hother : forall st, st ∈ counted_statuses -> status o <> st)
      by (intros st Hst Heq; rewrite Heq in Hout; contradiction).
    assert (Hcount' : forall st, st ∈ counted_statuses ->
              length (filter (fun o => status o = st) (seen ++ [o])) =
              length (filter (fun o => status o = st) seen)).
    { intros st Hst. rewrite filter_status_snoc.
      destruct (decide (status o = st)) as [Heq|_]; [destruct (Hother _ Hst Heq) | lia]. }
    destruct (String.eqb_spec (status o) "__proto__") as [Hp|Hnp].
    + assert (Hm : m !! status o = None) by (rewrite Hp; exact Hproto).
      rewrite Hm. repeat split.
      * intros st Hst. rewrite (Hcount' _ Hst). apply Hcount. exact Hst.
      * intros st Hst Hnp' Hseen. apply Hnan; try assumption.
        apply Hmem; [congruence | assumption].
      * intros st Hst Hseen. apply Hnone; [assumption|].
        intros H. apply Hseen.
        destruct (decide (st = status o)) as [->|Hne]; [exact Hhere|].
        apply Hmem; assumption.
      * exact Hproto.
    + assert (Hset : match m !! status o with
                     | Some v => <[status o := num_add v (of_Z 1)]> m
                     | None => <[status o := NaN]> m
                     end = <[status o := NaN]> m).
      { destruct (decide (status o ∈ map status seen)) as [Hs|Hs].
        - rewrite (Hnan _ Hout Hnp Hs). reflexivity.
        - rewrite (Hnone _ Hout Hs). reflexivity. }
      rewrite Hset; clear Hset.
      repeat split.
      all: try (intros st Hst; rewrite (Hcount' _ Hst);
                rewrite lookup_insert_ne by (apply Hother; exact Hst);
                apply Hcount; exact Hst).
      all: try (intros st Hst Hnp' Hseen;
                destruct (decide (status o = st)) as [<-|Hne];
                [apply lookup_insert_eq|];
                rewrite lookup_insert_ne by exact Hne; apply Hnan; try assumption;
                apply Hmem; [congruence | assumption]).
      all: try (intros st Hst Hseen;
                assert (Hne : status o <> st) by (intros <-; apply Hseen; exact Hhere);
                rewrite lookup_insert_ne by exact Hne; apply Hnone; [assumption|];
                intros H; apply Hseen; apply Hmem; [congruence | assumption]).
      all: rewrite lookup_insert_ne by exact Hnp; exact Hproto.
Qed.

Lemma fold_increment_agree (orders : list Order) : forall m seen,
  counters_agree m seen ->
  (Z.of_nat (length (seen ++ orders)) < 2 ^ 53)%Z ->
  counters_agree (fold_left (fun acc o => increment acc (status o)) orders m)
                 (seen ++ orders).
Proof.
  induction orders as [|o rest IH]; intros m seen Hagree Hbound.
  - rewrite app_nil_r. exact Hagree.
  - cbn [fold_left].
    replace (seen ++ o :: rest) with ((seen ++ [o]) ++ rest) in *
      by (rewrite <- app_assoc; reflexivity).
    apply IH; [|exact Hbound].
    apply increment_agree; [exact Hagree|].
    rewrite !length_app in Hbound. simpl in Hbound. lia.
Qed.

(** X3.  What [getUserOrderStats] counts.  Each of the eight statuses that
    have a counter is counted exactly; an order in any other status, such
    as [design_approved], leaves [NaN] under its status. *)
Theorem getUserOrderStats_counts (orders : list Order) (total : number) :
  (Z.of_nat (length orders) < 2 ^ 53)%Z ->
  (forall st, st ∈ counted_statuses ->
     byStatus (getUserOrderStats orders total) !! st =
     Some (of_Z (Z.of_nat (length (filter (fun o => status o = st) orders))))) /\
  (forall o, o ∈ orders -> status o ∉ counted_statuses -> status o <> "__proto__" ->
     byStatus (getUserOrderStats orders total) !! status o = Some NaN).
Proof.
  intros Hbound.
  destruct (fold_increment_agree orders byStatus_initial [] byStatus_initial_agree Hbound)
    as (Hcount & Hnan & _ & _).
  cbn [app] in Hcount, Hnan.
  split.
  - exact Hcount.
  - intros o Hin Hout Hnp. apply Hnan; try assumption.
    apply list_elem_of_fmap. exists o. split; [reflexivity | exact Hin].
Qed.

Lemma getUserOrderStats_counts_witness :
  byStatus (getUserOrderStats
              [ Samples.order_in "pending"; Samples.order_in "design_approved";
                Samples.order_in "pending" ] (of_Z 3)) !! "pending"
    = Some (of_Z 2) /\
  byStatus (getUserOrderStats
              [ Samples.order_in "pending"; Samples.order_in "design_approved";
                Samples.order_in "pending" ] (of_Z 3)) !! "design_approved"
    = Some NaN.
Proof.
  assert (Hbound : (Z.of_nat (length [ Samples.order_in "pending";
                                        Samples.order_in "design_approved";
                                        Samples.order_in "pending" ]) < 2 ^ 53)%Z)
    by (vm_compute; reflexivity).
  destruct (getUserOrderStats_counts
              [ Samples.order_in "pending"; Samples.order_in "design_approved";
                Samples.order_in "pending" ] (of_Z 3) Hbound) as [Hcount Hnan].
  split.
  - exact (Hcount "pending" ltac:(by_computation)).
  - apply (Hnan (Samples.order_in "design_approved")).
    + apply list_elem_of_further, list_elem_of_here.
    + apply (bool_decide_eq_false_1 _). vm_compute. reflexivity.
    + discriminate.
Defined.

End NumberExtras.

(* ===================================================================== *)
(** * Further properties of the order store and its handlers *)
(* ===================================================================== *)

Module OrderExtras.

Import JsNumber JsObject OrderService Lifecycle OrderFacts.
Local Open Scope string_scope.
Local Open Scope Z_scope.
Local Open Scope list_scope.

Ltac by_computation := apply (bool_decide_unpack _); vm_compute; exact I.

(** *** One write, one order *)

(** X4.  A successful [updateOrderStatus] writes the status and one timeline
    row of one order, and nothing else: no order appears or disappears
    and every other order is as before. *)
Theorem updateOrderStatus_writes_one_order (db : gmap string Order) defaults now id
    new_status note db' o' :
  updateOrderStatus db defaults now id new_status note = Return (db', o') ->
  dom db' = dom db /\
  (forall k, k <> id -> db' !! k = db !! k) /\
  exists o o1 row,
    db !! id = Some o /\ db' !! id = Some o1 /\ o' = include_timeline o1 /\
    status o1 = new_status /\ timeline o1 = timeline o ++ [row] /\
    tl_status row = new_status /\ description row = note /\
    createdAt row = new_createdAt defaults.
Proof.
  intros Hupdate.
  apply updateOrderStatus_Return in Hupdate as (o & status_title & Hold & _ & -> & ->).
  split; [|split].
  - apply dom_insert_lookup_L. rewrite Hold. eexists; reflexivity.
  - intros k Hne. apply lookup_insert_ne. congruence.
  - eexists o, _, _. split; [exact Hold|]. split; [apply lookup_insert_eq|].
    split; [reflexivity|]. unfold updated. simpl. repeat split; reflexivity.
Qed.

Lemma updateOrderStatus_writes_one_order_witness :
  dom Samples.store_confirmed = dom Samples.store_created.
Proof.
  assert (Hupdate :
    updateOrderStatus Samples.store_created (Samples.tick 5) 1700000000005
      "order-1" "confirmed" (Some "Stripe支付完成")
    = Return (Samples.store_confirmed,
              include_timeline
                (updated Samples.order_created (Samples.tick 5) 1700000000005
                   "confirmed" "已确认" (Some "Stripe支付完成"))))
    by (vm_compute; reflexivity).
  exact (proj1 (updateOrderStatus_writes_one_order Samples.store_created
                  (Samples.tick 5) 1700000000005 "order-1" "confirmed"
                  (Some "Stripe支付完成") Samples.store_confirmed _ Hupdate)).
Defined.

(** *** Statuses outside the enumeration *)

Lemma getStatusTitle_not_inherited new_status :
  inherited new_status = false ->
  exists status_title, getStatusTitle new_status = Val status_title.
Proof.
  intros Hproto. unfold getStatusTitle, get_or.
  destruct (titles !! new_status); [eexists; reflexivity|].
  rewrite Hproto. eexists; reflexivity.
Qed.

Lemma updateOrderStatus_succeeds_any (db : gmap string Order) defaults now id
    new_status note o :
  db !! id = Some o -> inherited new_status = false ->
  exists status_title,
    getStatusTitle new_status = Val status_title /\
    updateOrderStatus db defaults now id new_status note =
      Return (<[id := updated o defaults now new_status status_title note]> db,
              include_timeline (updated o defaults now new_status status_title note)).
Proof.
  intros Hfound Hproto.
  destruct (getStatusTitle_not_inherited _ Hproto) as [status_title Htitle].
  exists status_title. split; [exact Htitle|].
  unfold updateOrderStatus. rewrite Htitle, Hfound. reflexivity.
Qed.

Lemma titles_unlisted new_status :
  new_status ∉ OrderStatus -> titles !! new_status = None.
Proof.
  intros Hnot. unfold titles. cbn [list_to_map foldr uncurry fst snd].
  rewrite !lookup_insert_ne by (intros <-; apply Hnot; by_computation).
  apply lookup_empty.
Qed.

(** X5.  The status written need not be one of the nine.  Any string that
    is not the name of a member of [Object.prototype] is accepted, by
    [OrderService.updateOrderStatus] and by the administrators' handler
    alike, and is recorded under the title [状态更新]. *)
Theorem updateOrderStatus_unlisted_status (db : gmap string Order) defaults now id
    new_status note o :
  db !! id = Some o ->
  new_status ∉ OrderStatus ->
  inherited new_status = false ->
  let o' := updated o defaults now new_status "状态更新" note in
  OrderService.updateOrderStatus db defaults now id new_status note =
    Return (<[id := o']> db, include_timeline o') /\
  forall user, OrderController.requireRole_admin user = true ->
    OrderController.updateOrderStatus db defaults now user id new_status note =
      (Responded 200 (Success (include_timeline o')), <[id := o']> db).
Proof.
  intros Hfound Hnot Hproto. simpl.
  assert (Hupdate :
    OrderService.updateOrderStatus db defaults now id new_status note =
      Return (<[id := updated o defaults now new_status "状态更新" note]> db,
              include_timeline (updated o defaults now new_status "状态更新" note))).
  { unfold OrderService.updateOrderStatus, getStatusTitle, get_or.
    rewrite (titles_unlisted _ Hnot), Hproto, Hfound. reflexivity. }
  split; [exact Hupdate|].
  intros user Hadmin.
  unfold OrderController.updateOrderStatus, getOrderById.
  rewrite Hadmin, Hfound. simpl. rewrite Hupdate. reflexivity.
Qed.

Lemma updateOrderStatus_unlisted_status_witness :
  status <$>
    snd (OrderController.updateOrderStatus (Samples.store_with "pending")
           (Samples.tick 5) 1700000000005 Samples.admin "order-1" "refunded" None)
      !! "order-1"
  = Some "refunded".
Proof.
  assert (Hfound : Samples.store_with "pending" !! "order-1"
                   = Some (Samples.order_in "pending")) by (vm_compute; reflexivity).
  assert (Hnot : "refunded" ∉ OrderStatus)
    by (apply (bool_decide_eq_false_1 _); vm_compute; reflexivity).
  assert (Hproto : inherited "refunded" = false) by (vm_compute; reflexivity).
  assert (Hadmin : OrderController.requireRole_admin Samples.admin = true)
    by (vm_compute; reflexivity).
  rewrite (proj2 (updateOrderStatus_unlisted_status (Samples.store_with "pending")
                    (Samples.tick 5) 1700000000005 "order-1" "refunded" None
                    (Samples.order_in "pending") Hfound Hnot Hproto)
             Samples.admin Hadmin).
  cbn [snd]. rewrite lookup_insert_eq. reflexivity.
Defined.

(** *** What every stored order looks like *)

(** X6.  In every store that the two writes produce, an order is stored
    under its own id, has no items ([createOrder] does not write the
    items it is given), and its timeline starts with the row of its
    creation. *)
Theorem reachable_order_shape (db : gmap string Order) :
  reachable db ->
  forall id o, db !! id = Some o ->
    order_id o = id /\ items o = [] /\
    exists first rest,
      timeline o = first :: rest /\
      tl_status first = "pending" /\ title first = "订单创建".
Proof.
  induction 1 as [| db defaults now data db' o Hreach IH Hcreate
                  | db defaults now id0 new_status note db' o' Hreach IH Hnewer Hupdate];
    intros id ord Hfound.
  - rewrite lookup_empty in Hfound. discriminate.
  - apply createOrder_Return in Hcreate as (Hfree & -> & ->).
    destruct (decide (new_id defaults = id)) as [Heq|Hne].
    + subst id. rewrite lookup_insert_eq in Hfound. injection Hfound as <-.
      simpl. repeat split. eexists _, _. repeat split.
    + rewrite lookup_insert_ne in Hfound by exact Hne. eapply IH; eassumption.
  - apply updateOrderStatus_Return in Hupdate
      as (o & status_title & Hold & Htitle & -> & ->).
    destruct (decide (id0 = id)) as [Heq|Hne].
    + subst id. rewrite lookup_insert_eq in Hfound. injection Hfound as <-.
      destruct (IH _ _ Hold) as (Hid & Hitems & first & rest & Htl & Hst & Hti).
      unfold updated. simpl. split; [exact Hid|]. split; [exact Hitems|].
      exists first, (rest ++ [mkOrderTimeline new_status status_title note true now
                                (new_createdAt defaults)]).
      rewrite Htl. repeat split; assumption.
    + rewrite lookup_insert_ne in Hfound by exact Hne. eapply IH; eassumption.
Qed.

Lemma reachable_order_shape_witness :
  exists o, Samples.store_confirmed !! "order-1" = Some o /\
            order_id o = "order-1" /\ items o = [].
Proof.
  eexists. split; [vm_compute; reflexivity|].
  destruct (reachable_order_shape Samples.store_confirmed store_confirmed_reachable
              "order-1" _ ltac:(vm_compute; reflexivity)) as (Hid & Hitems & _).
  split; [exact Hid | exact Hitems].
Defined.

(** *** Reading the timeline *)

Lemma insert_by_createdAt_perm (row : OrderTimeline) (rows : list OrderTimeline) :
  insert_by_createdAt row rows ≡ₚ row :: rows.
Proof.
  induction rows as [|r rest IH]; simpl; [reflexivity|].
  destruct (createdAt row <? createdAt r); [reflexivity|].
  rewrite IH. apply perm_swap.
Qed.

Lemma insert_by_createdAt_sorted (row : OrderTimeline) (rows : list OrderTimeline) :
  StronglySorted (fun a b => createdAt a <= createdAt b) rows ->
  StronglySorted (fun a b => createdAt a <= createdAt b) (insert_by_createdAt row rows).
Proof.
  induction 1 as [|r rest Hsorted IH Hall]; simpl.
  - repeat constructor.
  - destruct (Z.ltb_spec (createdAt row) (createdAt r)) as [Hlt|Hge].
    + constructor; [constructor; assumption|].
      constructor; [lia|].
      eapply Forall_impl; [exact Hall|]. simpl. intros x Hx. lia.
    + constructor; [exact IH|].
      apply insert_by_createdAt_Forall; [exact Hge | exact Hall].
Qed.

Lemma fold_insert_sorted (rows : list OrderTimeline) : forall sorted,
  StronglySorted (fun a b => createdAt a <= createdAt b) sorted ->
  StronglySorted (fun a b => createdAt a <= createdAt b)
    (fold_left (fun acc row => insert_by_createdAt row acc) rows sorted) /\
  fold_left (fun acc row => insert_by_createdAt row acc) rows sorted ≡ₚ sorted ++ rows.
Proof.
  induction rows as [|r rest IH]; intros sorted Hsorted; simpl.
  - split; [exact Hsorted | rewrite app_nil_r; reflexivity].
  - destruct (IH (insert_by_createdAt r sorted)
                (insert_by_createdAt_sorted r sorted Hsorted)) as [Hs Hp].
    split; [exact Hs|].
    rewrite Hp, insert_by_createdAt_perm.
    rewrite (Permutation_cons_append sorted r), <- app_assoc. reflexivity.
Qed.

(** X7.  Whatever the stamps of the stored rows, [getOrderById] returns the
    same rows, in ascending [createdAt] order. *)
Theorem getOrderById_timeline_sorted (db : gmap string Order) id order :
  getOrderById db id = Some order ->
  exists o, db !! id = Some o /\
    timeline order ≡ₚ timeline o /\
    StronglySorted (fun a b => createdAt a <= createdAt b) (timeline order).
Proof.
  unfold getOrderById. destruct (db !! id) as [o|]; [|discriminate].
  simpl. intros H. injection H as <-. exists o. split; [reflexivity|].
  destruct (fold_insert_sorted (timeline o) [] (SSorted_nil _)) as [Hs Hp].
  split; [exact Hp | exact Hs].
Qed.

Lemma getOrderById_timeline_sorted_witness :
  exists order,
    getOrderById MoreSamples.skewed_store "order-1" = Some order /\
    map tl_status (timeline order) = [ "confirmed"; "pending" ] /\
    StronglySorted (fun a b => createdAt a <= createdAt b) (timeline order).
Proof.
  eexists. split; [vm_compute; reflexivity|]. split; [reflexivity|].
  destruct (getOrderById_timeline_sorted MoreSamples.skewed_store "order-1" _
              ltac:(vm_compute; reflexivity)) as (o & _ & _ & Hsorted).
  exact Hsorted.
Defined.

(** A timeline whose stamps increase is read in the order it was written. *)
Lemma orderBy_createdAt_asc_increasing (rows : list OrderTimeline) :
  StronglySorted (fun a b => createdAt a < createdAt b) rows ->
  orderBy_createdAt_asc rows = rows.
Proof.
  induction rows as [|row rows IH] using rev_ind; intros Hsorted; [reflexivity|].
  apply StronglySorted_app in Hsorted as (Hcross & Hrows & _).
  rewrite orderBy_createdAt_asc_snoc.
  - rewrite IH by exact Hrows. reflexivity.
  - apply Forall_forall. intros r Hr. apply Hcross; [exact Hr | apply list_elem_of_here].
Qed.

(** X8.  In every store that the two writes produce under a clock that
    moves forward, the stamps of each timeline increase strictly, and a
    read returns the rows in the order in which they were written. *)
Theorem reachable_timeline_increasing (db : gmap string Order) :
  reachable db ->
  forall id o, db !! id = Some o ->
    StronglySorted (fun a b => createdAt a < createdAt b) (timeline o) /\
    getOrderById db id = Some o.
Proof.
  intros Hreach.
  assert (Hinc : forall id o, db !! id = Some o ->
            StronglySorted (fun a b => createdAt a < createdAt b) (timeline o)).
  { induction Hreach as [| db defaults now data db' o Hreach IH Hcreate
                  | db defaults now id0 new_status note db' o' Hreach IH Hnewer Hupdate];
      intros id ord Hfound.
    - rewrite lookup_empty in Hfound. discriminate.
    - apply createOrder_Return in Hcreate as (Hfree & -> & ->).
      destruct (decide (new_id defaults = id)) as [Heq|Hne].
      + subst id. rewrite lookup_insert_eq in Hfound. injection Hfound as <-.
        simpl. repeat constructor.
      + rewrite lookup_insert_ne in Hfound by exact Hne. eapply IH; eassumption.
    - apply updateOrderStatus_Return in Hupdate
        as (o & status_title & Hold & Htitle & -> & ->).
      destruct (decide (id0 = id)) as [Heq|Hne].
      + subst id. rewrite lookup_insert_eq in Hfound. injection Hfound as <-.
        unfold updated. simpl. apply StronglySorted_app_2.
        * intros x1 x2 Hx1 Hx2. apply list_elem_of_singleton in Hx2 as ->. simpl.
          pose proof (Hnewer o Hold) as Hbefore. unfold stamped_before in Hbefore.
          rewrite Forall_forall in Hbefore. apply Hbefore. exact Hx1.
        * eapply IH; eassumption.
        * repeat constructor.
      + rewrite lookup_insert_ne in Hfound by exact Hne. eapply IH; eassumption. }
  intros id o Hfound. split; [eapply Hinc; eassumption|].
  unfold getOrderById. rewrite Hfound. simpl. f_equal.
  unfold include_timeline.
  rewrite (orderBy_createdAt_asc_increasing _ (Hinc _ _ Hfound)).
  destruct o; reflexivity.
Qed.

Lemma reachable_timeline_increasing_witness :
  exists o, Samples.store_confirmed !! "order-1" = Some o /\
            getOrderById Samples.store_confirmed "order-1" = Some o.
Proof.
  eexists. split; [vm_compute; reflexivity|].
  exact (proj2 (reachable_timeline_increasing Samples.store_confirmed
                  store_confirmed_reachable "order-1" _
                  ltac:(vm_compute; reflexivity))).
Defined.

(** *** Sequences of status updates *)

Lemma apply_update_other (db : gmap string Order) u id :
  su_id u <> id -> apply_update db u !! id = db !! id.
Proof.
  intros Hne. unfold apply_update.
  destruct (updateOrderStatus db (su_defaults u) (su_now u) (su_id u)
              (su_status u) (su_note u)) as [[db' ret]|message] eqn:Hupdate;
    [|reflexivity].
  apply updateOrderStatus_Return in Hupdate as (o & t & _ & _ & -> & _).
  apply lookup_insert_ne. exact Hne.
Qed.

Lemma apply_update_same (db : gmap string Order) u o :
  db !! su_id u = Some o -> inherited (su_status u) = false ->
  exists o', apply_update db u !! su_id u = Some o' /\
             status o' = su_status u /\
             length (timeline o') = S (length (timeline o)).
Proof.
  intros Hfound Hproto. unfold apply_update.
  destruct (updateOrderStatus_succeeds_any db (su_defaults u) (su_now u) (su_id u)
              (su_status u) (su_note u) o Hfound Hproto) as (t & _ & ->).
  eexists. split; [apply lookup_insert_eq|]. unfold updated. simpl.
  split; [reflexivity|]. rewrite length_app. simpl. lia.
Qed.

(** X9.  After any sequence of status updates with admissible statuses, an
    order has the status of the last update addressed to it (its old
    status if there is none), and one more timeline row for each update
    addressed to it. *)
Theorem apply_updates_last_wins (us : list StatusUpdate) :
  forall (db : gmap string Order) id o,
  db !! id = Some o ->
  Forall (fun u => inherited (su_status u) = false) us ->
  exists o',
    apply_updates us db !! id = Some o' /\
    status o' =
      fold_left (fun st u => if decide (su_id u = id) then su_status u else st)
        us (status o) /\
    length (timeline o') =
      (length (timeline o) + length (filter (fun u => su_id u = id) us))%nat.
Proof.
  induction us as [|u rest IH]; intros db id o Hfound Hall.
  - exists o. simpl. split; [exact Hfound|]. split; [reflexivity | lia].
  - inversion Hall as [|? ? Hu Hrest]; subst.
    cbn [apply_updates fold_left]. fold (apply_updates rest (apply_update db u)).
    rewrite filter_cons.
    destruct (decide (su_id u = id)) as [Heq|Hne].
    + subst id.
      destruct (apply_update_same db u o Hfound Hu) as (o1 & Hfound1 & Hst1 & Hlen1).
      destruct (IH _ _ _ Hfound1 Hrest) as (o' & Hfound' & Hst' & Hlen').
      exists o'. split; [exact Hfound'|]. rewrite Hst', Hst1, Hlen', Hlen1.
      split; [reflexivity | simpl; lia].
    + assert (Hfound1 : apply_update db u !! id = Some o)
        by (rewrite apply_update_other by exact Hne; exact Hfound).
      destruct (IH _ _ _ Hfound1 Hrest) as (o' & Hfound' & Hst' & Hlen').
      exists o'. split; [exact Hfound'|]. split; assumption.
Qed.

Lemma apply_updates_last_wins_witness :
  exists o',
    apply_updates
      [ mkStatusUpdate (Samples.tick 5) 1700000000005 "order-1" "shipped" None;
        mkStatusUpdate (Samples.tick 6) 1700000000006 "order-9" "delivered" None;
        mkStatusUpdate (Samples.tick 7) 1700000000007 "order-1" "confirmed" None ]
      (Samples.store_with "pending") !! "order-1" = Some o' /\
    status o' = "confirmed" /\ length (timeline o') = 3%nat.
Proof.
  destruct (apply_updates_last_wins
              [ mkStatusUpdate (Samples.tick 5) 1700000000005 "order-1" "shipped" None;
                mkStatusUpdate (Samples.tick 6) 1700000000006 "order-9" "delivered" None;
                mkStatusUpdate (Samples.tick 7) 1700000000007 "order-1" "confirmed" None ]
              (Samples.store_with "pending") "order-1" (Samples.order_in "pending")
              ltac:(vm_compute; reflexivity)
              ltac:(repeat constructor)) as (o' & Hfound & Hst & Hlen).
  exists o'. split; [exact Hfound|]. split; [exact Hst | exact Hlen].
Defined.

(** *** The buyer's cancellation *)

(** X10.  [cancelOrder] writes only for the owner of the order, only when
    the order can be cancelled, and only the order named. *)
Theorem cancelOrder_writes_own_order_only (db : gmap string Order) defaults now user
    id reason :
  let db' := snd (OrderController.cancelOrder db defaults now user id reason) in
  (forall k, k <> id -> db' !! k = db !! k) /\
  (db' <> db ->
   exists o, db !! id = Some o /\ userId o = user_id user /\ status o ∈ cancellable).
Proof.
  simpl.
  destruct (db !! id) as [o|] eqn:Hfound.
  - destruct (decide (userId o = user_id user)) as [Howner|Hother].
    + destruct (decide (status o ∈ cancellable)) as [Hin|Hout].
      * rewrite (cancelOrder_accepted db defaults now user id reason o Hfound Howner Hin).
        simpl. split.
        -- intros k Hne. apply lookup_insert_ne. congruence.
        -- intros _. exists o. auto.
      * rewrite (proj1 (cancelOrder_refused db defaults now user id reason o Hfound Hout)).
        split; [reflexivity | intros H; contradiction].
    + assert (Hsame : snd (OrderController.cancelOrder db defaults now user id reason) = db).
      { unfold OrderController.cancelOrder, getOrderById. rewrite Hfound. simpl.
        rewrite (bool_decide_eq_false_2 _ Hother). reflexivity. }
      rewrite Hsame. split; [reflexivity | intros H; contradiction].
  - assert (Hsame : snd (OrderController.cancelOrder db defaults now user id reason) = db).
    { unfold OrderController.cancelOrder, getOrderById. rewrite Hfound. reflexivity. }
    rewrite Hsame. split; [reflexivity | intros H; contradiction].
Qed.

(** X11.  A cancellation cannot be repeated.  After [cancelOrder] has
    succeeded, the same request is refused with [CANNOT_CANCEL_ORDER] and
    writes nothing. *)
Theorem cancelOrder_twice (db : gmap string Order) d1 t1 d2 t2 user id reason o :
  db !! id = Some o -> userId o = user_id user -> status o ∈ cancellable ->
  let db1 := snd (OrderController.cancelOrder db d1 t1 user id reason) in
  status <$> db1 !! id = Some "cancelled" /\
  OrderController.cancelOrder db1 d2 t2 user id reason =
    (Responded 400 (Failure "CANNOT_CANCEL_ORDER" "当前订单状态不允许取消"), db1).
Proof.
  intros Hfound Howner Hin. simpl.
  rewrite (cancelOrder_accepted db d1 t1 user id reason o Hfound Howner Hin). simpl.
  split; [rewrite lookup_insert_eq; reflexivity|].
  set (o1 := updated o d1 t1 "cancelled" "已取消"
               (Some (or_default reason "用户主动取消"))).
  assert (Hfound1 : <[id := o1]> db !! id = Some o1) by apply lookup_insert_eq.
  assert (Hout : status o1 ∉ cancellable)
    by (apply (bool_decide_eq_false_1 _); vm_compute; reflexivity).
  exact (proj2 (cancelOrder_refused _ d2 t2 user id reason o1 Hfound1 Hout) Howner).
Qed.

Lemma cancelOrder_twice_witness :
  OrderController.cancelOrder
    (snd (OrderController.cancelOrder (Samples.store_with "confirmed") (Samples.tick 5)
            1700000000005 Samples.buyer "order-1" None))
    (Samples.tick 9) 1700000000009 Samples.buyer "order-1" None =
  (Responded 400 (Failure "CANNOT_CANCEL_ORDER" "当前订单状态不允许取消"),
   snd (OrderController.cancelOrder (Samples.store_with "confirmed") (Samples.tick 5)
          1700000000005 Samples.buyer "order-1" None)).
Proof.
  exact (proj2 (cancelOrder_twice (Samples.store_with "confirmed") (Samples.tick 5)
                  1700000000005 (Samples.tick 9) 1700000000009 Samples.buyer "order-1"
                  None (Samples.order_in "confirmed")
                  ltac:(vm_compute; reflexivity) ltac:(reflexivity)
                  ltac:(by_computation))).
Defined.

(** *** Updating many orders at once *)

Lemma updateOrderStatus_missing (db : gmap string Order) defaults now id new_status note :
  db !! id = None -> inherited new_status = false ->
  updateOrderStatus db defaults now id new_status note =
    Throw "Record to update not found.".
Proof.
  intros Hnone Hproto. unfold updateOrderStatus.
  destruct (getStatusTitle_not_inherited _ Hproto) as [t ->].
  rewrite Hnone. reflexivity.
Qed.

Lemma batch_loop_spec (ticks : nat -> RowDefaults * Date) new_status note
    (orderIds : list string) :
  inherited new_status = false ->
  forall (db : gmap string Order) n ok failed db',
  OrderAdmin.batch_loop db ticks n orderIds new_status note = (ok, failed, db') ->
  ok = filter (fun id => id ∈ dom db) orderIds /\
  failed = map (fun id => (id, "Record to update not found."))
             (filter (fun id => id ∉ dom db) orderIds) /\
  dom db' = dom db /\
  (forall k, k ∉ orderIds -> db' !! k = db !! k) /\
  (forall k, k ∈ orderIds -> k ∈ dom db -> status <$> db' !! k = Some new_status).
Proof.
  intros Hproto.
  induction orderIds as [|a rest IH]; intros db n ok failed db' Hloop.
  - simpl in Hloop. injection Hloop as <- <- <-.
    repeat split; try reflexivity.
    intros k Hk. apply elem_of_nil in Hk. destruct Hk.
  - cbn [OrderAdmin.batch_loop] in Hloop. rewrite !filter_cons.
    destruct (db !! a) as [o|] eqn:Hfound.
    + destruct (updateOrderStatus_succeeds_any db (fst (ticks n)) (snd (ticks n)) a
                  new_status note o Hfound Hproto) as (t & _ & Hupdate).
      change (OrderService.updateOrderStatus db (ticks n).1 (ticks n).2 a new_status note)
        with (updateOrderStatus db (ticks n).1 (ticks n).2 a new_status note) in Hloop.
      rewrite Hupdate in Hloop.
      set (db1 := <[a := updated o (ticks n).1 (ticks n).2 new_status t note]> db) in *.
      destruct (OrderAdmin.batch_loop db1 ticks (S n) rest new_status note)
        as [[ok1 failed1] db2] eqn:Hrest.
      injection Hloop as <- <- <-.
      assert (Hdom1 : dom db1 = dom db).
      { apply dom_insert_lookup_L. rewrite Hfound. eexists; reflexivity. }
      destruct (IH _ _ _ _ _ Hrest) as (Hok & Hfailed & Hdom & Hother & Hset).
      rewrite Hdom1 in Hok, Hfailed, Hdom.
      assert (Ha : a ∈ dom db) by (apply elem_of_dom; rewrite Hfound; eexists; reflexivity).
      rewrite decide_True by exact Ha.
      rewrite decide_False by (intros H; exact (H Ha)).
      split; [congruence|]. split; [exact Hfailed|]. split; [exact Hdom|]. split.
      * intros k Hk. rewrite not_elem_of_cons in Hk. destruct Hk as [Hne Hk].
        rewrite (Hother k Hk). apply lookup_insert_ne. congruence.
      * intros k Hk Hkdom.
        destruct (decide (k ∈ rest)) as [Hin|Hnin].
        -- apply Hset; [exact Hin | rewrite Hdom1; exact Hkdom].
        -- apply elem_of_cons in Hk as [->|Hk]; [|contradiction].
           rewrite (Hother a Hnin). unfold db1. rewrite lookup_insert_eq. reflexivity.
    + change (OrderService.updateOrderStatus db (ticks n).1 (ticks n).2 a new_status note)
        with (updateOrderStatus db (ticks n).1 (ticks n).2 a new_status note) in Hloop.
      rewrite (updateOrderStatus_missing db _ _ a new_status note Hfound Hproto) in Hloop.
      destruct (OrderAdmin.batch_loop db ticks (S n) rest new_status note)
        as [[ok1 failed1] db2] eqn:Hrest.
      injection Hloop as <- <- <-.
      destruct (IH _ _ _ _ _ Hrest) as (Hok & Hfailed & Hdom & Hother & Hset).
      assert (Ha : a ∉ dom db) by (apply not_elem_of_dom; exact Hfound).
      rewrite decide_False by exact Ha.
      rewrite decide_True by exact Ha.
      split; [exact Hok|]. split; [simpl; congruence|]. split; [exact Hdom|]. split.
      * intros k Hk. rewrite not_elem_of_cons in Hk. destruct Hk as [Hne Hk].
        exact (Hother k Hk).
      * intros k Hk Hkdom.
        apply elem_of_cons in Hk as [->|Hk]; [contradiction|].
        exact (Hset k Hk Hkdom).
Qed.

Lemma filter_split_length (P : string -> Prop) `{forall x, Decision (P x)}
    (l : list string) :
  (length (filter P l) + length (filter (fun x => ~ P x) l) = length l)%nat.
Proof.
  induction l as [|x l IH]; [reflexivity|].
  rewrite !filter_cons. destruct (decide (P x)) as [Hp|Hp].
  - rewrite decide_False by (intros H'; exact (H' Hp)). simpl. lia.
  - rewrite decide_True by exact Hp. simpl. lia.
Qed.

(** X12.  [batchUpdateOrderStatus] tries every id of the list.  The ids of
    existing orders are reported as successes, in the order given, and
    those orders end in the new status; the other ids are reported as
    failures; the two counts add up to the length of the list; no order
    outside the list is touched, and none appears or disappears. *)
Theorem batchUpdateOrderStatus_report (db : gmap string Order)
    (ticks : nat -> RowDefaults * Date) user orderIds new_status note :
  OrderController.requireRole_admin user = true ->
  orderIds <> [] ->
  inherited new_status = false ->
  exists report db',
    OrderAdmin.batchUpdateOrderStatus db ticks user orderIds new_status note =
      (Responded 200 (Success report), db') /\
    OrderAdmin.batch_success report = filter (fun id => id ∈ dom db) orderIds /\
    map fst (OrderAdmin.batch_failed report) = filter (fun id => id ∉ dom db) orderIds /\
    (OrderAdmin.successCount report + OrderAdmin.failedCount report
     = OrderAdmin.meta_total report)%nat /\
    OrderAdmin.meta_total report = length orderIds /\
    dom db' = dom db /\
    (forall k, k ∉ orderIds -> db' !! k = db !! k) /\
    (forall k, k ∈ orderIds -> k ∈ dom db -> status <$> db' !! k = Some new_status).
Proof.
  intros Hadmin Hne Hproto.
  unfold OrderAdmin.batchUpdateOrderStatus. rewrite Hadmin. cbn [negb].
  destruct orderIds as [|a rest] eqn:Hids; [contradiction|]. rewrite <- Hids in *.
  destruct (OrderAdmin.batch_loop db ticks 0 orderIds new_status note)
    as [[ok failed] db'] eqn:Hloop.
  destruct (batch_loop_spec ticks new_status note orderIds Hproto _ _ _ _ _ Hloop)
    as (Hok & Hfailed & Hdom & Hother & Hset).
  eexists _, db'. split; [reflexivity|]. cbn.
  split; [exact Hok|]. split.
  - rewrite Hfailed, map_map. simpl. apply map_id.
  - split; [|auto].
    rewrite Hok, Hfailed, length_map.
    apply (filter_split_length (fun id => id ∈ dom db)).
Qed.

Lemma batchUpdateOrderStatus_report_witness :
  exists report db',
    OrderAdmin.batchUpdateOrderStatus (Samples.store_with "pending") MoreSamples.ticks
      Samples.admin [ "order-1"; "order-7"; "order-1" ] "shipped" None =
      (Responded 200 (Success report), db') /\
    OrderAdmin.batch_success report = [ "order-1"; "order-1" ] /\
    map fst (OrderAdmin.batch_failed report) = [ "order-7" ].
Proof.
  destruct (batchUpdateOrderStatus_report (Samples.store_with "pending")
              MoreSamples.ticks Samples.admin [ "order-1"; "order-7"; "order-1" ]
              "shipped" None ltac:(vm_compute; reflexivity) ltac:(discriminate)
              ltac:(vm_compute; reflexivity))
    as (report & db' & Hout & Hok & Hfailed & _).
  exists report, db'. split; [exact Hout|].
  split; [rewrite Hok | rewrite Hfailed]; vm_compute; reflexivity.
Defined.

End OrderExtras.

(* ===================================================================== *)
(** * Further properties of the payment code *)
(* ===================================================================== *)

Module PaymentExtras.

Import JsNumber JsObject OrderService Payment PaymentController PaymentPages.
Import Lifecycle PaymentFacts.
Local Open Scope string_scope.
Local Open Scope Z_scope.
Local Open Scope list_scope.

(** *** The dispatcher *)

(** X13.  Like [createPayment], the other three operations of the manager
    answer [UNSUPPORTED_PAYMENT_METHOD] for a method that is not
    registered. *)
Theorem manager_rejects_unregistered w method paymentId payload signature amount :
  method ∉ getSupportedMethods w ->
  PaymentManager_verifyPayment w method paymentId = unsupported method /\
  PaymentManager_handleWebhook w method payload signature = unsupported method /\
  PaymentManager_refundPayment w method paymentId amount = unsupported method.
Proof.
  intros Hnot. pose proof (gateways_get_None w method Hnot) as Hnone.
  unfold PaymentManager_verifyPayment, PaymentManager_handleWebhook,
    PaymentManager_refundPayment.
  rewrite Hnone. repeat split.
Qed.

Lemma manager_rejects_unregistered_witness :
  PaymentManager_verifyPayment Samples.sample_world "applepay" "pay_1" =
    Failure "UNSUPPORTED_PAYMENT_METHOD" "不支持的支付方式: applepay".
Proof.
  exact (proj1 (manager_rejects_unregistered Samples.sample_world "applepay" "pay_1"
                  Samples.sample_body "" None
                  ltac:(apply (bool_decide_eq_false_1 _); vm_compute; reflexivity))).
Defined.

(** *** Gateways without credentials *)

(** X14.  Without a Stripe secret key every Stripe operation fails with its
    own error code, whatever the provider would answer, while
    [getPaymentMethods] goes on listing all four methods, Stripe
    included, as enabled. *)
Theorem stripe_without_key w order returnUrl cancelUrl paymentId payload signature amount :
  is_set (stripe_secretKey (config w)) = false ->
  PaymentManager_createPayment w "stripe" order returnUrl cancelUrl =
    Failure "STRIPE_PAYMENT_ERROR" "Stripe not configured" /\
  PaymentManager_verifyPayment w "stripe" paymentId =
    Failure "STRIPE_VERIFICATION_ERROR" "Stripe not configured" /\
  PaymentManager_handleWebhook w "stripe" payload signature =
    Failure "STRIPE_WEBHOOK_ERROR" "Stripe webhook not configured" /\
  PaymentManager_refundPayment w "stripe" paymentId amount =
    Failure "STRIPE_REFUND_ERROR" "Stripe not configured" /\
  map (fun info => (pm_id info, pm_enabled info)) (getPaymentMethods w) =
    [ ("stripe", Val true); ("paypal", Val true);
      ("wechat", Val true); ("alipay", Val true) ].
Proof.
  intros Hkey.
  repeat split.
  - unfold PaymentManager_createPayment, gateways_get, gateways. simpl.
    unfold Stripe_createPayment, stripe_ready. rewrite Hkey. reflexivity.
  - unfold PaymentManager_verifyPayment, gateways_get, gateways. simpl.
    unfold Stripe_verifyPayment, stripe_ready. rewrite Hkey. reflexivity.
  - unfold PaymentManager_handleWebhook, gateways_get, gateways. simpl.
    unfold Stripe_handleWebhook, stripe_ready. rewrite Hkey. reflexivity.
  - unfold PaymentManager_refundPayment, gateways_get, gateways. simpl.
    unfold Stripe_refundPayment, stripe_ready. rewrite Hkey. reflexivity.
Qed.

Lemma stripe_without_key_witness :
  PaymentManager_createPayment MoreSamples.bare_world "stripe"
    (Samples.order_in "pending") "https://shop.example/ok" "https://shop.example/no" =
    Failure "STRIPE_PAYMENT_ERROR" "Stripe not configured".
Proof.
  exact (proj1 (stripe_without_key MoreSamples.bare_world (Samples.order_in "pending")
                  "https://shop.example/ok" "https://shop.example/no" "cs_1"
                  Samples.sample_body "" None ltac:(reflexivity))).
Defined.

(** *** Verification by Stripe *)

(** X15.  The Stripe gateway reports a payment as verified exactly when it
    is configured and the provider returns the session with
    [payment_status] ["paid"]; the result then carries the session's
    amount converted to major units and the status [completed]. *)
Theorem Stripe_verifyPayment_success_iff w paymentId :
  ((exists data, PaymentManager_verifyPayment w "stripe" paymentId = Success data)
   <-> (stripe_ready (config w) = true /\
        exists session, sessions_retrieve (stripe w) paymentId = Return session /\
                        payment_status session = "paid")) /\
  (forall session,
     stripe_ready (config w) = true ->
     sessions_retrieve (stripe w) paymentId = Return session ->
     payment_status session = "paid" ->
     PaymentManager_verifyPayment w "stripe" paymentId =
       Success (mkPaymentResult true (session_id session)
                  (to_major_units (amount_total session))
                  (or_default (session_currency session) "usd")
                  "stripe" "completed" (created session * 1000))).
Proof.
  assert (Hpaid : forall session,
            stripe_ready (config w) = true ->
            sessions_retrieve (stripe w) paymentId = Return session ->
            payment_status session = "paid" ->
            PaymentManager_verifyPayment w "stripe" paymentId =
              Success (mkPaymentResult true (session_id session)
                         (to_major_units (amount_total session))
                         (or_default (session_currency session) "usd")
                         "stripe" "completed" (created session * 1000))).
  { intros session Hready Hsession Hstatus.
    unfold PaymentManager_verifyPayment, gateways_get, gateways. simpl.
    unfold Stripe_verifyPayment. rewrite Hready, Hsession. simpl.
    rewrite Hstatus. reflexivity. }
  split; [|exact Hpaid]. split.
  - intros [data Hdata].
    unfold PaymentManager_verifyPayment, gateways_get, gateways in Hdata.
    simpl in Hdata. unfold Stripe_verifyPayment in Hdata.
    destruct (stripe_ready (config w)); simpl in Hdata; [|discriminate].
    split; [reflexivity|].
    destruct (sessions_retrieve (stripe w) paymentId) as [session|message];
      [|discriminate].
    exists session. split; [reflexivity|].
    destruct (String.eqb_spec (payment_status session) "paid") as [Hp|Hp];
      [exact Hp | discriminate].
  - intros (Hready & session & Hsession & Hstatus).
    eexists. exact (Hpaid session Hready Hsession Hstatus).
Qed.

(** X16.  The [verifyPayment] handler writes only when the gateway returns a
    successful verification with status [completed]; and then it confirms
    the order named in the request, whatever its status was and whichever
    order the payment belongs to. *)
Theorem verifyPayment_handler_writes (w : World) (db : gmap string Order) defaults now
    user id method orderId :
  snd (PaymentController.verifyPayment w db defaults now user id (Some method) orderId)
    <> db ->
  exists data o,
    PaymentManager_verifyPayment w method id = Success data /\
    pr_success data = true /\ pr_status data = "completed" /\
    db !! orderId = Some o /\
    snd (PaymentController.verifyPayment w db defaults now user id (Some method) orderId)
      = <[orderId := updated o defaults now "confirmed" "已确认" (Some "支付验证成功")]> db.
Proof.
  unfold PaymentController.verifyPayment.
  destruct method as [|c m]; [intros H; contradiction|].
  unfold getOrderById.
  destruct (db !! orderId) as [o|] eqn:Hfound; simpl; [|intros H; contradiction].
  destruct (owner_or_admin (include_timeline o) user); simpl; [|intros H; contradiction].
  destruct (PaymentManager_verifyPayment w (String c m) id) as [data|code message];
    simpl; [|intros H; contradiction].
  destruct (pr_success data) eqn:Hsuccess; simpl; [|intros H; contradiction].
  destruct (String.eqb_spec (pr_status data) "completed") as [Hstatus|Hstatus];
    [|intros H; contradiction].
  rewrite (updateOrderStatus_confirmed db defaults now orderId _ o Hfound). simpl.
  intros _. exists data, o. repeat split; assumption.
Qed.

Lemma verifyPayment_handler_writes_witness :
  exists data o,
    PaymentManager_verifyPayment MoreSamples.paid_world "stripe" "cs_1" = Success data /\
    pr_success data = true /\ pr_status data = "completed" /\
    Samples.store_with "pending" !! "order-1" = Some o /\
    snd (PaymentController.verifyPayment MoreSamples.paid_world
           (Samples.store_with "pending") (Samples.tick 5) 1700000000005 Samples.buyer
           "cs_1" (Some "stripe") "order-1")
      = <["order-1" := updated o (Samples.tick 5) 1700000000005 "confirmed" "已确认"
                         (Some "支付验证成功")]> (Samples.store_with "pending").
Proof.
  apply (verifyPayment_handler_writes MoreSamples.paid_world).
  intros Hsame.
  apply (f_equal (fun m : gmap string Order => status <$> m !! "order-1")) in Hsame.
  vm_compute in Hsame. discriminate Hsame.
Defined.

(** X17.  A paid Stripe session confirms the order named in the request,
    for its owner or an administrator.  The session is not compared with
    the order: neither its amount nor the order id of its metadata is
    read. *)
Theorem verifyPayment_paid_session_confirms (w : World) (db : gmap string Order) defaults
    now user id orderId o session :
  stripe_ready (config w) = true ->
  sessions_retrieve (stripe w) id = Return session ->
  payment_status session = "paid" ->
  db !! orderId = Some o ->
  owner_or_admin o user = true ->
  exists data,
    PaymentController.verifyPayment w db defaults now user id (Some "stripe") orderId =
      (Responded 200 (Success data),
       <[orderId := updated o defaults now "confirmed" "已确认" (Some "支付验证成功")]> db).
Proof.
  intros Hready Hsession Hpaid Hfound Howner.
  unfold PaymentController.verifyPayment, getOrderById.
  rewrite Hfound. simpl.
  change (owner_or_admin (include_timeline o) user) with (owner_or_admin o user).
  rewrite Howner. simpl.
  assert (Hresult : PaymentManager_verifyPayment w "stripe" id =
            Success (mkPaymentResult true (session_id session)
                       (to_major_units (amount_total session))
                       (or_default (session_currency session) "usd")
                       "stripe" "completed" (created session * 1000))).
  { unfold PaymentManager_verifyPayment, gateways_get, gateways. simpl.
    unfold Stripe_verifyPayment. rewrite Hready, Hsession. simpl.
    rewrite Hpaid. reflexivity. }
  rewrite Hresult. simpl.
  rewrite (updateOrderStatus_confirmed db defaults now orderId _ o Hfound).
  eexists. reflexivity.
Qed.

Lemma verifyPayment_paid_session_confirms_witness :
  exists data,
    PaymentController.verifyPayment MoreSamples.paid_world (Samples.store_with "shipped")
      (Samples.tick 5) 1700000000005 Samples.buyer "cs_of_another_order"
      (Some "stripe") "order-1" =
      (Responded 200 (Success data),
       <["order-1" := updated (Samples.order_in "shipped") (Samples.tick 5) 1700000000005
                        "confirmed" "已确认" (Some "支付验证成功")]>
         (Samples.store_with "shipped")).
Proof.
  apply (verifyPayment_paid_session_confirms MoreSamples.paid_world
           (Samples.store_with "shipped") (Samples.tick 5) 1700000000005 Samples.buyer
           "cs_of_another_order" "order-1" (Samples.order_in "shipped")
           (mkSession "cs_of_another_order" None "paid" (Some (of_Z 29900)) (Some "usd")
              1700000000)).
  - reflexivity.
  - reflexivity.
  - reflexivity.
  - vm_compute. reflexivity.
  - vm_compute. reflexivity.
Defined.

(** *** Webhooks that are not authenticated *)

(** X18.  The WeChat and Alipay webhook handlers check nothing.  In any
    configuration, a body that names an existing order in
    [out_trade_no] confirms that order. *)
Theorem qr_webhooks_confirm_unchecked w (db : gmap string Order) defaults now body
    orderId o :
  out_trade_no body = Some orderId -> orderId <> "" ->
  db !! orderId = Some o ->
  handleWeChatWebhook w db defaults now body =
    (Responded 200 (Success (RawData body)),
     <[orderId := updated o defaults now "confirmed" "已确认" (Some "微信支付完成")]> db) /\
  handleAlipayWebhook w db defaults now body =
    (Responded 200 (Success (RawData body)),
     <[orderId := updated o defaults now "confirmed" "已确认" (Some "支付宝支付完成")]> db).
Proof.
  intros Hbody Hnonempty Hfound.
  unfold handleWeChatWebhook, handleAlipayWebhook.
  change (PaymentManager_handleWebhook w "wechat" body "")
    with (Success (T := WebhookData) (RawData body)).
  change (PaymentManager_handleWebhook w "alipay" body "")
    with (Success (T := WebhookData) (RawData body)).
  cbv beta iota. rewrite Hbody, (is_set_Some _ Hnonempty).
  unfold confirm_from_webhook. simpl.
  rewrite !(updateOrderStatus_confirmed db defaults now orderId _ o Hfound).
  split; reflexivity.
Qed.

Lemma qr_webhooks_confirm_unchecked_witness :
  status <$>
    snd (handleWeChatWebhook MoreSamples.bare_world (Samples.store_with "pending")
           (Samples.tick 5) 1700000000005 MoreSamples.wechat_body) !! "order-1"
  = Some "confirmed".
Proof.
  rewrite (proj1 (qr_webhooks_confirm_unchecked MoreSamples.bare_world
                    (Samples.store_with "pending") (Samples.tick 5) 1700000000005
                    MoreSamples.wechat_body "order-1" (Samples.order_in "pending")
                    ltac:(reflexivity) ltac:(discriminate)
                    ltac:(vm_compute; reflexivity))).
  cbn [snd]. rewrite lookup_insert_eq. reflexivity.
Defined.

(** X19.  The PayPal webhook handler does not look at the signature, nor at
    the configuration.  A body of type [PAYMENT.SALE.COMPLETED] whose
    [resource.custom] names an existing order confirms that order. *)
Theorem paypal_webhook_confirms_unchecked w (db : gmap string Order) defaults now body
    signature r orderId o :
  event_type body = Some "PAYMENT.SALE.COMPLETED" ->
  resource body = Some r -> custom r = Some orderId -> orderId <> "" ->
  db !! orderId = Some o ->
  handlePayPalWebhook w db defaults now body signature =
    (Responded 200 (Success (PayPalData (event_type body) (resource body))),
     <[orderId := updated o defaults now "confirmed" "已确认" (Some "PayPal支付完成")]> db).
Proof.
  intros Htype Hresource Hcustom Hnonempty Hfound.
  unfold handlePayPalWebhook.
  change (PaymentManager_handleWebhook w "paypal" body signature)
    with (Success (T := WebhookData) (PayPalData (event_type body) (resource body))).
  cbv beta iota. rewrite Htype, Hresource. simpl.
  rewrite Hcustom, (is_set_Some _ Hnonempty).
  unfold confirm_from_webhook. simpl.
  rewrite (updateOrderStatus_confirmed db defaults now orderId _ o Hfound).
  reflexivity.
Qed.

Lemma paypal_webhook_confirms_unchecked_witness :
  status <$>
    snd (handlePayPalWebhook MoreSamples.bare_world (Samples.store_with "pending")
           (Samples.tick 5) 1700000000005 MoreSamples.paypal_body "forged")
      !! "order-1"
  = Some "confirmed".
Proof.
  rewrite (paypal_webhook_confirms_unchecked MoreSamples.bare_world
             (Samples.store_with "pending") (Samples.tick 5) 1700000000005
             MoreSamples.paypal_body "forged" (mkPayPalResource (Some "order-1"))
             "order-1" (Samples.order_in "pending")
             ltac:(reflexivity) ltac:(reflexivity) ltac:(reflexivity)
             ltac:(discriminate) ltac:(vm_compute; reflexivity)).
  cbn [snd]. rewrite lookup_insert_eq. reflexivity.
Defined.

(** *** The Stripe webhook handler *)

(** X20.  [handleStripeWebhook] writes only for a verified event of type
    [checkout.session.completed] whose metadata names an existing order,
    and what it writes is the confirmation of that order. *)
Theorem handleStripeWebhook_writes w (db : gmap string Order) defaults now body
    signature :
  snd (handleStripeWebhook w db defaults now body signature) <> db ->
  exists data event_id orderId o,
    PaymentManager_handleWebhook w "stripe" body signature =
      Success (StripeData "checkout.session.completed" data event_id) /\
    metadata_orderId data = Some orderId /\ db !! orderId = Some o /\
    handleStripeWebhook w db defaults now body signature =
      (Responded 200 (Success (StripeData "checkout.session.completed" data event_id)),
       <[orderId := updated o defaults now "confirmed" "已确认" (Some "Stripe支付完成")]> db).
Proof.
  unfold handleStripeWebhook.
  destruct (PaymentManager_handleWebhook w "stripe" body signature)
    as [[type data event_id| |]|code message]; try (intros H; contradiction).
  destruct (String.eqb_spec type "checkout.session.completed") as [->|Htype];
    [|intros H; contradiction].
  destruct (metadata_orderId data) as [[|c orderId]|] eqn:Hid;
    try (intros H; contradiction).
  cbn [andb is_set default]. unfold confirm_from_webhook.
  destruct (db !! String c orderId) as [o|] eqn:Hfound.
  - rewrite (updateOrderStatus_confirmed db defaults now _ _ o Hfound).
    intros _. exists data, event_id, (String c orderId), o.
    repeat split; assumption.
  - rewrite (OrderExtras.updateOrderStatus_missing db defaults now _ "confirmed" _ Hfound)
      by (vm_compute; reflexivity).
    intros H; contradiction.
Qed.

Lemma handleStripeWebhook_writes_witness :
  exists data event_id orderId o,
    PaymentManager_handleWebhook Samples.sample_world "stripe" Samples.sample_body
      "t=1,v1=good" = Success (StripeData "checkout.session.completed" data event_id) /\
    metadata_orderId data = Some orderId /\
    Samples.store_with "pending" !! orderId = Some o /\
    handleStripeWebhook Samples.sample_world (Samples.store_with "pending")
      (Samples.tick 5) 1700000000005 Samples.sample_body "t=1,v1=good" =
      (Responded 200 (Success (StripeData "checkout.session.completed" data event_id)),
       <[orderId := updated o (Samples.tick 5) 1700000000005 "confirmed" "已确认"
                      (Some "Stripe支付完成")]> (Samples.store_with "pending")).
Proof.
  apply (handleStripeWebhook_writes Samples.sample_world).
  intros Hsame.
  apply (f_equal (fun m : gmap string Order => status <$> m !! "order-1")) in Hsame.
  vm_compute in Hsame. discriminate Hsame.
Defined.

(** X21.  A verified [checkout.session.completed] event that names an order
    the store does not have is answered with 400 [WEBHOOK_ERROR], and
    nothing is written. *)
Theorem stripe_webhook_unknown_order w (db : gmap string Order) defaults now body
    signature data event_id orderId :
  PaymentManager_handleWebhook w "stripe" body signature =
    Success (StripeData "checkout.session.completed" data event_id) ->
  metadata_orderId data = Some orderId -> orderId <> "" ->
  db !! orderId = None ->
  handleStripeWebhook w db defaults now body signature =
    (Responded 400 (Failure "WEBHOOK_ERROR" "Webhook处理失败"), db).
Proof.
  intros Hevent Hid Hnonempty Hmissing.
  unfold handleStripeWebhook. rewrite Hevent, Hid, (is_set_Some _ Hnonempty).
  simpl. unfold confirm_from_webhook.
  rewrite (OrderExtras.updateOrderStatus_missing db defaults now _ "confirmed" _ Hmissing)
    by (vm_compute; reflexivity).
  reflexivity.
Qed.

Lemma stripe_webhook_unknown_order_witness :
  handleStripeWebhook Samples.sample_world ∅ (Samples.tick 5) 1700000000005
    Samples.sample_body "t=1,v1=good" =
    (Responded 400 (Failure "WEBHOOK_ERROR" "Webhook处理失败"), ∅).
Proof.
  apply (stripe_webhook_unknown_order Samples.sample_world ∅ (Samples.tick 5)
           1700000000005 Samples.sample_body "t=1,v1=good"
           (mkEventObject (Some "order-1")) "evt_1" "order-1").
  - reflexivity.
  - reflexivity.
  - discriminate.
  - reflexivity.
Defined.

(** X22.  Once a completed-payment event has been handled for an order, the
    owner can no longer start a payment for it: [createPayment] answers
    400 [INVALID_ORDER_STATUS] for every method, and no gateway is
    called. *)
Theorem createPayment_after_webhook w (db : gmap string Order) defaults now body
    signature data event_id orderId o user method returnUrl cancelUrl :
  PaymentManager_handleWebhook w "stripe" body signature =
    Success (StripeData "checkout.session.completed" data event_id) ->
  metadata_orderId data = Some orderId -> orderId <> "" ->
  db !! orderId = Some o ->
  userId o = user_id user ->
  PaymentController.createPayment w
    (snd (handleStripeWebhook w db defaults now body signature))
    user orderId method returnUrl cancelUrl =
    Responded 400 (Failure "INVALID_ORDER_STATUS" "订单状态不允许创建支付").
Proof.
  intros Hevent Hid Hnonempty Hfound Howner.
  rewrite (handleStripeWebhook_completed w db defaults now body signature data event_id
             orderId o Hevent Hid Hnonempty Hfound).
  cbn [snd]. unfold PaymentController.createPayment, getOrderById.
  rewrite lookup_insert_eq. cbn [fmap option_fmap option_map].
  unfold owner_or_admin.
  change (userId (include_timeline (updated o defaults now "confirmed" "已确认"
                                      (Some "Stripe支付完成"))))
    with (userId o).
  rewrite (bool_decide_eq_true_2 _ Howner). reflexivity.
Qed.

Lemma createPayment_after_webhook_witness :
  PaymentController.createPayment Samples.sample_world
    (snd (handleStripeWebhook Samples.sample_world (Samples.store_with "pending")
            (Samples.tick 5) 1700000000005 Samples.sample_body "t=1,v1=good"))
    Samples.buyer "order-1" (Some "wechat") None None =
    Responded 400 (Failure "INVALID_ORDER_STATUS" "订单状态不允许创建支付").
Proof.
  apply (createPayment_after_webhook Samples.sample_world (Samples.store_with "pending")
           (Samples.tick 5) 1700000000005 Samples.sample_body "t=1,v1=good"
           (mkEventObject (Some "order-1")) "evt_1" "order-1"
           (Samples.order_in "pending")).
  - reflexivity.
  - reflexivity.
  - discriminate.
  - vm_compute. reflexivity.
  - reflexivity.
Defined.

(** *** Fees and refunds *)

(** X23.  Every method that [getPaymentMethods] lists is a registered one,
    is shown as enabled, and the fee rate shown for it is the rate that
    [calculateFees] charges. *)
Theorem listed_fee_is_charged_rate w info amount :
  info ∈ getPaymentMethods w ->
  pm_id info ∈ getSupportedMethods w /\
  pm_enabled info = Val true /\
  exists rate, pm_fees info = Val rate /\
               calculateFees amount (pm_id info) = num_mul amount rate.
Proof.
  unfold getPaymentMethods. rewrite getSupportedMethods_eq. cbn [map].
  intros Hin.
  repeat (apply elem_of_cons in Hin as [->|Hin]);
    [ | | | | apply elem_of_nil in Hin; contradiction ];
    (split; [by_computation|]); (split; [reflexivity|]);
    eexists; (split; [reflexivity|]); reflexivity.
Qed.

Lemma listed_fee_is_charged_rate_witness :
  exists rate,
    getPaymentMethodFees "paypal" = Val rate /\
    calculateFees (of_Z 100) "paypal" = num_mul (of_Z 100) rate.
Proof.
  exact (proj2 (proj2 (listed_fee_is_charged_rate Samples.sample_world
           (mkPaymentMethodInfo "paypal" (getPaymentMethodName "paypal") (Val true)
              (getPaymentMethodFees "paypal") (getPaymentMethodDescription "paypal"))
           (of_Z 100)
           ltac:(apply list_elem_of_further, list_elem_of_here)))).
Defined.

(** X24.  A Stripe refund asked for an amount that is [0] or [NaN] is sent
    to the provider without an amount, that is as a refund of the whole
    payment: the administrators' handler answers as it does when no
    amount is given. *)
Theorem stripe_refund_of_nothing_is_full w user id a :
  truthy a = false ->
  refund_params id (Some a) = refund_params id None /\
  PaymentPages.refundPayment w user id (Some "stripe") (Some a) =
  PaymentPages.refundPayment w user id (Some "stripe") None.
Proof.
  intros Hfalsy.
  assert (Hparams : refund_params id (Some a) = refund_params id None)
    by (unfold refund_params; rewrite Hfalsy; reflexivity).
  split; [exact Hparams|].
  unfold PaymentPages.refundPayment.
  destruct (OrderController.requireRole_admin user); [|reflexivity].
  cbn [negb]. f_equal.
  unfold PaymentManager_refundPayment, gateways_get, gateways. simpl.
  unfold Stripe_refundPayment. rewrite Hparams. reflexivity.
Qed.

Lemma stripe_refund_of_nothing_is_full_witness :
  PaymentPages.refundPayment Samples.sample_world Samples.admin "pi_1" (Some "stripe")
    (Some (of_Z 0)) =
  PaymentPages.refundPayment Samples.sample_world Samples.admin "pi_1" (Some "stripe")
    None.
Proof.
  exact (proj2 (stripe_refund_of_nothing_is_full Samples.sample_world Samples.admin
                  "pi_1" (of_Z 0) ltac:(reflexivity))).
Defined.

End PaymentExtras.

(* ===================================================================== *)
(** ** Properties of the cart and of the checkout *)
(* ===================================================================== *)

Module CartExtras.

Import JsNumber JsObject OrderService OrderController CartService.
Local Open Scope string_scope.
Local Open Scope Z_scope.
Local Open Scope list_scope.

(** *** Reading a cart *)

Lemma insert_by_createdAt_desc_length row rows :
  length (insert_by_createdAt_desc row rows) = S (length rows).
Proof.
  induction rows as [|r rest IH]; [reflexivity|].
  simpl. destruct (cart_createdAt r <? cart_createdAt row); simpl; congruence.
Qed.

Lemma orderBy_createdAt_desc_length rows :
  length (orderBy_createdAt_desc rows) = length rows.
Proof.
  unfold orderBy_createdAt_desc.
  assert (H : forall acc, length (fold_left (fun sorted row =>
                                     insert_by_createdAt_desc row sorted) rows acc)
                          = (length rows + length acc)%nat).
  { induction rows as [|r rest IH]; intros acc; [reflexivity|].
    simpl. rewrite IH, insert_by_createdAt_desc_length. lia. }
  rewrite H. simpl. lia.
Qed.

Lemma filter_own_of_others (cart : list CartItem) user :
  filter (fun item => cart_userId item = user)
         (filter (fun item => cart_userId item <> user) cart) = [].
Proof.
  induction cart as [|r rest IH]; [reflexivity|].
  rewrite (filter_cons (fun item => cart_userId item <> user)).
  destruct (decide (cart_userId r <> user)) as [Hne|Heq]; [|exact IH].
  rewrite filter_cons. destruct (decide (cart_userId r = user)); [contradiction|exact IH].
Qed.

Lemma filter_other_of_others (cart : list CartItem) user other :
  other <> user ->
  filter (fun item => cart_userId item = other)
         (filter (fun item => cart_userId item <> user) cart) =
  filter (fun item => cart_userId item = other) cart.
Proof.
  intros Hother.
  induction cart as [|r rest IH]; [reflexivity|].
  rewrite (filter_cons (fun item => cart_userId item <> user)).
  rewrite (filter_cons (fun item => cart_userId item = other) r rest).
  destruct (decide (cart_userId r <> user)) as [Hne|Heq].
  - rewrite filter_cons. destruct (decide (cart_userId r = other)); congruence.
  - destruct (decide (cart_userId r = other)) as [Ho|Ho]; [|exact IH].
    exfalso. apply Heq. congruence.
Qed.

Lemma clearCart_empties cart user :
  getUserCart (fst (clearCart cart user)) user = mkUserCart [] (of_Z 0) /\
  snd (clearCart cart user) = length (cart_items (getUserCart cart user)).
Proof.
  unfold clearCart, getUserCart. cbn [fst snd cart_items]. split.
  - rewrite filter_own_of_others. reflexivity.
  - rewrite orderBy_createdAt_desc_length. reflexivity.
Qed.

(** X25.  [clearCart] empties the cart of the user and of nobody else: the
    user's cart reads as empty with total [0], the count returned is the
    number of items the user had, and every other user's cart reads as
    before. *)
Theorem clearCart_clears_own_cart_only cart user :
  getUserCart (fst (clearCart cart user)) user = mkUserCart [] (of_Z 0) /\
  snd (clearCart cart user) = length (cart_items (getUserCart cart user)) /\
  forall other, other <> user ->
    getUserCart (fst (clearCart cart user)) other = getUserCart cart other.
Proof.
  split; [exact (proj1 (clearCart_empties cart user))|].
  split; [exact (proj2 (clearCart_empties cart user))|].
  unfold clearCart, getUserCart. cbn [fst].
  intros other Hother. rewrite (filter_other_of_others cart user other Hother).
  reflexivity.
Qed.

Lemma clearCart_clears_own_cart_only_witness :
  getUserCart (fst (clearCart MoreSamples.sample_cart "user-1")) "user-2" =
  getUserCart MoreSamples.sample_cart "user-2".
Proof.
  exact (proj2 (proj2 (clearCart_clears_own_cart_only MoreSamples.sample_cart "user-1"))
           "user-2" ltac:(discriminate)).
Defined.

(** *** Changing a cart item *)

Section UpdatedRows.

Variable f : CartItem -> CartItem.
Hypothesis f_user : forall r, cart_userId (f r) = cart_userId r.
Hypothesis f_stamp : forall r, cart_createdAt (f r) = cart_createdAt r.
Hypothesis f_price : forall r, cart_totalPrice (f r) = cart_totalPrice r.

Lemma filter_user_map (cart : list CartItem) user :
  filter (fun item => cart_userId item = user) (map f cart) =
  map f (filter (fun item => cart_userId item = user) cart).
Proof.
  induction cart as [|r rest IH]; [reflexivity|].
  cbn [map]. rewrite !filter_cons, f_user.
  destruct (decide (cart_userId r = user)); cbn [map]; rewrite IH; reflexivity.
Qed.

Lemma insert_by_createdAt_desc_map row rows :
  insert_by_createdAt_desc (f row) (map f rows) =
  map f (insert_by_createdAt_desc row rows).
Proof.
  induction rows as [|r rest IH]; [reflexivity|].
  cbn [map insert_by_createdAt_desc]. rewrite !f_stamp.
  destruct (cart_createdAt r <? cart_createdAt row); cbn [map]; [reflexivity|].
  rewrite IH. reflexivity.
Qed.

Lemma orderBy_createdAt_desc_map rows :
  orderBy_createdAt_desc (map f rows) = map f (orderBy_createdAt_desc rows).
Proof.
  unfold orderBy_createdAt_desc.
  change (@nil CartItem) with (map f []) at 1.
  generalize (@nil CartItem) as acc.
  induction rows as [|r rest IH]; intros acc; [reflexivity|].
  cbn [map fold_left]. rewrite insert_by_createdAt_desc_map. apply IH.
Qed.

Lemma sum_totalPrice_map rows start :
  fold_left (fun sum item => num_add sum (cart_totalPrice item)) (map f rows) start =
  fold_left (fun sum item => num_add sum (cart_totalPrice item)) rows start.
Proof.
  revert start. induction rows as [|r rest IH]; intros start; [reflexivity|].
  cbn [map fold_left]. rewrite f_price. apply IH.
Qed.

Lemma getUserCart_map cart user :
  cart_items (getUserCart (map f cart) user) = map f (cart_items (getUserCart cart user)) /\
  cart_total (getUserCart (map f cart) user) = cart_total (getUserCart cart user).
Proof.
  unfold getUserCart. cbn [cart_items cart_total].
  rewrite filter_user_map, orderBy_createdAt_desc_map, sum_totalPrice_map.
  split; reflexivity.
Qed.

End UpdatedRows.

(** X26.  [updateCartItem] writes the quantity and the accessories and no
    price: after a successful update every row has the [totalPrice] and
    [unitPrice] it had, so the total of every user's cart is what it was,
    also when the quantity of an item has changed. *)
Theorem updateCartItem_keeps_prices cart id data cart' item' :
  updateCartItem cart id data = Return (cart', item') ->
  map cart_totalPrice cart' = map cart_totalPrice cart /\
  map unitPrice cart' = map unitPrice cart /\
  forall user, cart_total (getUserCart cart' user) = cart_total (getUserCart cart user).
Proof.
  unfold updateCartItem.
  destruct (List.find _ cart) as [item|]; [|discriminate].
  intros Hresult. injection Hresult as <- <-.
  set (f := fun r => if String.eqb (cart_item_id r) id then update_row data r else r).
  assert (Hprice : forall r, cart_totalPrice (f r) = cart_totalPrice r)
    by (intros r; unfold f; destruct (String.eqb (cart_item_id r) id); reflexivity).
  assert (Hunit : forall r, unitPrice (f r) = unitPrice r)
    by (intros r; unfold f; destruct (String.eqb (cart_item_id r) id); reflexivity).
  assert (Huser : forall r, cart_userId (f r) = cart_userId r)
    by (intros r; unfold f; destruct (String.eqb (cart_item_id r) id); reflexivity).
  assert (Hstamp : forall r, cart_createdAt (f r) = cart_createdAt r)
    by (intros r; unfold f; destruct (String.eqb (cart_item_id r) id); reflexivity).
  repeat split.
  - rewrite map_map. apply map_ext. exact Hprice.
  - rewrite map_map. apply map_ext. exact Hunit.
  - intros user. exact (proj2 (getUserCart_map f Huser Hstamp Hprice cart user)).
Qed.

Lemma updateCartItem_keeps_prices_witness :
  exists cart' item',
    updateCartItem MoreSamples.sample_cart "c1"
      (mkUpdateCartItemData (Some (of_Z 5)) None) = Return (cart', item') /\
    cart_quantity item' = of_Z 5 /\
    cart_total (getUserCart cart' "user-1") =
    cart_total (getUserCart MoreSamples.sample_cart "user-1").
Proof.
  eexists _, _. split; [reflexivity|]. split; [reflexivity|].
  exact (proj2 (proj2 (updateCartItem_keeps_prices MoreSamples.sample_cart "c1"
                         (mkUpdateCartItemData (Some (of_Z 5)) None) _ _ eq_refl))
           "user-1").
Defined.

(** X27.  An update that carries the quantity [0] (or [NaN]) and no list of
    accessories succeeds when the row exists and changes nothing. *)
Theorem updateCartItem_quantity_zero cart id q cart' item' :
  truthy q = false ->
  updateCartItem cart id (mkUpdateCartItemData (Some q) None) = Return (cart', item') ->
  cart' = cart /\ item' ∈ cart /\ cart_item_id item' = id.
Proof.
  intros Hfalsy. unfold updateCartItem.
  assert (Hsame : forall r, update_row (mkUpdateCartItemData (Some q) None) r = r)
    by (intros r; unfold update_row; cbn [upd_quantity upd_selectedAccessories];
        rewrite Hfalsy; destruct r; reflexivity).
  destruct (List.find _ cart) as [item|] eqn:Hfind; [|discriminate].
  intros Hresult. injection Hresult as <- <-.
  apply find_some in Hfind as [Hin Hid].
  rewrite Hsame. repeat split.
  - rewrite <- (map_id cart) at 2. apply map_ext. intros r. rewrite Hsame.
    destruct (String.eqb (cart_item_id r) id); reflexivity.
  - apply list_elem_of_In. exact Hin.
  - apply String.eqb_eq. exact Hid.
Qed.

Lemma updateCartItem_quantity_zero_witness :
  exists cart' item',
    updateCartItem MoreSamples.sample_cart "c3"
      (mkUpdateCartItemData (Some (of_Z 0)) None) = Return (cart', item') /\
    cart' = MoreSamples.sample_cart.
Proof.
  eexists _, _. split; [reflexivity|].
  exact (proj1 (updateCartItem_quantity_zero MoreSamples.sample_cart "c3" (of_Z 0) _ _
                  eq_refl eq_refl)).
Defined.

(** *** Adding and removing *)

Lemma filter_not_id_fresh (cart : list CartItem) id :
  id ∉ map cart_item_id cart ->
  filter (fun r => cart_item_id r <> id) cart = cart /\
  List.find (fun item => String.eqb (cart_item_id item) id) cart = None.
Proof.
  induction cart as [|r rest IH]; intros Hfresh; [split; reflexivity|].
  cbn [map] in Hfresh. apply not_elem_of_cons in Hfresh as [Hne Hrest].
  destruct (IH Hrest) as [Hfilter Hfind].
  split.
  - rewrite filter_cons. destruct (decide (cart_item_id r <> id)) as [_|Heq].
    + rewrite Hfilter. reflexivity.
    + exfalso. apply Heq. congruence.
  - cbn [List.find]. rewrite (proj2 (String.eqb_neq _ _)) by congruence. exact Hfind.
Qed.

Lemma find_app_None {A : Type} (p : A -> bool) (l l' : list A) :
  List.find p l = None -> List.find p (l ++ l') = List.find p l'.
Proof.
  induction l as [|a rest IH]; [reflexivity|].
  cbn [List.find app]. destruct (p a); [discriminate|exact IH].
Qed.

(** X28.  Removing the item that [addToCart] has just added gives back the
    cart as it was, and returns that item. *)
Theorem addToCart_then_removeFromCart cart defaults data cart' item :
  addToCart cart defaults data = Return (cart', item) ->
  removeFromCart cart' (cart_item_id item) = Return (cart, item).
Proof.
  unfold addToCart.
  destruct (bool_decide (new_id defaults ∈ map cart_item_id cart)) eqn:Hfresh;
    [discriminate|].
  apply bool_decide_eq_false_1 in Hfresh.
  intros Hresult. injection Hresult as <- <-. cbn [cart_item_id].
  destruct (filter_not_id_fresh cart (new_id defaults) Hfresh) as [Hfilter Hfind].
  unfold removeFromCart.
  rewrite (find_app_None _ _ _ Hfind). cbn [List.find cart_item_id].
  rewrite String.eqb_refl.
  rewrite filter_app, Hfilter, filter_cons.
  cbn [cart_item_id].
  destruct (decide (new_id defaults <> new_id defaults)) as [Hne|_]; [congruence|].
  rewrite filter_nil, app_nil_r. reflexivity.
Qed.

Lemma addToCart_then_removeFromCart_witness :
  exists cart' item,
    addToCart MoreSamples.sample_cart (mkRowDefaults "c9" 9)
      (mkAddToCartData "user-2" "prod-3" None (of_Z 2) "size-l" [] [] (of_Z 50) (of_Z 100))
      = Return (cart', item) /\
    removeFromCart cart' "c9" = Return (MoreSamples.sample_cart, item).
Proof.
  eexists _, _. split; [vm_compute; reflexivity|].
  exact (addToCart_then_removeFromCart MoreSamples.sample_cart (mkRowDefaults "c9" 9)
           (mkAddToCartData "user-2" "prod-3" None (of_Z 2) "size-l" [] [] (of_Z 50)
              (of_Z 100)) _ _ ltac:(vm_compute; reflexivity)).
Defined.

(** *** From the cart to an order *)

(** X29.  [createOrder] with its cart is all or nothing on the two tables.
    Either it answers 201 with the new order, which is the only change of
    the order store, and the requester's cart is cleared; or it answers
    with an error and leaves both the orders and the cart as they were.
    The total of the new order is computed from the request alone: no
    price of the cart is read. *)
Theorem checkout_all_or_nothing orders cart defaults now user estimated orderItems
    req_notes outcome orders' cart' :
  Checkout.createOrder orders cart defaults now user estimated orderItems req_notes =
    (outcome, orders', cart') ->
  (exists o, outcome = Responded 201 (Success o) /\
             orders !! new_id defaults = None /\
             orders' = <[new_id defaults := o]> orders /\
             userId o = user_id user /\ status o = "pending" /\
             totalAmount o = order_total orderItems /\
             cart' = fst (clearCart cart (user_id user)))
  \/ ((forall st o, outcome <> Responded st (Success o)) /\
      orders' = orders /\ cart' = cart).
Proof.
  unfold Checkout.createOrder, OrderController.createOrder.
  destruct (map cart_productId (cart_items (getUserCart cart (user_id user))))
    as [|p ps].
  { intros H; injection H as <- <- <-. right. repeat split; discriminate. }
  destruct (missing_from_cart (p :: ps) orderItems).
  { intros H; injection H as <- <- <-. right. repeat split; discriminate. }
  unfold OrderService.createOrder.
  destruct (orders !! new_id defaults) eqn:Hfree.
  { intros H; injection H as <- <- <-. right. repeat split; discriminate. }
  intros H; injection H as <- <- <-. left.
  eexists. repeat split.
Qed.

Lemma checkout_sample :
  Checkout.createOrder ∅ MoreSamples.sample_cart (Samples.tick 0) 1700000000000
    Samples.buyer 1700600000000 Samples.request_items None =
    (Responded 201 (Success Samples.order_requested),
     {[ "order-1" := Samples.order_requested ]},
     [ MoreSamples.cart_row "c2" "user-2" "prod-1" 2 ]).
Proof. vm_compute. reflexivity. Qed.

Lemma checkout_all_or_nothing_witness :
  (exists o, Responded 201 (Success Samples.order_requested) = Responded 201 (Success o) /\
             (∅ : gmap string Order) !! "order-1" = None /\
             ({[ "order-1" := Samples.order_requested ]} : gmap string Order) =
               <["order-1" := o]> ∅ /\
             userId o = "user-1" /\ status o = "pending" /\
             totalAmount o = order_total Samples.request_items /\
             [ MoreSamples.cart_row "c2" "user-2" "prod-1" 2 ] =
               fst (clearCart MoreSamples.sample_cart "user-1"))
  \/ ((forall st o, Responded 201 (Success Samples.order_requested)
                      <> Responded st (Success o)) /\
      ({[ "order-1" := Samples.order_requested ]} : gmap string Order) = ∅ /\
      [ MoreSamples.cart_row "c2" "user-2" "prod-1" 2 ] = MoreSamples.sample_cart).
Proof.
  exact (checkout_all_or_nothing ∅ MoreSamples.sample_cart (Samples.tick 0)
           1700000000000 Samples.buyer 1700600000000 Samples.request_items None
           _ _ _ checkout_sample).
Defined.

(** X30.  A checkout that has succeeded leaves the requester without a
    cart, so the same request sent again is refused with 400
    [EMPTY_CART] and creates no second order. *)
Theorem checkout_twice orders cart d1 t1 user e1 items1 notes1 st o orders' cart'
    d2 t2 e2 items2 notes2 :
  Checkout.createOrder orders cart d1 t1 user e1 items1 notes1 =
    (Responded st (Success o), orders', cart') ->
  Checkout.createOrder orders' cart' d2 t2 user e2 items2 notes2 =
    (Responded 400 (Failure "EMPTY_CART" "购物车为空"), orders', cart').
Proof.
  intros Hfirst.
  assert (Hcleared : cart' = fst (clearCart cart (user_id user))).
  { unfold Checkout.createOrder in Hfirst.
    destruct (OrderController.createOrder orders d1 t1 user _ e1 items1 notes1)
      as [[st' [o'|code message]|message] orders''];
      injection Hfirst; intros; subst; try discriminate; reflexivity. }
  subst cart'. unfold Checkout.createOrder.
  rewrite (proj1 (clearCart_empties cart (user_id user))).
  reflexivity.
Qed.

Lemma checkout_twice_witness :
  Checkout.createOrder {[ "order-1" := Samples.order_requested ]}
    [ MoreSamples.cart_row "c2" "user-2" "prod-1" 2 ] (Samples.tick 9) 1700000000009
    Samples.buyer 1700600000009 Samples.request_items None =
    (Responded 400 (Failure "EMPTY_CART" "购物车为空"),
     {[ "order-1" := Samples.order_requested ]},
     [ MoreSamples.cart_row "c2" "user-2" "prod-1" 2 ]).
Proof.
  exact (checkout_twice ∅ MoreSamples.sample_cart (Samples.tick 0) 1700000000000
           Samples.buyer 1700600000000 Samples.request_items None _ _ _ _
           (Samples.tick 9) 1700000000009 1700600000009 Samples.request_items None
           checkout_sample).
Defined.

End CartExtras.
